(** * ClarityAI: a shallow embedding of the chat client, the chat edge
      function and the message-count trigger.

    The development follows the repository's layout:
    - [JS]         the fragment of the JavaScript runtime the sources rely on
                   (strings as UTF-16 code units, [trim], [includes], JSON
                   values, truthiness);
    - [Therapist]  [frontend/src/utils/therapistResponses.ts];
    - [EdgeChat]   [supabase/functions/chat/index.ts];
    - [Api]        [frontend/src/services/api.ts];
    - [History]    the history endpoint the client calls;
    - [UseChat]    [frontend/src/hooks/useChat.ts];
    - [Migration]  [frontend/supabase/migrations/20250625073920_broken_gate.sql].
*)

From Stdlib Require Import List ZArith NArith QArith Bool String Ascii Lia.
From Stdlib Require Import Sorting.Sorted Sorting.Permutation DecimalString.
Import ListNotations.
Close Scope Q_scope.

Set Implicit Arguments.

(* ------------------------------------------------------------------ *)
(** ** The JavaScript runtime fragment *)

Module JS.

(** A JavaScript string is a sequence of UTF-16 code units. *)
Definition jsstring := list N.

(** String literals of the sources are ASCII; [js] embeds them. *)
Definition js (s : string) : jsstring :=
  map N_of_ascii (list_ascii_of_string s).

Definition jsstring_eqb (a b : jsstring) : bool :=
  if list_eq_dec N.eq_dec a b then true else false.

Fixpoint startsWith (hay needle : jsstring) : bool :=
  match needle, hay with
  | [], _ => true
  | _ :: _, [] => false
  | n :: needle', h :: hay' => N.eqb n h && startsWith hay' needle'
  end.

(** [String.prototype.includes]: the needle occurs at some position. *)
Fixpoint includes (hay needle : jsstring) : bool :=
  startsWith hay needle ||
  match hay with
  | [] => false
  | _ :: hay' => includes hay' needle
  end.

(** ECMAScript [WhiteSpace] and [LineTerminator] code points, the ones
    [String.prototype.trim] strips. *)
Definition is_whitespace (c : N) : bool :=
  existsb (N.eqb c)
    [0x0009; 0x000A; 0x000B; 0x000C; 0x000D; 0x0020; 0x00A0; 0x1680;
     0x2000; 0x2001; 0x2002; 0x2003; 0x2004; 0x2005; 0x2006; 0x2007;
     0x2008; 0x2009; 0x200A; 0x2028; 0x2029; 0x202F; 0x205F; 0x3000;
     0xFEFF]%N.

Fixpoint trimStart (s : jsstring) : jsstring :=
  match s with
  | c :: s' => if is_whitespace c then trimStart s' else s
  | [] => []
  end.

Definition trimEnd (s : jsstring) : jsstring := rev (trimStart (rev s)).

Definition trim (s : jsstring) : jsstring := trimEnd (trimStart s).

(** A string is truthy unless it is empty. *)
Definition truthy_string (s : jsstring) : bool :=
  match s with [] => false | _ :: _ => true end.

(** [Array.prototype.some]. *)
Definition some {A} (p : A -> bool) (l : list A) : bool := existsb p l.

(** [Number.prototype.toString] on an integer. *)
Definition Z_toString (z : Z) : jsstring :=
  js (NilZero.string_of_int (Z.to_int z)).

(** [String.prototype.replace] with a string pattern: the first occurrence
    only. *)
Fixpoint replace (s pat rep : jsstring) : jsstring :=
  if startsWith s pat then rep ++ skipn (List.length pat) s
  else match s with
       | [] => []
       | c :: s' => c :: replace s' pat rep
       end.

(** Values that [JSON.parse] produces. *)
#[warnings="-register-all"] Inductive json :=
| JNull
| JBool (b : bool)
| JNum (q : Q)
| JStr (s : jsstring)
| JArr (items : list json)
| JObj (fields : list (jsstring * json)).

(** A JavaScript value read from a parsed document: [None] is [undefined]. *)
Definition value := option json.

Definition truthy (v : value) : bool :=
  match v with
  | None => false
  | Some JNull => false
  | Some (JBool b) => b
  | Some (JNum q) => negb (Qnum q =? 0)%Z
  | Some (JStr s) => truthy_string s
  | Some (JArr _) => true
  | Some (JObj _) => true
  end.

Fixpoint lookup (k : jsstring) (fields : list (jsstring * json)) : value :=
  match fields with
  | [] => None
  | (k', v) :: rest => if jsstring_eqb k k' then Some v else lookup k rest
  end.

(** Outcome of an evaluation that may throw; the payload of [Throw] is what
    the [catch] clause receives. *)
Inductive completion (E A : Type) :=
| Normal (a : A)
| Throw (e : E).
Arguments Normal {E A} a.
Arguments Throw {E A} e.

(** What V8 reports when a property of [null] is read. *)
Definition null_property_message (k : jsstring) : jsstring :=
  js "Cannot read properties of null (reading '" ++ k ++ js "')".

(** [j.k] for a data property [k]: own properties of objects; reading from
    [null] throws a [TypeError]; the other values have no such property.
    ([length], indices and prototype members are never read by the sources.) *)
Definition getProp (j : json) (k : jsstring) : completion jsstring value :=
  match j with
  | JNull => Throw (null_property_message k)
  | JObj fields => Normal (lookup k fields)
  | _ => Normal None
  end.

(** [xs[Math.floor(Math.random() * xs.length)]]: the draw is an input of the
    model; the index it selects ranges over [0 .. length xs - 1]. *)
Definition pick {A} (draw : nat) (xs : list A) (d : A) : A :=
  nth (draw mod List.length xs) xs d.

End JS.

(* ------------------------------------------------------------------ *)
(** ** frontend/src/utils/therapistResponses.ts *)

Module Therapist.
Import JS.

Definition therapistResponses : list jsstring := map js
  [ "I hear you, and I want you to know that what you're feeling is completely valid. Can you tell me more about what's contributing to these feelings?";
    "That sounds really challenging. You've shown a lot of courage by sharing this with me. What has helped you cope with similar situations in the past?";
    "I appreciate you opening up about this. It takes strength to acknowledge these feelings. How long have you been experiencing this?";
    "Thank you for trusting me with this. Your feelings are important and deserve to be heard. What would it look like if this situation improved?";
    "I can sense this is weighing heavily on you. You're not alone in feeling this way. What kind of support do you feel you need right now?";
    "It sounds like you're going through a really difficult time. I'm here to support you through this. What's one small step you feel ready to take?";
    "Your perspective is valuable, and I'm glad you shared it with me. How has this been affecting other areas of your life?";
    "I can hear the pain in your words, and I want you to know that healing is possible. What does self-care look like for you?";
    "That must feel overwhelming. You're taking an important step by talking about it. What would you like to focus on in our conversation today?";
    "I notice you're being really thoughtful about this. Sometimes our emotions can feel complex. Can you help me understand what you're experiencing right now?"
  ]%string.

Definition copingResponses : list jsstring := map js
  [ "Those are healthy coping strategies. It's wonderful that you're aware of what helps you. How can we build on these strengths?";
    "I'm impressed by your resilience. These tools you've developed show real wisdom. Which of these feels most accessible to you right now?";
    "It sounds like you have some good insights into what works for you. That self-awareness is a real asset in your healing journey."
  ]%string.

Definition crisisKeywords : list jsstring := map js
  ["suicide"; "kill"; "hurt myself"; "end it all"; "die"; "worthless"; "hopeless"]%string.
Definition anxietyKeywords : list jsstring := map js
  ["anxiety"; "anxious"; "panic"; "worry"; "nervous"; "stressed"]%string.
Definition depressionKeywords : list jsstring := map js
  ["depressed"; "sad"; "hopeless"; "empty"; "lonely"; "worthless"]%string.
Definition copingKeywords : list jsstring := map js
  ["meditation"; "exercise"; "therapy"; "support"; "help"; "better"]%string.

Definition crisisResponse : jsstring := js
  "I'm really concerned about what you're sharing with me. Your safety is my top priority. If you're having thoughts of hurting yourself, please reach out to a crisis helpline immediately: National Suicide Prevention Lifeline (988) or Crisis Text Line (text HOME to 741741). Are you safe right now?".

Definition anxietyResponse : jsstring := js
  "Anxiety can feel overwhelming, but you're not alone in this experience. Many people find relief through grounding techniques like deep breathing or the 5-4-3-2-1 method. What physical sensations do you notice when anxiety arises?".

Definition depressionResponse : jsstring := js
  "Depression can make everything feel heavier and more difficult. I want you to know that these feelings, while valid and real, don't define your worth. What's one small thing that has brought you even a moment of peace recently?".

(** [types/chat.ts]: the entries of the conversation history. *)
Inductive Sender := user | therapist.

Record Message := mkMessage {
  id : jsstring;
  content : jsstring;
  sender : Sender;
  timestamp : Z;
  isTyping : option bool
}.

Section WithRuntime.

(** [String.prototype.toLowerCase] is the runtime's Unicode case mapping;
    nothing below depends on what it does to any character. *)
Variable toLowerCase : jsstring -> jsstring.

(** The value the returned promise resolves with.  [draw] is the outcome
    of [Math.random()] in the two branches that use it. *)
Definition generateTherapistResponse
    (draw : nat) (userInput : jsstring) (conversationHistory : list Message)
    : jsstring :=
  let input := toLowerCase userInput in
  if some (fun keyword => includes input keyword) crisisKeywords then
    crisisResponse
  else if some (fun keyword => includes input keyword) anxietyKeywords then
    anxietyResponse
  else if some (fun keyword => includes input keyword) depressionKeywords then
    depressionResponse
  else if some (fun keyword => includes input keyword) copingKeywords then
    pick draw copingResponses []
  else
    pick draw therapistResponses [].

End WithRuntime.

(** ASCII case folding, an instance of the runtime function on which the
    model can be run. *)
Definition ascii_toLowerCase (s : jsstring) : jsstring :=
  map (fun c => if (0x41 <=? c)%N && (c <=? 0x5A)%N then (c + 0x20)%N else c) s.

End Therapist.

(* ------------------------------------------------------------------ *)
(** ** The [ChatResponse] interface
    (declared alike in [services/api.ts] and in the edge function) *)

Module Types.
Import JS.

Record Insight := mkInsight {
  pattern : option jsstring;
  confidence : Q;
  description : jsstring;
  therapeutic_approach : jsstring
}.

Record ChatResponse := mkChatResponse {
  content : jsstring;
  psychological_insight : option Insight;
  emotional_state : option jsstring;
  topic_classification : option jsstring;
  suggestions : option (list jsstring);
  session_id : jsstring;
  timestamp : jsstring;
  confidence_score : Q
}.

(** [JSON.stringify] followed by [JSON.parse]: absent optional members are
    left out of the document. *)
Definition opt_field {A} (k : string) (enc : A -> json) (o : option A)
    : list (jsstring * json) :=
  match o with
  | Some a => [(js k, enc a)]
  | None => []
  end.

Definition insight_json (i : Insight) : json :=
  JObj (opt_field "pattern" JStr (pattern i) ++
        [ (js "confidence", JNum (confidence i));
          (js "description", JStr (description i));
          (js "therapeutic_approach", JStr (therapeutic_approach i)) ]).

Definition chatResponse_json (r : ChatResponse) : json :=
  JObj ([ (js "content", JStr (content r)) ] ++
        opt_field "psychological_insight" insight_json (psychological_insight r) ++
        opt_field "emotional_state" JStr (emotional_state r) ++
        opt_field "topic_classification" JStr (topic_classification r) ++
        opt_field "suggestions" (fun l => JArr (map JStr l)) (suggestions r) ++
        [ (js "session_id", JStr (session_id r));
          (js "timestamp", JStr (timestamp r));
          (js "confidence_score", JNum (confidence_score r)) ]).

End Types.

(* ------------------------------------------------------------------ *)
(** ** supabase/functions/chat/index.ts *)

Module EdgeChat.
Import JS.
Import Types.

(** Outcome of [await req.json()]. *)
Inductive ParsedBody :=
| BodyRejected (message : jsstring)
| BodyParsed (j : json).

Record Request := mkRequest {
  method : jsstring;
  authorization : option jsstring;
  body : ParsedBody
}.

(** The object handed to [supabase.from('messages').insert]. *)
Record Row := mkRow {
  row_session_id : json;
  row_user_id : jsstring;
  row_content : json;
  row_sender : jsstring;
  row_message_type : jsstring
}.

(** What the handler takes from its surroundings: [getUser token] is the
    user id when [supabase.auth.getUser] reports no error and a user;
    [draw], [now] and [iso_now] are [Math.random()], [Date.now()] and
    [new Date().toISOString()].  The [messages] table is declared in no
    schema of the repository: whether the hosted database accepts a row,
    given the rows it holds, is the parameter [accepts]. *)
Record Env := mkEnv {
  getUser : jsstring -> option jsstring;
  accepts : list Row -> Row -> bool;
  draw : nat;
  now : Z;
  iso_now : jsstring
}.

Inductive ResponseBody :=
| BodyText (t : jsstring)
| BodyChat (r : ChatResponse)
| BodyError (error timestamp : jsstring).

Record Response := mkResponse {
  status : Z;
  payload : ResponseBody
}.

Inductive LogEntry :=
| ErrorStoringMessage
| ErrorStoringAIMessage.

Definition responses : list jsstring := map js
  [ "I understand you're sharing something important with me. Can you tell me more about how that makes you feel?";
    "Thank you for opening up about that. What thoughts come to mind when you reflect on this experience?";
    "It sounds like you're going through something challenging. How are you coping with these feelings?";
    "I appreciate you sharing that with me. What would you like to explore further about this situation?";
    "That sounds significant. How has this been affecting your daily life?"
  ]%string.

Definition generateTherapyResponse (env : Env) (userMessage : json) : ChatResponse :=
  let randomResponse := pick (draw env) responses [] in
  {| content := randomResponse;
     psychological_insight := Some
       {| pattern := Some (js "Active listening");
          confidence := 8 # 10;
          description := js "Encouraging further exploration and emotional expression";
          therapeutic_approach := js "Person-centered therapy" |};
     emotional_state := Some (js "supportive");
     topic_classification := Some (js "general");
     suggestions := Some (map js
       [ "Take time to reflect on your feelings";
         "Consider journaling about this experience";
         "Practice mindfulness when these thoughts arise" ]%string);
     session_id := Z_toString (now env);
     timestamp := iso_now env;
     confidence_score := 75 # 100 |}.

(** [await supabase.from('messages').insert(row)]: the new table and whether
    an error came back. *)
Definition insert (env : Env) (messages : list Row) (row : Row)
    : list Row * bool :=
  if accepts env messages row then (messages ++ [row], false)
  else (messages, true).

(** The checks at the head of the [try] block; the result is the pair
    [(body.content, body.session_id)]. *)
Definition validate (req : Request) : completion jsstring (json * json) :=
  if negb (jsstring_eqb (method req) (js "POST")) then
    Throw (js "Method not allowed")
  else
    match body req with
    | BodyRejected m => Throw m
    | BodyParsed b =>
        match getProp b (js "content") with
        | Throw m => Throw m
        | Normal c =>
            if negb (truthy c) then
              Throw (js "Missing required fields: content and session_id")
            else
              match getProp b (js "session_id") with
              | Throw m => Throw m
              | Normal sid =>
                  if negb (truthy sid) then
                    Throw (js "Missing required fields: content and session_id")
                  else
                    match c, sid with
                    | Some c', Some sid' => Normal (c', sid')
                    | _, _ => Throw (js "Missing required fields: content and session_id")
                    end
              end
        end
    end.

Definition userId_of (env : Env) (req : Request) : jsstring :=
  match authorization req with
  | Some authHeader =>
      if truthy_string authHeader then
        let token := replace authHeader (js "Bearer ") [] in
        match getUser env token with
        | Some uid => uid
        | None => js "anonymous"
        end
      else js "anonymous"
  | None => js "anonymous"
  end.

(** The request handler: the response, the [messages] table afterwards and
    what was written to the console. *)
Definition handler (env : Env) (req : Request) (messages : list Row)
    : Response * list Row * list LogEntry :=
  if jsstring_eqb (method req) (js "OPTIONS") then
    ({| status := 200; payload := BodyText (js "ok") |}, messages, [])
  else
    match validate req with
    | Throw m =>
        ({| status := 400; payload := BodyError m (iso_now env) |}, messages, [])
    | Normal (c, sid) =>
        let userId := userId_of env req in
        let '(messages1, messageError) :=
          insert env messages
            {| row_session_id := sid; row_user_id := userId; row_content := c;
               row_sender := js "user"; row_message_type := js "text" |} in
        let log1 := if messageError then [ErrorStoringMessage] else [] in
        let aiResponse := generateTherapyResponse env c in
        let '(messages2, aiMessageError) :=
          insert env messages1
            {| row_session_id := sid; row_user_id := userId;
               row_content := JStr (content aiResponse);
               row_sender := js "ai"; row_message_type := js "text" |} in
        let log2 := if aiMessageError then [ErrorStoringAIMessage] else [] in
        ({| status := 200; payload := BodyChat aiResponse |},
         messages2, log1 ++ log2)
    end.

(** The body as the client's [response.json()] sees it; ['ok'] is not a JSON
    document. *)
Definition body_json (r : Response) : option json :=
  match payload r with
  | BodyText _ => None
  | BodyChat c => Some (chatResponse_json c)
  | BodyError e t => Some (JObj [(js "error", JStr e); (js "timestamp", JStr t)])
  end.

(** The table gained exactly one ['user'] row and one ['ai'] row, and
    nothing else. *)
Definition persisted_pair (before after : list Row) : Prop :=
  exists u a, after = before ++ [u; a]
              /\ row_sender u = js "user" /\ row_sender a = js "ai".

End EdgeChat.

(* ------------------------------------------------------------------ *)
(** ** frontend/src/services/api.ts *)

Module Api.
Import JS.

(** A [fetch] response as the service reads it: the [ok] flag and the
    outcome of [response.json()], [None] when the body is not JSON. *)
Record Response := mkResponse {
  ok : bool;
  json_body : option json
}.

(** [await fetch(...)] either rejects or yields a response. *)
Inductive FetchOutcome :=
| FetchRejected
| Fetched (r : Response).

(** What a rejected promise of the service carries.  [Error v] is
    [new Error(v)]: its message is the string conversion of [v], [s] itself
    for [v = JStr s]. *)
Inductive Thrown :=
| Error (message : json)
| SyntaxError
| TypeError (message : jsstring)
| NetworkError.

Definition failedToSend : jsstring := js "Failed to send message".

(** [sendMessage]: whatever is thrown inside the [try] is logged and
    rethrown. *)
Definition sendMessage (outcome : FetchOutcome) : completion Thrown json :=
  match outcome with
  | FetchRejected => Throw NetworkError
  | Fetched response =>
      if negb (ok response) then
        match json_body response with
        | None => Throw SyntaxError
        | Some error =>
            match getProp error (js "detail") with
            | Throw m => Throw (TypeError m)
            | Normal (Some detail) =>
                if truthy (Some detail) then Throw (Error detail)
                else Throw (Error (JStr failedToSend))
            | Normal None => Throw (Error (JStr failedToSend))
            end
        end
      else
        match json_body response with
        | None => Throw SyntaxError
        | Some data => Normal data
        end
  end.

(** [getSessionHistory]: every failure ends in the empty list. *)
Definition getSessionHistory (outcome : FetchOutcome) : json :=
  match outcome with
  | FetchRejected => JArr []
  | Fetched response =>
      if negb (ok response) then JArr []
      else
        match json_body response with
        | None => JArr []
        | Some data =>
            match getProp data (js "history") with
            | Throw _ => JArr []
            | Normal (Some history) =>
                if truthy (Some history) then history else JArr []
            | Normal None => JArr []
            end
        end
  end.

Definition checkHealth (outcome : FetchOutcome) : bool :=
  match outcome with
  | FetchRejected => false
  | Fetched response => ok response
  end.

(** The error body has a member [detail] that is a string. *)
Definition has_detail_string (r : Response) : Prop :=
  exists fields d, json_body r = Some (JObj fields)
                   /\ lookup (js "detail") fields = Some (JStr d).

(** The chat edge function's answer as [fetch] delivers it. *)
Definition of_edge (r : EdgeChat.Response) : Response :=
  {| ok := (200 <=? EdgeChat.status r)%Z && (EdgeChat.status r <=? 299)%Z;
     json_body := EdgeChat.body_json r |}.

(** The constructor: [baseUrl] is [VITE_API_URL] when that is set and not
    empty, and [wsUrl] is [baseUrl.replace('http', 'ws')]. *)
Definition baseUrl (vite_api_url : option jsstring) : jsstring :=
  match vite_api_url with
  | Some u => if truthy_string u then u else js "http://localhost:8000"
  | None => js "http://localhost:8000"
  end.

Definition wsUrl (vite_api_url : option jsstring) : jsstring :=
  replace (baseUrl vite_api_url) (js "http") (js "ws").

(** The address [createWebSocketConnection] opens. *)
Definition webSocketAddress (vite_api_url : option jsstring) (sessionId : jsstring)
    : jsstring :=
  wsUrl vite_api_url ++ js "/api/v1/ws/" ++ sessionId.

(** [getAuthHeaders]; [access_token] is [session?.access_token]. *)
Definition getAuthHeaders (access_token : option jsstring)
    : list (jsstring * jsstring) :=
  let headers := [(js "Content-Type", js "application/json")] in
  match access_token with
  | Some t =>
      if truthy_string t then headers ++ [(js "Authorization", js "Bearer " ++ t)]
      else headers
  | None => headers
  end.

(** [getAvailableTopics]: like the history, with the member [topics]. *)
Definition getAvailableTopics (outcome : FetchOutcome) : json :=
  match outcome with
  | FetchRejected => JArr []
  | Fetched response =>
      if negb (ok response) then JArr []
      else
        match json_body response with
        | None => JArr []
        | Some data =>
            match getProp data (js "topics") with
            | Throw _ => JArr []
            | Normal (Some topics) =>
                if truthy (Some topics) then topics else JArr []
            | Normal None => JArr []
            end
        end
  end.

(** What [fetch] does to the value of a header before the request leaves
    (the Fetch standard's [Headers]): a code unit above 255 is refused with a
    [TypeError]; leading and trailing HTTP whitespace (tab, line feed,
    carriage return, space) is stripped; a NUL, line feed or carriage return
    left inside is refused with a [TypeError].  The value that is left is
    what [req.headers.get] returns on the other side. *)
Definition is_http_whitespace (c : N) : bool :=
  existsb (N.eqb c) [0x09; 0x0A; 0x0D; 0x20]%N.

Fixpoint strip_leading (v : jsstring) : jsstring :=
  match v with
  | c :: v' => if is_http_whitespace c then strip_leading v' else v
  | [] => []
  end.

Definition strip_trailing (v : jsstring) : jsstring :=
  rev (strip_leading (rev v)).

Definition normalize (v : jsstring) : jsstring :=
  strip_trailing (strip_leading v).

Definition forbidden_in_value (c : N) : bool :=
  existsb (N.eqb c) [0x00; 0x0A; 0x0D]%N.

Definition header_value (v : jsstring) : option jsstring :=
  if existsb (fun c => (255 <? c)%N) v then None
  else
    let v' := normalize v in
    if existsb forbidden_in_value v' then None else Some v'.

(** [new Headers(headers)]: [None] when a value is refused. *)
Fixpoint request_headers (headers : list (jsstring * jsstring))
    : option (list (jsstring * jsstring)) :=
  match headers with
  | [] => Some []
  | (k, v) :: rest =>
      match header_value v, request_headers rest with
      | Some v', Some rest' => Some ((k, v') :: rest')
      | _, _ => None
      end
  end.

Fixpoint header (name : jsstring) (headers : list (jsstring * jsstring))
    : option jsstring :=
  match headers with
  | [] => None
  | (k, v) :: rest => if jsstring_eqb k name then Some v else header name rest
  end.

(** The request that [sendMessage] puts on the wire, as the edge function
    receives it: [req.headers.get('Authorization')] and the parsed body.
    [None] when [fetch] throws instead of sending. *)
Definition post_chat (access_token : option jsstring) (message : json)
    : option EdgeChat.Request :=
  match request_headers (getAuthHeaders access_token) with
  | None => None
  | Some headers =>
      Some {| EdgeChat.method := js "POST";
              EdgeChat.authorization := header (js "Authorization") headers;
              EdgeChat.body := EdgeChat.BodyParsed message |}
  end.

(** The [fetch] of [sendMessage] answered by the chat edge function: its
    outcome and the [messages] table afterwards. *)
Definition fetch_edge (env : EdgeChat.Env) (access_token : option jsstring)
    (message : json) (messages : list EdgeChat.Row)
    : FetchOutcome * list EdgeChat.Row :=
  match post_chat access_token message with
  | None => (FetchRejected, messages)
  | Some req =>
      (Fetched (of_edge (fst (fst (EdgeChat.handler env req messages)))),
       snd (fst (EdgeChat.handler env req messages)))
  end.

(** A code unit that a header value may carry anywhere. *)
Definition plain_unit (c : N) : bool :=
  (c <=? 255)%N && negb (forbidden_in_value c).

Definition plain_token (access_token : option jsstring) : Prop :=
  match access_token with
  | Some t => Forall (fun c => plain_unit c = true) t
  | None => True
  end.

End Api.

(* ------------------------------------------------------------------ *)
(** ** The history endpoint *)

Module History.
Import JS.

(** Modelled from the spec: a stored chat message with its audit columns
    (id, session, creation timestamp); the table the history endpoint reads
    is on the server side, which is not among the sources. *)
Record StoredMessage := mkStored {
  msg_id : N;
  msg_session_id : jsstring;
  msg_content : jsstring;
  msg_sender : jsstring;
  created_at : Z
}.

(** Modelled from the spec: the messages of one session. *)
Definition of_session (sid : jsstring) (db : list StoredMessage)
    : list StoredMessage :=
  filter (fun m => jsstring_eqb (msg_session_id m) sid) db.

(** Modelled from the spec: ordering by creation timestamp, as a stable
    insertion sort. *)
Fixpoint insert_by_created (m : StoredMessage) (l : list StoredMessage)
    : list StoredMessage :=
  match l with
  | [] => [m]
  | x :: l' =>
      if (created_at m <? created_at x)%Z then m :: l
      else x :: insert_by_created m l'
  end.

Definition order_by_created (l : list StoredMessage) : list StoredMessage :=
  fold_right insert_by_created [] l.

(** Modelled from the spec: the server side of
    GET /session/{id}/history, which is not among the sources.  It selects
    the messages of the session and lists them in creation order, ascending
    by creation timestamp. *)
Definition session_history (db : list StoredMessage) (sid : jsstring)
    : list StoredMessage :=
  order_by_created (of_session sid db).

(** Creation order. *)
Definition created_le (a b : StoredMessage) : Prop :=
  (created_at a <= created_at b)%Z.

Definition message_json (m : StoredMessage) : json :=
  JObj [ (js "content", JStr (msg_content m));
         (js "sender", JStr (msg_sender m));
         (js "timestamp", JNum (inject_Z (created_at m))) ].

(** Modelled from the spec: the response of the history endpoint; the
    client reads the list from the member [history]. *)
Definition history_endpoint (db : list StoredMessage) (sid : jsstring)
    : Api.Response :=
  {| Api.ok := true;
     Api.json_body :=
       Some (JObj [(js "history", JArr (map message_json (session_history db sid)))]) |}.

End History.

(* ------------------------------------------------------------------ *)
(** ** frontend/src/hooks/useChat.ts

    The hook is an event-driven state machine: React state and refs make up
    [State], every handler is a transition that returns the next state and
    the calls it makes to its surroundings.  Payloads typed [any] in the
    source are taken in the shape the handler reads them in. *)

Module UseChat.
Import JS.
Import Types.
Local Open Scope Z_scope.

Inductive Sender := user | ai.

Inductive ReactionType := Helpful | Insightful | Supportive.

Record Reactions := mkReactions {
  helpful : Z;
  insightful : Z;
  supportive : Z
}.

(** [interface Message extends ChatResponse]; [base] holds the inherited
    members.  [userReaction] is [None] for both [undefined] and [null]. *)
Record Message := mkMessage {
  base : ChatResponse;
  id : jsstring;
  sender : Sender;
  reactions : option Reactions;
  userReaction : option ReactionType
}.

(** [UseChatOptions]; an optional callback is present or not, its calls are
    recorded as effects. *)
Record Options := mkOptions {
  sessionId : jsstring;
  onError : bool;
  onConnectionChange : bool
}.

Inductive ReadyState := CONNECTING | OPEN | CLOSING | CLOSED.

Record State := mkState {
  messages : list Message;
  isTyping : bool;
  isConnected : bool;
  messageCount : Z;
  (** [wsRef.current], with the [readyState] of the socket it refers to *)
  wsRef : option ReadyState;
  (** [reconnectTimeoutRef.current]: the delay of the timeout it refers to *)
  reconnectTimeoutRef : option Z;
  reconnectAttempts : Z
}.

Definition initial : State :=
  {| messages := []; isTyping := false; isConnected := false;
     messageCount := 0; wsRef := None; reconnectTimeoutRef := None;
     reconnectAttempts := 0 |}.

Definition maxReconnectAttempts : Z := 5.

Definition connectionLost : jsstring :=
  js "Connection lost. Please refresh the page.".

Inductive Effect :=
| OnError (error : jsstring)
| OnConnectionChange (connected : bool)
| CreateWebSocket
| SetTimeout (delay : Z)
| ClearTimeout
| WsSend (content : jsstring) (context : json)
| WsClose
| PostChat (content session_id : jsstring) (context : json)
| ConsoleError (what : jsstring)
| ConsoleLog (what : jsstring).

(** An element of the session history as [initializeChat] reads it. *)
Record HistoryItem := mkHistoryItem {
  item_ai_response : option jsstring;
  item_content : jsstring;
  item_timestamp : Z
}.

(** A parsed WebSocket message as [handleWebSocketMessage] reads it: the
    tag [type] and, read only under their own tag, [data], [isTyping] and
    [message]. *)
Record WsData := mkWsData {
  type : jsstring;
  data : ChatResponse;
  data_isTyping : bool;
  message : jsstring
}.

Inductive Event :=
| InitializeChat (isHealthy : bool) (history : list HistoryItem) (created : bool)
| WsOnOpen
| WsOnMessage (parsed : option WsData) (now : Z)
| WsOnClose
| WsOnError
| ReconnectTimerFired (created : bool)
| SendMessage (content : jsstring) (context : option json) (now : Z)
| PostChatResolved (response : ChatResponse) (now : Z)
| SendFailed (errorMessage : option jsstring)
| AddReaction (messageId : jsstring) (reactionType : ReactionType)
| Cleanup.

Definition zeroReactions : Reactions :=
  {| helpful := 0; insightful := 0; supportive := 0 |}.

Definition with_timestamp (r : ChatResponse) (t : jsstring) : ChatResponse :=
  {| content := content r;
     psychological_insight := psychological_insight r;
     emotional_state := emotional_state r;
     topic_classification := topic_classification r;
     suggestions := suggestions r;
     session_id := session_id r;
     timestamp := t;
     confidence_score := confidence_score r |}.

(** [arr.map((item, index) => ...)]. *)
Fixpoint mapi {A B} (f : A -> nat -> B) (i : nat) (l : list A) : list B :=
  match l with
  | [] => []
  | a :: l' => f a i :: mapi f (S i) l'
  end.

Definition getReaction (r : Reactions) (t : ReactionType) : Z :=
  match t with
  | Helpful => helpful r
  | Insightful => insightful r
  | Supportive => supportive r
  end.

Definition setReaction (r : Reactions) (t : ReactionType) (v : Z) : Reactions :=
  match t with
  | Helpful => {| helpful := v; insightful := insightful r; supportive := supportive r |}
  | Insightful => {| helpful := helpful r; insightful := v; supportive := supportive r |}
  | Supportive => {| helpful := helpful r; insightful := insightful r; supportive := v |}
  end.

Definition reactionType_eqb (a b : ReactionType) : bool :=
  match a, b with
  | Helpful, Helpful | Insightful, Insightful | Supportive, Supportive => true
  | _, _ => false
  end.

Section Hook.

Variable opts : Options.

(** [new Date(t).toLocaleTimeString('en-US', { hour12: false,
    hour: '2-digit', minute: '2-digit' })], which depends on the time zone
    of the browser. *)
Variable toLocaleTimeString : Z -> jsstring.

Definition call_onError (error : jsstring) : list Effect :=
  if onError opts then [OnError error] else [].

Definition call_onConnectionChange (connected : bool) : list Effect :=
  if onConnectionChange opts then [OnConnectionChange connected] else [].

Definition set_messages (s : State) (f : list Message -> list Message) : State :=
  {| messages := f (messages s); isTyping := isTyping s;
     isConnected := isConnected s; messageCount := messageCount s;
     wsRef := wsRef s; reconnectTimeoutRef := reconnectTimeoutRef s;
     reconnectAttempts := reconnectAttempts s |}.

Definition set_isTyping (s : State) (b : bool) : State :=
  {| messages := messages s; isTyping := b;
     isConnected := isConnected s; messageCount := messageCount s;
     wsRef := wsRef s; reconnectTimeoutRef := reconnectTimeoutRef s;
     reconnectAttempts := reconnectAttempts s |}.

Definition set_isConnected (s : State) (b : bool) : State :=
  {| messages := messages s; isTyping := isTyping s;
     isConnected := b; messageCount := messageCount s;
     wsRef := wsRef s; reconnectTimeoutRef := reconnectTimeoutRef s;
     reconnectAttempts := reconnectAttempts s |}.

Definition set_messageCount (s : State) (f : Z -> Z) : State :=
  {| messages := messages s; isTyping := isTyping s;
     isConnected := isConnected s; messageCount := f (messageCount s);
     wsRef := wsRef s; reconnectTimeoutRef := reconnectTimeoutRef s;
     reconnectAttempts := reconnectAttempts s |}.

Definition set_wsRef (s : State) (w : option ReadyState) : State :=
  {| messages := messages s; isTyping := isTyping s;
     isConnected := isConnected s; messageCount := messageCount s;
     wsRef := w; reconnectTimeoutRef := reconnectTimeoutRef s;
     reconnectAttempts := reconnectAttempts s |}.

Definition set_reconnect (s : State) (timeout : option Z) (attempts : Z) : State :=
  {| messages := messages s; isTyping := isTyping s;
     isConnected := isConnected s; messageCount := messageCount s;
     wsRef := wsRef s; reconnectTimeoutRef := timeout;
     reconnectAttempts := attempts |}.

(** [connectWebSocket]; [created] tells whether [new WebSocket] returned
    rather than threw. *)
Definition connectWebSocket (created : bool) (s : State) : State * list Effect :=
  if created then
    (set_wsRef s (Some CONNECTING), [CreateWebSocket])
  else
    (set_isConnected s false,
     [CreateWebSocket; ConsoleError (js "WebSocket connection failed:")]
     ++ call_onConnectionChange false).

Definition reconnectDelay (attempts : Z) : Z :=
  Z.min (1000 * 2 ^ attempts) 30000.

Definition attemptReconnect (s : State) : State * list Effect :=
  if reconnectAttempts s <? maxReconnectAttempts then
    let attempts := reconnectAttempts s + 1 in
    let delay := reconnectDelay attempts in
    (set_reconnect s (Some delay) attempts, [SetTimeout delay])
  else
    (s, call_onError connectionLost).

Definition handleWebSocketMessage (d : WsData) (now : Z) (s : State)
    : State * list Effect :=
  if jsstring_eqb (type d) (js "chat_response") then
    let aiResponse :=
      {| base := with_timestamp (data d) (toLocaleTimeString now);
         id := Z_toString now;
         sender := ai;
         reactions := Some zeroReactions;
         userReaction := None |} in
    let s1 := set_messages s (fun prev => prev ++ [aiResponse]) in
    let s2 := set_isTyping s1 false in
    (set_messageCount s2 (fun prev => prev + 1), [])
  else if jsstring_eqb (type d) (js "typing") then
    (set_isTyping s (data_isTyping d), [])
  else if jsstring_eqb (type d) (js "error") then
    (set_isTyping s false, call_onError (message d))
  else
    (s, []).

(** The synchronous part of [sendMessage], up to the [await] of the REST
    fallback.  One reading of the clock serves [Date.now()] and
    [new Date()]. *)
Definition sendMessage (content : jsstring) (context : option json) (now : Z)
    (s : State) : State * list Effect :=
  if negb (truthy_string (trim content)) then (s, [])
  else
    let userMessage :=
      {| base :=
           {| Types.content := content;
              psychological_insight := None;
              emotional_state := None;
              topic_classification := None;
              suggestions := None;
              session_id := sessionId opts;
              timestamp := toLocaleTimeString now;
              confidence_score := 1 |};
         id := Z_toString now;
         sender := user;
         reactions := None;
         userReaction := None |} in
    let s1 := set_messages s (fun prev => prev ++ [userMessage]) in
    let s2 := set_messageCount s1 (fun prev => prev + 1) in
    let s3 := set_isTyping s2 true in
    let context' := match context with Some c => c | None => JObj [] end in
    match wsRef s3 with
    | Some OPEN => (s3, [WsSend content context'])
    | _ => (s3, [PostChat content (sessionId opts) context'])
    end.

(** [sendMessage] after [apiService.sendMessage] resolved. *)
Definition sendMessage_resolved (response : ChatResponse) (now : Z) (s : State)
    : State * list Effect :=
  let aiResponse :=
    {| base := with_timestamp response (toLocaleTimeString now);
       id := Z_toString (now + 1);
       sender := ai;
       reactions := Some zeroReactions;
       userReaction := None |} in
  let s1 := set_messages s (fun prev => prev ++ [aiResponse]) in
  let s2 := set_isTyping s1 false in
  (set_messageCount s2 (fun prev => prev + 1), []).

(** The [catch] clause of [sendMessage], entered when the request or the
    send throws; [errorMessage] is [error.message] when the value caught is
    an [Error]. *)
Definition sendMessage_rejected (errorMessage : option jsstring) (s : State)
    : State * list Effect :=
  (set_isTyping s false,
   [ConsoleError (js "Failed to send message:")]
   ++ call_onError (match errorMessage with
                    | Some m => m
                    | None => js "Failed to send message"
                    end)).

Definition react (msg : Message) (messageId : jsstring)
    (reactionType : ReactionType) : Message :=
  match reactions msg with
  | Some r =>
      if jsstring_eqb (id msg) messageId then
        let newReactions :=
          match userReaction msg with
          | Some u => setReaction r u (getReaction r u - 1)
          | None => r
          end in
        let same :=
          match userReaction msg with
          | Some u => reactionType_eqb u reactionType
          | None => false
          end in
        if negb same then
          {| base := base msg; id := id msg; sender := sender msg;
             reactions := Some (setReaction newReactions reactionType
                                  (getReaction newReactions reactionType + 1));
             userReaction := Some reactionType |}
        else
          {| base := base msg; id := id msg; sender := sender msg;
             reactions := Some newReactions;
             userReaction := None |}
      else msg
  | None => msg
  end.

Definition addReaction (messageId : jsstring) (reactionType : ReactionType)
    (s : State) : State * list Effect :=
  (set_messages s (fun prev => map (fun msg => react msg messageId reactionType) prev),
   []).

Definition cleanup (s : State) : State * list Effect :=
  let '(s1, e1) :=
    match wsRef s with
    | Some OPEN | Some CONNECTING => (set_wsRef s (Some CLOSING), [WsClose])
    | Some _ => (s, [WsClose])
    | None => (s, [])
    end in
  let e2 :=
    match reconnectTimeoutRef s1 with
    | Some _ => [ClearTimeout]
    | None => []
    end in
  (s1, e1 ++ e2).

Definition formatHistory (history : list HistoryItem) : list Message :=
  mapi (fun item index =>
          {| base :=
               {| Types.content :=
                    match item_ai_response item with
                    | Some a => if truthy_string a then a else item_content item
                    | None => item_content item
                    end;
                  psychological_insight := None;
                  emotional_state := None;
                  topic_classification := None;
                  suggestions := None;
                  session_id := sessionId opts;
                  timestamp := toLocaleTimeString (item_timestamp item);
                  confidence_score := 8 # 10 |};
             id := js "history-" ++ Z_toString (Z.of_nat index);
             sender := ai;
             reactions := Some zeroReactions;
             userReaction := None |})
       0%nat history.

(** [initializeChat], once both awaited calls have returned. *)
Definition initializeChat (isHealthy : bool) (history : list HistoryItem)
    (created : bool) (s : State) : State * list Effect :=
  if negb isHealthy then
    (s, [ConsoleError (js "Chat initialization failed:")]
        ++ call_onError (js "Backend service is not available"))
  else
    let s1 :=
      if (0 <? Z.of_nat (List.length history)) then
        let formattedHistory := formatHistory history in
        set_messageCount (set_messages s (fun _ => formattedHistory))
                         (fun _ => Z.of_nat (List.length history))
      else s in
    connectWebSocket created s1.

Definition onopen (s : State) : State * list Effect :=
  let s1 := set_isConnected s true in
  (set_reconnect (set_wsRef s1 (Some OPEN)) (reconnectTimeoutRef s1) 0,
   call_onConnectionChange true).

Definition onmessage (parsed : option WsData) (now : Z) (s : State)
    : State * list Effect :=
  match parsed with
  | Some d => handleWebSocketMessage d now s
  | None => (s, [ConsoleError (js "Failed to parse WebSocket message:")])
  end.

Definition onclose (s : State) : State * list Effect :=
  let s1 := set_wsRef (set_isConnected s false) (Some CLOSED) in
  let '(s2, e) := attemptReconnect s1 in
  (s2, call_onConnectionChange false ++ e).

Definition onerror (s : State) : State * list Effect :=
  (set_isConnected s false,
   [ConsoleError (js "WebSocket error:")] ++ call_onConnectionChange false).

Definition ontimeout (created : bool) (s : State) : State * list Effect :=
  let '(s1, e) := connectWebSocket created s in
  (s1, [ConsoleLog (js "Reconnection attempt " ++ Z_toString (reconnectAttempts s))] ++ e).

Definition step (s : State) (ev : Event) : State * list Effect :=
  match ev with
  | InitializeChat isHealthy history created =>
      initializeChat isHealthy history created s
  | WsOnOpen => onopen s
  | WsOnMessage parsed now => onmessage parsed now s
  | WsOnClose => onclose s
  | WsOnError => onerror s
  | ReconnectTimerFired created => ontimeout created s
  | SendMessage content context now => sendMessage content context now s
  | PostChatResolved response now => sendMessage_resolved response now s
  | SendFailed errorMessage => sendMessage_rejected errorMessage s
  | AddReaction messageId reactionType => addReaction messageId reactionType s
  | Cleanup => cleanup s
  end.

(** The state after a sequence of events, and everything emitted. *)
Fixpoint run (s : State) (evs : list Event) : State * list Effect :=
  match evs with
  | [] => (s, [])
  | ev :: evs' =>
      let '(s1, e1) := step s ev in
      let '(s2, e2) := run s1 evs' in
      (s2, e1 ++ e2)
  end.

End Hook.

(** The hook keeps its counter equal to the length of the list. *)
Definition count_matches (s : State) : Prop :=
  messageCount s = Z.of_nat (List.length (messages s)).

(** Number of timeouts scheduled in a trace. *)
Definition timeouts (effs : list Effect) : list Z :=
  flat_map (fun e => match e with SetTimeout d => [d] | _ => [] end) effs.

End UseChat.

(* ------------------------------------------------------------------ *)
(** ** frontend/supabase/migrations/20250625073920_broken_gate.sql

    The tables [chat_sessions] and [chat_messages], the row-level-security
    policies on them and the trigger [update_message_count_trigger].
    Statements run one at a time. *)

Module Migration.
Import JS.
Local Open Scope Z_scope.

Definition uuid := N.

Record chat_session := mkSession {
  s_id : uuid;
  s_user_id : uuid;
  s_title : option jsstring;
  s_created_at : Z;
  s_updated_at : Z;
  message_count : Z
}.

Record chat_message := mkChatMessage {
  m_id : uuid;
  m_session_id : uuid;
  m_content : jsstring;
  m_sender : jsstring;
  m_created_at : Z
}.

Record DB := mkDB {
  chat_sessions : list chat_session;
  chat_messages : list chat_message
}.

(** Who runs a statement: a signed-in user, subject to the policies, with
    [auth.uid()] the given id, or the service role, which bypasses them. *)
Inductive Role :=
| authenticated (uid : uuid)
| service_role.

(** [USING (auth.uid() = user_id)] on [chat_sessions]. *)
Definition session_policy (role : Role) (s : chat_session) : bool :=
  match role with
  | authenticated uid => (uid =? s_user_id s)%N
  | service_role => true
  end.

(** [EXISTS (SELECT 1 FROM chat_sessions WHERE chat_sessions.id =
    chat_messages.session_id AND chat_sessions.user_id = auth.uid())], the
    condition of both policies on [chat_messages]. *)
Definition message_policy (role : Role) (db : DB) (m : chat_message) : bool :=
  match role with
  | authenticated uid =>
      existsb (fun s => (s_id s =? m_session_id m)%N && (s_user_id s =? uid)%N)
              (chat_sessions db)
  | service_role => true
  end.

(** [CHECK (sender IN ('user', 'therapist'))]. *)
Definition sender_check (m : chat_message) : bool :=
  jsstring_eqb (m_sender m) (js "user") || jsstring_eqb (m_sender m) (js "therapist").

(** Primary key and foreign key of [chat_messages]. *)
Definition primary_key_free (db : DB) (m : chat_message) : bool :=
  negb (existsb (fun m' => (m_id m' =? m_id m)%N) (chat_messages db)).

Definition references_session (db : DB) (m : chat_message) : bool :=
  existsb (fun s => (s_id s =? m_session_id m)%N) (chat_sessions db).

(** [SELECT COUNT( * ) FROM chat_messages WHERE session_id = sid], over the
    rows the role may read. *)
Definition select_count (role : Role) (db : DB) (sid : uuid) : Z :=
  Z.of_nat (List.length
    (filter (fun m => message_policy role db m && (m_session_id m =? sid)%N)
            (chat_messages db))).

(** [update_session_message_count()] with [NEW = new]: the [UPDATE] touches
    the sessions with [id = NEW.session_id] that the role may update. *)
Definition update_session_message_count (role : Role) (now : Z) (db : DB)
    (new : chat_message) : DB :=
  let count := select_count role db (m_session_id new) in
  {| chat_sessions :=
       map (fun s =>
              if session_policy role s && (s_id s =? m_session_id new)%N then
                {| s_id := s_id s; s_user_id := s_user_id s;
                   s_title := s_title s; s_created_at := s_created_at s;
                   s_updated_at := now; message_count := count |}
              else s)
           (chat_sessions db);
     chat_messages := chat_messages db |}.

(** [INSERT INTO chat_messages VALUES (m)]: [None] when a constraint or the
    insert policy rejects the row; otherwise the row is stored and the
    [AFTER INSERT ... FOR EACH ROW] trigger runs. *)
Definition insert_message (role : Role) (now : Z) (db : DB) (m : chat_message)
    : option DB :=
  if sender_check m && primary_key_free db m && references_session db m
     && message_policy role db m then
    let db1 := {| chat_sessions := chat_sessions db;
                  chat_messages := chat_messages db ++ [m] |} in
    Some (update_session_message_count role now db1 m)
  else None.

(** [DELETE FROM chat_messages WHERE cond]: no policy lets a signed-in user
    delete messages, and no trigger is attached to the deletion. *)
Definition delete_messages (role : Role) (db : DB) (cond : chat_message -> bool)
    : DB :=
  match role with
  | authenticated _ => db
  | service_role =>
      {| chat_sessions := chat_sessions db;
         chat_messages := filter (fun m => negb (cond m)) (chat_messages db) |}
  end.

(** [DELETE FROM chat_sessions WHERE id = sid]; the messages of the session
    go with it ([ON DELETE CASCADE]). *)
Definition delete_session (role : Role) (db : DB) (sid : uuid) : DB :=
  let doomed s := session_policy role s && (s_id s =? sid)%N in
  let gone m := existsb (fun s => doomed s && (s_id s =? m_session_id m)%N)
                        (chat_sessions db) in
  {| chat_sessions := filter (fun s => negb (doomed s)) (chat_sessions db);
     chat_messages := filter (fun m => negb (gone m)) (chat_messages db) |}.

(** Number of [chat_messages] rows that reference the session. *)
Definition rows_of (db : DB) (sid : uuid) : Z :=
  Z.of_nat (List.length (filter (fun m => (m_session_id m =? sid)%N) (chat_messages db))).

(** The counter of every session is the number of its messages. *)
Definition counts_consistent (db : DB) : Prop :=
  forall s, In s (chat_sessions db) -> message_count s = rows_of db (s_id s).

(** [id] is the primary key of [chat_sessions]. *)
Definition sessions_keyed (db : DB) : Prop :=
  NoDup (map s_id (chat_sessions db)).

End Migration.

(* ------------------------------------------------------------------ *)
(** ** components/MessageInput.tsx and components/ChatInterface.tsx:
       the handlers that call the hooks *)

Module Composer.
Import JS.
Local Open Scope Z_scope.

(** [MessageInput.handleSubmit]: the call to [onSendMessage], if any, and
    the content of the text area afterwards. *)
Definition handleSubmit (disabled : bool) (message : jsstring)
    : option jsstring * jsstring :=
  if truthy_string (trim message) && negb disabled then
    (Some (trim message), [])
  else (None, message).

(** [MessageInput.handleKeyDown]. *)
Definition handleKeyDown (key : jsstring) (shiftKey : bool) (disabled : bool)
    (message : jsstring) : option jsstring * jsstring :=
  if jsstring_eqb key (js "Enter") && negb shiftKey then
    handleSubmit disabled message
  else (None, message).

(** The state of [ChatInterface] that [handleSend] reads and writes. *)
Record ChatUi := mkChatUi {
  inputMessage : jsstring;
  aiPersonality : jsstring;
  typingSpeed : Z;
  sessionDuration : Z
}.

(** [ChatInterface.handleSend]: the interface afterwards and the arguments
    of the call to the hook's [sendMessage], if it is made. *)
Definition handleSend (messageText : option jsstring) (ui : ChatUi)
    : ChatUi * option (jsstring * json) :=
  let textToSend :=
    match messageText with
    | Some t => if truthy_string t then t else inputMessage ui
    | None => inputMessage ui
    end in
  if negb (truthy_string (trim textToSend)) then (ui, None)
  else
    ({| inputMessage := []; aiPersonality := aiPersonality ui;
        typingSpeed := typingSpeed ui; sessionDuration := sessionDuration ui |},
     Some (textToSend,
           JObj [ (js "personality", JStr (aiPersonality ui));
                  (js "typing_speed", JNum (inject_Z (typingSpeed ui)));
                  (js "session_duration", JNum (inject_Z (sessionDuration ui))) ])).

(** [String.prototype.padStart]. *)
Fixpoint fill (n : nat) (pad cur : jsstring) : jsstring :=
  match n with
  | O => []
  | S n' =>
      match cur with
      | c :: cur' => c :: fill n' pad cur'
      | [] =>
          match pad with
          | c :: pad' => c :: fill n' pad pad'
          | [] => []
          end
      end
  end.

Definition padStart (s : jsstring) (targetLength : nat) (padString : jsstring)
    : jsstring :=
  fill (targetLength - List.length s) padString padString ++ s.

(** [ChatInterface.formatSessionDuration]. *)
Definition formatSessionDuration (seconds : Z) : jsstring :=
  let mins := seconds / 60 in
  let secs := Z.rem seconds 60 in
  Z_toString mins ++ js ":" ++ padStart (Z_toString secs) 2 (js "0").

End Composer.

(* ------------------------------------------------------------------ *)
(** ** The chat hook kept in the browser (the [useChat] that calls
       [generateTherapistResponse])

    Modelled are the message list and the typing indicator, with
    [sendMessage] and the reply it schedules; the session object and its
    copy in [localStorage] are left out. *)

Module LocalChat.
Import JS.
Import Therapist.
Local Open Scope Z_scope.

Record State := mkState {
  messages : list Message;
  isTyping : bool
}.

(** What the timeout set by [sendMessage] holds on to: the content and the
    [messages] of the render in which [sendMessage] was made. *)
Record Pending := mkPending {
  pending_content : jsstring;
  pending_history : list Message
}.

Definition sendMessage (content : jsstring) (now : Z) (s : State)
    : State * Pending :=
  let userMessage :=
    {| id := Z_toString now; content := content; sender := user;
       timestamp := now; Therapist.isTyping := None |} in
  ({| messages := messages s ++ [userMessage]; isTyping := true |},
   {| pending_content := content; pending_history := messages s |}).

Section WithRuntime.

Variable toLowerCase : jsstring -> jsstring.

(** The callback of the timeout. *)
Definition reply (draw : nat) (p : Pending) (now : Z) (s : State) : State :=
  let therapistResponse :=
    generateTherapistResponse toLowerCase draw (pending_content p)
                              (pending_history p) in
  let therapistMessage :=
    {| id := Z_toString (now + 1); content := therapistResponse;
       sender := therapist; timestamp := now; Therapist.isTyping := None |} in
  {| messages := messages s ++ [therapistMessage]; isTyping := false |}.

End WithRuntime.

End LocalChat.

(* ------------------------------------------------------------------ *)
(** ** components/Dashboard: the session list and its statistics *)

Module Dashboard.
Import Migration.
Local Open Scope Z_scope.

Fixpoint insert_by_updated (s : chat_session) (l : list chat_session)
    : list chat_session :=
  match l with
  | [] => [s]
  | x :: l' =>
      if s_updated_at x <? s_updated_at s then s :: l
      else x :: insert_by_updated s l'
  end.

(** The rows the query of [fetchSessions] selects: those the policy lets
    the user read and that satisfy [user_id = uid]. *)
Definition own (uid : uuid) (s : chat_session) : bool :=
  session_policy (authenticated uid) s && (s_user_id s =? uid)%N.

(** [fetchSessions]: [select * from chat_sessions where user_id = uid
    order by updated_at desc], run by the signed-in user [uid]. *)
Definition fetchSessions (uid : uuid) (db : DB) : list chat_session :=
  fold_right insert_by_updated [] (filter (own uid) (chat_sessions db)).

(** [DashboardStats]: [sessions.reduce((sum, session) => sum +
    session.message_count, 0)]. *)
Definition totalMessages (sessions : list chat_session) : Z :=
  fold_left (fun sum session => sum + message_count session) sessions 0.

Definition totalSessions (sessions : list chat_session) : Z :=
  Z.of_nat (List.length sessions).

End Dashboard.

(* ------------------------------------------------------------------ *)
(** ** Sequences of statements against the two tables *)

Module Workload.
Import Migration.

Inductive Statement :=
| InsertMessage (role : Role) (now : Z) (m : chat_message)
| DeleteMessages (role : Role) (cond : chat_message -> bool)
| DeleteSession (role : Role) (sid : uuid).

(** A statement that fails leaves the database as it was. *)
Definition execute (db : DB) (st : Statement) : DB :=
  match st with
  | InsertMessage role now m =>
      match insert_message role now db m with
      | Some db' => db'
      | None => db
      end
  | DeleteMessages role cond => delete_messages role db cond
  | DeleteSession role sid => delete_session role db sid
  end.

Definition execute_all (db : DB) (sts : list Statement) : DB :=
  fold_left execute sts db.

(** Every statement but a deletion of messages by the service role. *)
Definition no_privileged_delete (st : Statement) : Prop :=
  match st with
  | DeleteMessages service_role _ => False
  | _ => True
  end.

End Workload.

(* ------------------------------------------------------------------ *)
(** ** Predicates in which the properties below are stated *)

Module Invariants.
Import JS.
Local Open Scope Z_scope.

Definition blank (s : jsstring) : Prop :=
  Forall (fun c => is_whitespace c = true) s.

(** Two hook messages that differ at most in their reactions. *)
Definition same_identity (m m' : UseChat.Message) : Prop :=
  UseChat.id m = UseChat.id m' /\ UseChat.sender m = UseChat.sender m'
  /\ UseChat.base m = UseChat.base m'.

(** The counters of a message record the user's own reaction and nothing
    else: 1 for the current reaction, 0 for the others; a message without
    counters has no reaction. *)
Definition reactions_tally (m : UseChat.Message) : Prop :=
  match UseChat.reactions m with
  | None => UseChat.userReaction m = None
  | Some r =>
      forall t, UseChat.getReaction r t =
                match UseChat.userReaction m with
                | Some u => if UseChat.reactionType_eqb u t then 1 else 0
                | None => 0
                end
  end.

(** Every message references a session that exists. *)
Definition messages_reference_sessions (db : Migration.DB) : Prop :=
  forall m, In m (Migration.chat_messages db) ->
            exists s, In s (Migration.chat_sessions db)
                      /\ Migration.s_id s = Migration.m_session_id m.

Definition newest_first (a b : Migration.chat_session) : Prop :=
  Migration.s_updated_at b <= Migration.s_updated_at a.

(** The database is in order: session ids are distinct, every counter is
    right and every message references a session. *)
Definition coherent (db : Migration.DB) : Prop :=
  Migration.sessions_keyed db /\ Migration.counts_consistent db
  /\ messages_reference_sessions db.

End Invariants.

(* ------------------------------------------------------------------ *)
(** ** Concrete inputs on which the models are run *)

Module Examples.
Import JS.

(** A message that names a crisis keyword next to anxiety, depression and
    coping keywords. *)
Definition crisis_input : jsstring :=
  js "I feel HOPELESS and anxious, even therapy and exercise did not help".

(** A [messages] table that enforces the sender check of the migration's
    [chat_messages]: senders other than ['user'] and ['therapist'] are
    rejected. *)
Definition checked_table (messages : list EdgeChat.Row) (row : EdgeChat.Row) : bool :=
  jsstring_eqb (EdgeChat.row_sender row) (js "user")
  || jsstring_eqb (EdgeChat.row_sender row) (js "therapist").

Definition open_table (messages : list EdgeChat.Row) (row : EdgeChat.Row) : bool :=
  true.

(** A database that has no table [messages], as one set up from the
    repository's schemas: every insert comes back with an error. *)
Definition no_table (messages : list EdgeChat.Row) (row : EdgeChat.Row) : bool :=
  false.

Definition edge_env (accepts : list EdgeChat.Row -> EdgeChat.Row -> bool)
    : EdgeChat.Env :=
  {| EdgeChat.getUser := fun _ => None;
     EdgeChat.accepts := accepts;
     EdgeChat.draw := 2;
     EdgeChat.now := 1750000000000;
     EdgeChat.iso_now := js "2025-06-15T15:06:40.000Z" |}.

Definition post_hello : EdgeChat.Request :=
  {| EdgeChat.method := js "POST";
     EdgeChat.authorization := None;
     EdgeChat.body := EdgeChat.BodyParsed
       (JObj [(js "content", JStr (js "hello")); (js "session_id", JStr (js "s1"))]) |}.

(** A POST /chat request the edge function refuses: its [content] is the
    empty string. *)
Definition post_blank : EdgeChat.Request :=
  {| EdgeChat.method := js "POST";
     EdgeChat.authorization := None;
     EdgeChat.body := EdgeChat.BodyParsed
       (JObj [(js "content", JStr []); (js "session_id", JStr (js "s1"))]) |}.

Definition refused : EdgeChat.Response :=
  fst (fst (EdgeChat.handler (edge_env open_table) post_blank [])).

(** An error answer in the FastAPI style. *)
Definition detail_response : Api.Response :=
  {| Api.ok := false;
     Api.json_body := Some (JObj [(js "detail", JStr (js "Session not found"))]) |}.

Definition stored : list History.StoredMessage :=
  [ History.mkStored 3 (js "s1") (js "third") (js "user") 30;
    History.mkStored 1 (js "s1") (js "first") (js "user") 10;
    History.mkStored 4 (js "s2") (js "other") (js "user") 15;
    History.mkStored 2 (js "s1") (js "second") (js "ai") 20 ].

Definition hook_options : UseChat.Options :=
  {| UseChat.sessionId := js "s1"; UseChat.onError := true;
     UseChat.onConnectionChange := true |}.

(** Hours and minutes of the day in UTC. *)
Definition utc_clock (t : Z) : jsstring :=
  let minutes := ((t / 60000) mod 1440)%Z in
  let two n := (if (n <? 10)%Z then js "0" else []) ++ Z_toString n in
  two (minutes / 60)%Z ++ js ":" ++ two (minutes mod 60)%Z.

(** The hook after five closes in a row. *)
Definition exhausted : UseChat.State :=
  fst (UseChat.run hook_options utc_clock UseChat.initial
         (repeat UseChat.WsOnClose 5)).

Definition blank : jsstring := [0x20; 0x09; 0x0A; 0xA0; 0x3000]%N.

Definition reply : Types.ChatResponse :=
  EdgeChat.generateTherapyResponse (edge_env open_table) (JStr (js "hello")).

Definition ws_message (tag : string) : UseChat.WsData :=
  {| UseChat.type := js tag; UseChat.data := reply;
     UseChat.data_isTyping := true; UseChat.message := js "model overloaded" |}.

(** One session, owned by user 7, and its first message. *)
Definition empty_session : Migration.DB :=
  {| Migration.chat_sessions :=
       [ Migration.mkSession 1%N 7%N None 1000 1000 0 ];
     Migration.chat_messages := [] |}.

Definition first_message : Migration.chat_message :=
  Migration.mkChatMessage 10%N 1%N (js "hi") (js "user") 2000.

Definition one_message : Migration.DB :=
  match Migration.insert_message (Migration.authenticated 7%N) 2000
          empty_session first_message with
  | Some db => db
  | None => empty_session
  end.

(** Two users: user 7 owns session 1 with its first message, user 8 owns
    the empty session 2. *)
Definition two_users : Migration.DB :=
  {| Migration.chat_sessions :=
       Migration.chat_sessions one_message
       ++ [ Migration.mkSession 2%N 8%N None 1500 1500 0 ];
     Migration.chat_messages := Migration.chat_messages one_message |}.

Definition second_message : Migration.chat_message :=
  Migration.mkChatMessage 11%N 1%N (js "hello") (js "therapist") 3000.

Definition after_second : Migration.DB :=
  match Migration.insert_message (Migration.authenticated 7%N) 3000
          two_users second_message with
  | Some db => db
  | None => two_users
  end.

Definition statements : list Workload.Statement :=
  [ Workload.InsertMessage (Migration.authenticated 7%N) 3000 second_message;
    Workload.InsertMessage (Migration.authenticated 8%N) 3100
      (Migration.mkChatMessage 12%N 1%N (js "intruder") (js "user") 3100);
    Workload.DeleteMessages (Migration.authenticated 7%N) (fun _ => true);
    Workload.DeleteSession (Migration.authenticated 8%N) 2%N ].

(** The hook with one reply that the user has marked helpful. *)
Definition reacted : UseChat.State :=
  fst (UseChat.run hook_options utc_clock UseChat.initial
         [ UseChat.WsOnMessage (Some (ws_message "chat_response")) 1750000000000;
           UseChat.AddReaction (Z_toString 1750000000000) UseChat.Helpful ]).

Definition two_items : list UseChat.HistoryItem :=
  [ UseChat.mkHistoryItem (Some (js "How are you?")) (js "hi") 1750000000000;
    UseChat.mkHistoryItem None (js "fine") 1750000060000 ].

Definition local_start : LocalChat.State :=
  {| LocalChat.messages := []; LocalChat.isTyping := false |}.

Definition padded_crisis : jsstring := js "  I feel so Hopeless  ".

(** An ok answer of the history endpoint with two entries. *)
Definition history_response : Api.Response :=
  {| Api.ok := true;
     Api.json_body := Some (JObj [ (js "session_id", JStr (js "s1"));
                                   (js "history", JArr [JStr (js "a"); JStr (js "b")]) ]) |}.

Definition hello_message : json :=
  JObj [ (js "content", JStr (js "hello")); (js "session_id", JStr (js "s1"));
         (js "context", JObj []) ].

(** A user lookup that knows one token. *)
Definition one_user : EdgeChat.Env :=
  {| EdgeChat.getUser := fun t => if jsstring_eqb t (js "tok") then Some (js "u7") else None;
     EdgeChat.accepts := open_table;
     EdgeChat.draw := 2;
     EdgeChat.now := 1750000000000;
     EdgeChat.iso_now := js "2025-06-15T15:06:40.000Z" |}.

End Examples.

(* ------------------------------------------------------------------ *)
(** * Properties *)

(** ** JavaScript strings *)

Lemma jsstring_eqb_eq (a b : JS.jsstring) : JS.jsstring_eqb a b = true <-> a = b.
Proof.
  unfold JS.jsstring_eqb. destruct (list_eq_dec N.eq_dec a b); split; congruence.
Qed.

Lemma jsstring_eqb_refl (a : JS.jsstring) : JS.jsstring_eqb a a = true.
Proof. now apply jsstring_eqb_eq. Qed.

Lemma trimStart_whitespace (s : JS.jsstring) :
  Forall (fun c => JS.is_whitespace c = true) s -> JS.trimStart s = [].
Proof.
  induction 1 as [|c s Hc _ IH]; simpl; [reflexivity|].
  now rewrite Hc.
Qed.

Lemma trim_whitespace (s : JS.jsstring) :
  Forall (fun c => JS.is_whitespace c = true) s -> JS.trim s = [].
Proof.
  intros H. unfold JS.trim, JS.trimEnd.
  now rewrite (trimStart_whitespace H).
Qed.

(** ** Therapist responses *)

Section TherapistFacts.
Import JS Therapist.

Variable toLowerCase : jsstring -> jsstring.

(** C8. Whenever the lowercased input contains one of the crisis keywords,
    [generateTherapistResponse] resolves with the crisis-intervention
    response, which names the 988 lifeline; the random draw, the other
    keyword lists and the conversation history play no part. *)
Theorem crisis_keyword_takes_precedence
    (draw : nat) (userInput : jsstring) (conversationHistory : list Message) :
  (exists keyword, In keyword crisisKeywords /\
                   includes (toLowerCase userInput) keyword = true) ->
  generateTherapistResponse toLowerCase draw userInput conversationHistory
    = crisisResponse
  /\ includes crisisResponse (js "988") = true.
Proof.
  intros (keyword & Hin & Hinc). split.
  - unfold generateTherapistResponse, some.
    replace (existsb (fun keyword0 => includes (toLowerCase userInput) keyword0)
                     crisisKeywords) with true; [reflexivity|].
    symmetry. apply existsb_exists. now exists keyword.
  - vm_compute. reflexivity.
Qed.

End TherapistFacts.

Lemma crisis_keyword_witness :
  (exists keyword, In keyword Therapist.crisisKeywords /\
     JS.includes (Therapist.ascii_toLowerCase Examples.crisis_input) keyword = true)
  /\ Therapist.generateTherapistResponse Therapist.ascii_toLowerCase 7
       Examples.crisis_input [] = Therapist.crisisResponse.
Proof.
  assert (H : exists keyword, In keyword Therapist.crisisKeywords /\
     JS.includes (Therapist.ascii_toLowerCase Examples.crisis_input) keyword = true).
  { exists (JS.js "hopeless"). split; [vm_compute; tauto | vm_compute; reflexivity]. }
  split; [exact H|].
  exact (proj1 (crisis_keyword_takes_precedence Therapist.ascii_toLowerCase 7
                  Examples.crisis_input [] H)).
Defined.

(** ** The chat edge function *)

Section EdgeChatFacts.
Import JS EdgeChat.

Lemma post_is_not_options : jsstring_eqb (js "POST") (js "OPTIONS") = false.
Proof. reflexivity. Qed.

Lemma handler_success_inv env req messages resp messages' log :
  handler env req messages = (resp, messages', log) ->
  method req = js "POST" ->
  status resp = 200%Z ->
  exists c sid, validate req = Normal (c, sid).
Proof.
  intros Hh Hm Hs. unfold handler in Hh.
  rewrite Hm, post_is_not_options in Hh.
  destruct (validate req) as [[c sid]|m].
  - now exists c, sid.
  - inversion Hh; subst. simpl in Hs. discriminate.
Qed.

(** C1 (as amended). A POST /chat request answered with status 200 issues
    exactly two inserts on [messages], first a row with sender ['user'],
    then a row with sender ['ai']; the table afterwards is the table before
    followed by those of the two rows the database accepted, every refused
    insert is logged, and when both are accepted exactly one user row and
    one AI row have been added. *)
Theorem chat_persists_the_accepted_rows env req messages resp messages' log :
  handler env req messages = (resp, messages', log) ->
  method req = js "POST" ->
  status resp = 200%Z ->
  exists u a,
    row_sender u = js "user" /\ row_sender a = js "ai" /\
    let stored_u := accepts env messages u in
    let messages1 := if stored_u then messages ++ [u] else messages in
    let stored_a := accepts env messages1 a in
    messages' = (if stored_a then messages1 ++ [a] else messages1) /\
    log = (if stored_u then [] else [ErrorStoringMessage])
          ++ (if stored_a then [] else [ErrorStoringAIMessage]) /\
    (stored_u = true -> stored_a = true -> persisted_pair messages messages').
Proof.
  intros Hh Hm Hs.
  destruct (handler_success_inv _ _ _ Hh Hm Hs) as (c & sid & Hv).
  unfold handler in Hh. rewrite Hm, post_is_not_options, Hv in Hh.
  set (u := {| row_session_id := sid; row_user_id := userId_of env req;
               row_content := c; row_sender := js "user";
               row_message_type := js "text" |}) in *.
  set (a := {| row_session_id := sid; row_user_id := userId_of env req;
               row_content := JStr (Types.content (generateTherapyResponse env c));
               row_sender := js "ai"; row_message_type := js "text" |}) in *.
  exists u, a. split; [reflexivity|]. split; [reflexivity|].
  unfold insert in Hh. cbv zeta.
  destruct (accepts env messages u) eqn:Hu.
  - destruct (accepts env (messages ++ [u]) a) eqn:Ha;
      inversion Hh; subst; (split; [reflexivity|]); (split; [reflexivity|]);
      intros; try discriminate.
    exists u, a. rewrite <- app_assoc. now repeat split.
  - destruct (accepts env messages a) eqn:Ha;
      inversion Hh; subst; (split; [reflexivity|]); (split; [reflexivity|]);
      intros; discriminate.
Qed.

End EdgeChatFacts.

Lemma chat_persists_witness :
  EdgeChat.method Examples.post_hello = JS.js "POST" /\
  exists resp messages' log,
    EdgeChat.handler (Examples.edge_env Examples.open_table) Examples.post_hello []
      = (resp, messages', log)
    /\ EdgeChat.status resp = 200%Z
    /\ EdgeChat.persisted_pair [] messages'.
Proof.
  split; [reflexivity|].
  eexists _, _, _. split; [reflexivity|]. split; [reflexivity|].
  destruct (@chat_persists_the_accepted_rows
              (Examples.edge_env Examples.open_table) Examples.post_hello []
              _ _ _ eq_refl eq_refl eq_refl)
    as (u & a & _ & _ & _ & _ & H).
  apply H; reflexivity.
Defined.

(** C1 fails as stated: when the database refuses the inserts (it has no
    table [messages]) the request is still answered with status 200, and
    no row at all has been stored. *)
Lemma chat_success_without_rows :
  let '(resp, after, log) :=
    EdgeChat.handler (Examples.edge_env Examples.no_table)
                     Examples.post_hello [] in
  EdgeChat.status resp = 200%Z
  /\ after = []
  /\ log = [EdgeChat.ErrorStoringMessage; EdgeChat.ErrorStoringAIMessage]
  /\ ~ EdgeChat.persisted_pair [] after.
Proof.
  vm_compute. repeat split.
  intros (u & a & H & _). discriminate H.
Qed.

(** On a table that refuses the sender ['ai'] only the user row is kept. *)
Example chat_success_without_ai_row :
  let '(resp, after, log) :=
    EdgeChat.handler (Examples.edge_env Examples.checked_table)
                     Examples.post_hello [] in
  EdgeChat.status resp = 200%Z
  /\ map EdgeChat.row_sender after = [JS.js "user"]
  /\ log = [EdgeChat.ErrorStoringAIMessage].
Proof. vm_compute. repeat split. Qed.

(** ** The API service *)

Section ApiFacts.
Import JS Api.

Lemma sendMessage_not_ok_never_resolves (r : Response) :
  ok r = false -> forall data, sendMessage (Fetched r) <> Normal data.
Proof.
  intros Hok data. unfold sendMessage. rewrite Hok. cbn [negb].
  destruct (json_body r) as [e|]; [|discriminate].
  destruct (getProp e (js "detail")) as [[d|]|m]; try discriminate.
  destruct (truthy (Some d)); discriminate.
Qed.

Lemma edge_error_body env req messages :
  EdgeChat.status (fst (fst (EdgeChat.handler env req messages))) <> 200%Z ->
  exists e t,
    of_edge (fst (fst (EdgeChat.handler env req messages)))
    = {| ok := false;
         json_body := Some (JObj [(js "error", JStr e); (js "timestamp", JStr t)]) |}.
Proof.
  unfold EdgeChat.handler.
  destruct (jsstring_eqb (EdgeChat.method req) (js "OPTIONS")); simpl;
    [congruence|].
  destruct (EdgeChat.validate req) as [[c sid]|m]; simpl.
  - destruct (EdgeChat.insert env messages _) as [m1 e1].
    destruct (EdgeChat.insert env m1 _) as [m2 e2]. simpl. congruence.
  - intros _. now exists m, (EdgeChat.iso_now env).
Qed.

(** C4 (as amended). When the response to POST /chat is not ok,
    [sendMessage] never resolves.  If the body is a JSON object it throws
    an [Error] whose message is the body's [detail] string when that is
    present and non-empty, and ['Failed to send message'] when [detail] is
    absent or empty; a body that is not JSON makes [response.json()]
    reject, and that rejection is rethrown.  The error bodies of the chat
    edge function carry [error] and [timestamp] and no [detail], so for
    them the message is always ['Failed to send message']. *)
Theorem sendMessage_not_ok (r : Response) :
  ok r = false ->
  (forall data, sendMessage (Fetched r) <> Normal data)
  /\ (json_body r = None -> sendMessage (Fetched r) = Throw SyntaxError)
  /\ (forall fields, json_body r = Some (JObj fields) ->
        match lookup (js "detail") fields with
        | Some (JStr (c :: d)) =>
            sendMessage (Fetched r) = Throw (Error (JStr (c :: d)))
        | Some (JStr []) | None =>
            sendMessage (Fetched r) = Throw (Error (JStr failedToSend))
        | Some v =>
            sendMessage (Fetched r)
            = Throw (Error (if truthy (Some v) then v else JStr failedToSend))
        end)
  /\ (forall env req messages,
        r = of_edge (fst (fst (EdgeChat.handler env req messages))) ->
        sendMessage (Fetched r) = Throw (Error (JStr failedToSend))).
Proof.
  intros Hok. split; [now apply sendMessage_not_ok_never_resolves|].
  split; [|split].
  - intros Hb. unfold sendMessage. now rewrite Hok, Hb.
  - intros fields Hb. unfold sendMessage. rewrite Hok, Hb.
    cbn [negb getProp].
    destruct (lookup (js "detail") fields) as [[|b|q|[|c d]|l|o]|];
      try reflexivity.
    + now destruct (truthy (Some (JBool b))).
    + now destruct (truthy (Some (JNum q))).
  - intros env req messages ->.
    destruct (edge_error_body env req messages) as (e & t & He).
    + intros H200. unfold of_edge in Hok. rewrite H200 in Hok. discriminate.
    + rewrite He. reflexivity.
Qed.

End ApiFacts.

Lemma sendMessage_not_ok_witness :
  Api.ok Examples.detail_response = false
  /\ Api.sendMessage (Api.Fetched Examples.detail_response)
     = JS.Throw (Api.Error (JS.JStr (JS.js "Session not found")))
  /\ Api.sendMessage (Api.Fetched (Api.of_edge Examples.refused))
     = JS.Throw (Api.Error (JS.JStr Api.failedToSend)).
Proof.
  split; [reflexivity|]. split.
  - exact (proj1 (proj2 (proj2 (@sendMessage_not_ok Examples.detail_response eq_refl)))
             _ eq_refl).
  - exact (proj2 (proj2 (proj2 (@sendMessage_not_ok (Api.of_edge Examples.refused) eq_refl)))
             (Examples.edge_env Examples.open_table) Examples.post_blank [] eq_refl).
Defined.

(** C4 fails as stated: the chat edge function answers a POST /chat whose
    [content] is empty with status 400 and a body that has no [detail]
    member at all, and for it the client's error message is the fallback. *)
Lemma edge_error_has_no_detail :
  EdgeChat.method Examples.post_blank = JS.js "POST"
  /\ EdgeChat.status Examples.refused = 400%Z
  /\ Api.ok (Api.of_edge Examples.refused) = false
  /\ ~ Api.has_detail_string (Api.of_edge Examples.refused)
  /\ (exists fields,
        Api.json_body (Api.of_edge Examples.refused) = Some (JS.JObj fields)
        /\ JS.lookup (JS.js "detail") fields = None
        /\ JS.lookup (JS.js "error") fields
           = Some (JS.JStr (JS.js "Missing required fields: content and session_id")))
  /\ Api.sendMessage (Api.Fetched (Api.of_edge Examples.refused))
     = JS.Throw (Api.Error (JS.JStr Api.failedToSend)).
Proof.
  split; [reflexivity|]. split; [reflexivity|]. split; [reflexivity|].
  split; [|split].
  - intros (fields & d & Hb & Hd). vm_compute in Hb. inversion Hb; subst.
    vm_compute in Hd. discriminate.
  - eexists. split; [reflexivity|]. split; reflexivity.
  - reflexivity.
Qed.

(** ** Session history *)

Section HistoryFacts.
Import JS History.

Lemma insert_by_created_perm m l : Permutation (m :: l) (insert_by_created m l).
Proof.
  induction l as [|x l IH]; simpl; [reflexivity|].
  destruct (created_at m <? created_at x)%Z; [reflexivity|].
  rewrite perm_swap. now constructor.
Qed.

Lemma order_by_created_perm l : Permutation l (order_by_created l).
Proof.
  induction l as [|m l IH]; simpl; [constructor|].
  etransitivity; [|apply insert_by_created_perm]. now constructor.
Qed.

Lemma insert_by_created_sorted m l :
  StronglySorted created_le l -> StronglySorted created_le (insert_by_created m l).
Proof.
  induction 1 as [|x l Hs IH Hx]; simpl.
  - repeat constructor.
  - destruct (created_at m <? created_at x)%Z eqn:E.
    + apply Z.ltb_lt in E. constructor; [now constructor|].
      constructor; [unfold created_le; lia|].
      eapply Forall_impl; [|exact Hx]. unfold created_le. intros; lia.
    + apply Z.ltb_ge in E. constructor; [exact IH|].
      eapply Permutation_Forall; [apply insert_by_created_perm|].
      now constructor.
Qed.

Lemma order_by_created_sorted l : StronglySorted created_le (order_by_created l).
Proof.
  induction l as [|m l IH]; simpl; [constructor|].
  now apply insert_by_created_sorted.
Qed.

(** C6. The history endpoint lists the messages of the session, all of
    them and only them, in ascending order of creation timestamp, and
    [getSessionHistory] hands an ok response's [history] list on unchanged,
    element for element in the same order. *)
Theorem history_in_creation_order (db : list StoredMessage) (sid : jsstring) :
  StronglySorted created_le (session_history db sid)
  /\ Permutation (of_session sid db) (session_history db sid)
  /\ Api.getSessionHistory (Api.Fetched (history_endpoint db sid))
     = JArr (map message_json (session_history db sid))
  /\ (forall items rest,
        Api.getSessionHistory
          (Api.Fetched {| Api.ok := true;
                          Api.json_body :=
                            Some (JObj ((js "history", JArr items) :: rest)) |})
        = JArr items).
Proof.
  split; [apply order_by_created_sorted|].
  split; [apply order_by_created_perm|].
  split; reflexivity.
Qed.

End HistoryFacts.

Example history_of_s1 :
  map History.msg_content (History.session_history Examples.stored (JS.js "s1"))
  = map JS.js ["first"; "second"; "third"]%string.
Proof. reflexivity. Qed.

(** ** The chat hook *)

Section UseChatFacts.
Import JS UseChat.
Local Open Scope Z_scope.

Variable opts : Options.
Variable toLocaleTimeString : Z -> jsstring.

Local Abbreviation step := (UseChat.step opts toLocaleTimeString).
Local Abbreviation run := (UseChat.run opts toLocaleTimeString).

Ltac callbacks :=
  unfold call_onError, call_onConnectionChange;
  destruct (onError opts), (onConnectionChange opts).

Lemma timeouts_app e1 e2 : timeouts (e1 ++ e2) = timeouts e1 ++ timeouts e2.
Proof. unfold timeouts. now rewrite flat_map_app. Qed.

Lemma timeouts_onConnectionChange b : timeouts (call_onConnectionChange opts b) = [].
Proof. now callbacks. Qed.

Lemma timeouts_onError m : timeouts (call_onError opts m) = [].
Proof. now callbacks. Qed.

Lemma attemptReconnect_exhausted s :
  maxReconnectAttempts <= reconnectAttempts s ->
  attemptReconnect opts s = (s, call_onError opts connectionLost).
Proof.
  intros H. unfold attemptReconnect.
  destruct (reconnectAttempts s <? maxReconnectAttempts) eqn:E; [|reflexivity].
  apply Z.ltb_lt in E. lia.
Qed.

(** A step other than [onopen] neither lowers a spent attempt counter nor
    schedules a timeout. *)
Lemma exhausted_step s ev :
  maxReconnectAttempts <= reconnectAttempts s ->
  ev <> WsOnOpen ->
  maxReconnectAttempts <= reconnectAttempts (fst (step s ev))
  /\ timeouts (snd (step s ev)) = [].
Proof.
  intros H Hev.
  destruct ev as [h hist c| |[d|] now| | |c|content ctx now|r now|m|mid rt|];
    try congruence; cbn [UseChat.step].
  - unfold initializeChat, connectWebSocket.
    destruct h, c, (0 <? Z.of_nat (List.length hist)); callbacks; simpl; auto.
  - unfold onmessage, handleWebSocketMessage.
    destruct (jsstring_eqb (type d) (js "chat_response")); [simpl; auto|].
    destruct (jsstring_eqb (type d) (js "typing")); [simpl; auto|].
    destruct (jsstring_eqb (type d) (js "error")); callbacks; simpl; auto.
  - simpl; auto.
  - unfold onclose. rewrite attemptReconnect_exhausted by exact H.
    callbacks; simpl; auto.
  - unfold onerror. callbacks; simpl; auto.
  - unfold ontimeout, connectWebSocket. destruct c; callbacks; simpl; auto.
  - unfold sendMessage.
    destruct (negb (truthy_string (trim content))); [simpl; auto|].
    cbn [wsRef set_isTyping set_messageCount set_messages].
    destruct (wsRef s) as [[]|]; simpl; auto.
  - simpl; auto.
  - unfold sendMessage_rejected. callbacks; simpl; auto.
  - simpl; auto.
  - unfold cleanup.
    destruct (wsRef s) as [[]|]; cbn [reconnectTimeoutRef set_wsRef];
      destruct (reconnectTimeoutRef s); simpl; auto.
Qed.

Lemma exhausted_run evs : forall s,
  maxReconnectAttempts <= reconnectAttempts s ->
  ~ In WsOnOpen evs ->
  timeouts (snd (run s evs)) = [].
Proof.
  induction evs as [|ev evs IH]; intros s H Hno; [reflexivity|].
  cbn [UseChat.run].
  assert (Hev : ev <> WsOnOpen) by (intros ->; apply Hno; now left).
  destruct (exhausted_step s H Hev) as [H1 Ht].
  destruct (UseChat.step opts toLocaleTimeString s ev) as [s1 e1].
  specialize (IH s1 H1 (fun Hin => Hno (or_intror Hin))).
  destruct (UseChat.run opts toLocaleTimeString s1 evs) as [s2 e2].
  cbn [fst snd] in *. now rewrite timeouts_app, Ht, IH.
Qed.

(** C2. Once the attempt counter has reached 5, the close handler
    schedules no timeout and leaves counter and timeout reference as they
    are; besides reporting the lost connection it makes one call, [onError]
    with 'Connection lost. Please refresh the page.', whenever that
    callback was supplied.  Nor does anything that follows schedule a
    reconnect, until a socket opens and resets the counter. *)
Theorem reconnect_stops_after_five (s : State) :
  maxReconnectAttempts <= reconnectAttempts s ->
  timeouts (snd (onclose opts s)) = []
  /\ ~ In CreateWebSocket (snd (onclose opts s))
  /\ reconnectAttempts (fst (onclose opts s)) = reconnectAttempts s
  /\ reconnectTimeoutRef (fst (onclose opts s)) = reconnectTimeoutRef s
  /\ snd (onclose opts s)
     = call_onConnectionChange opts false
       ++ (if onError opts then [OnError connectionLost] else [])
  /\ (onError opts = true -> In (OnError connectionLost) (snd (onclose opts s)))
  /\ (forall evs, ~ In WsOnOpen evs -> timeouts (snd (run s evs)) = []).
Proof.
  intros H. unfold onclose.
  rewrite attemptReconnect_exhausted
    by (cbn [reconnectAttempts set_wsRef set_isConnected]; exact H).
  cbn [fst snd]. repeat split; try reflexivity.
  - now rewrite timeouts_app, timeouts_onConnectionChange, timeouts_onError.
  - callbacks; simpl; intuition discriminate.
  - intros Ho. unfold call_onError. rewrite Ho. apply in_or_app. right. now left.
  - intros evs Hno. now apply exhausted_run.
Qed.

(** The attempt counter stays within the budget. *)
Lemma attempts_step_bounded s ev :
  0 <= reconnectAttempts s <= maxReconnectAttempts ->
  0 <= reconnectAttempts (fst (step s ev)) <= maxReconnectAttempts.
Proof.
  intros H. unfold maxReconnectAttempts in *.
  destruct ev as [h hist c| |[d|] now| | |c|content ctx now|r now|m|mid rt|];
    cbn [UseChat.step].
  - unfold initializeChat, connectWebSocket.
    destruct h, c, (0 <? Z.of_nat (List.length hist)); exact H.
  - cbn. lia.
  - unfold onmessage, handleWebSocketMessage.
    destruct (jsstring_eqb (type d) (js "chat_response")); [exact H|].
    destruct (jsstring_eqb (type d) (js "typing")); [exact H|].
    destruct (jsstring_eqb (type d) (js "error")); exact H.
  - exact H.
  - unfold onclose, attemptReconnect.
    cbn [reconnectAttempts set_wsRef set_isConnected].
    destruct (reconnectAttempts s <? maxReconnectAttempts) eqn:E; [|exact H].
    apply Z.ltb_lt in E. unfold maxReconnectAttempts in E. cbn. lia.
  - exact H.
  - unfold ontimeout, connectWebSocket. destruct c; exact H.
  - unfold sendMessage.
    destruct (negb (truthy_string (trim content))); [exact H|].
    cbn [wsRef set_isTyping set_messageCount set_messages].
    destruct (wsRef s) as [[]|]; exact H.
  - exact H.
  - exact H.
  - exact H.
  - unfold cleanup. destruct (wsRef s) as [[]|]; exact H.
Qed.

Lemma attempts_bounded evs : forall s,
  0 <= reconnectAttempts s <= maxReconnectAttempts ->
  0 <= reconnectAttempts (fst (run s evs)) <= maxReconnectAttempts.
Proof.
  induction evs as [|ev evs IH]; intros s H; [exact H|].
  cbn [UseChat.run].
  pose proof (@attempts_step_bounded s ev H) as H1.
  destruct (UseChat.step opts toLocaleTimeString s ev) as [s1 e1].
  specialize (IH s1 H1).
  destruct (UseChat.run opts toLocaleTimeString s1 evs) as [s2 e2].
  exact IH.
Qed.

Lemma run_app evs1 : forall evs2 s,
  snd (run s (evs1 ++ evs2))
  = snd (run s evs1) ++ snd (run (fst (run s evs1)) evs2).
Proof.
  induction evs1 as [|e evs1 IH]; intros evs2 s0.
  - reflexivity.
  - cbn [UseChat.run app].
    destruct (UseChat.step opts toLocaleTimeString s0 e) as [s1 e1].
    specialize (IH evs2 s1).
    destruct (UseChat.run opts toLocaleTimeString s1 (evs1 ++ evs2)) as [s2 e2].
    destruct (UseChat.run opts toLocaleTimeString s1 evs1) as [s3 e3].
    cbn [fst snd] in *. now rewrite IH, app_assoc.
Qed.

(** The first five closes in a row are each followed by a retry; the ones
    after them by none. *)
Lemma delays_of_consecutive_closes (n : nat) :
  timeouts (snd (run initial (repeat WsOnClose n)))
  = firstn n [2000; 4000; 8000; 16000; 30000].
Proof.
  do 5 (destruct n as [|n]; [cbn; callbacks; reflexivity|]).
  change (repeat WsOnClose (S (S (S (S (S n))))))
    with (repeat WsOnClose 5 ++ repeat WsOnClose n).
  rewrite run_app, timeouts_app.
  rewrite (@exhausted_run (repeat WsOnClose n)
             (fst (run initial (repeat WsOnClose 5)))).
  - rewrite app_nil_r. cbn [firstn]. rewrite firstn_nil.
    cbn; callbacks; reflexivity.
  - cbn. unfold maxReconnectAttempts. lia.
  - intros Hin. apply repeat_spec in Hin. discriminate.
Qed.

(** C3 (as amended). While attempts remain, a close schedules exactly one
    reconnect; for the attempt numbered n, 1 <= n <= 5, its delay is
    min(1000 * 2^n, 30000) ms, that is 2 s, 4 s, 8 s, 16 s and 30 s: the
    very first retry waits 2 seconds. *)
Theorem reconnect_delay_backoff (s : State) :
  0 <= reconnectAttempts s < maxReconnectAttempts ->
  let n := reconnectAttempts s + 1 in
  1 <= n <= 5
  /\ reconnectAttempts (fst (onclose opts s)) = n
  /\ timeouts (snd (onclose opts s)) = [Z.min (1000 * 2 ^ n) 30000]
  /\ reconnectTimeoutRef (fst (onclose opts s)) = Some (Z.min (1000 * 2 ^ n) 30000)
  /\ Z.min (1000 * 2 ^ n) 30000
     = nth (Z.to_nat (n - 1)) [2000; 4000; 8000; 16000; 30000] 0
  /\ (reconnectAttempts s = 0 -> timeouts (snd (onclose opts s)) = [2000]).
Proof.
  intros H n. unfold maxReconnectAttempts in H.
  unfold onclose, attemptReconnect.
  cbn [reconnectAttempts set_wsRef set_isConnected].
  destruct (reconnectAttempts s <? maxReconnectAttempts) eqn:E;
    [|apply Z.ltb_ge in E; unfold maxReconnectAttempts in E; lia].
  cbn [fst snd reconnectAttempts reconnectTimeoutRef set_reconnect].
  rewrite timeouts_app, timeouts_onConnectionChange. unfold reconnectDelay.
  fold n. split; [subst n; lia|]. repeat split.
  - assert (Hn : n = 1 \/ n = 2 \/ n = 3 \/ n = 4 \/ n = 5) by (subst n; lia).
    destruct Hn as [-> | [-> | [-> | [-> | ->]]]]; reflexivity.
  - intros H0. subst n. rewrite H0. reflexivity.
Qed.

Lemma length_mapi {A B} (f : A -> nat -> B) (l : list A) : forall i,
  List.length (mapi f i l) = List.length l.
Proof. induction l as [|a l IH]; intros i; simpl; [reflexivity|now rewrite IH]. Qed.

(** C5. Every message that arrives on the socket and parses as JSON is
    dispatched by the [onmessage] handler on its tag [type]: under
    ['chat_response'] the hook appends exactly one message, sent by ['ai'],
    clears the typing indicator and adds one to the message count; under
    ['typing'] it sets the typing indicator to the message's [isTyping];
    under ['error'] it calls [onError] with the message's text and clears
    the typing indicator; under any other tag it changes nothing. *)
Theorem websocket_message_dispatch (d : WsData) (now : Z) (s : State) :
  let s' := fst (step s (WsOnMessage (Some d) now)) in
  let effs := snd (step s (WsOnMessage (Some d) now)) in
  (type d = js "chat_response" ->
     (exists m, messages s' = messages s ++ [m] /\ sender m = ai
                /\ Types.content (base m) = Types.content (data d))
     /\ isTyping s' = false
     /\ messageCount s' = messageCount s + 1
     /\ isConnected s' = isConnected s /\ wsRef s' = wsRef s
     /\ reconnectAttempts s' = reconnectAttempts s
     /\ reconnectTimeoutRef s' = reconnectTimeoutRef s
     /\ effs = [])
  /\ (type d = js "typing" ->
        s' = set_isTyping s (data_isTyping d)
        /\ isTyping s' = data_isTyping d
        /\ messages s' = messages s /\ messageCount s' = messageCount s
        /\ effs = [])
  /\ (type d = js "error" ->
        effs = (if onError opts then [OnError (message d)] else [])
        /\ s' = set_isTyping s false
        /\ isTyping s' = false
        /\ messages s' = messages s /\ messageCount s' = messageCount s)
  /\ (type d <> js "chat_response" -> type d <> js "typing" ->
      type d <> js "error" ->
        s' = s /\ effs = []).
Proof.
  cbv zeta. cbn [UseChat.step onmessage].
  assert (Hother :
    type d <> js "chat_response" -> type d <> js "typing" ->
    type d <> js "error" ->
    handleWebSocketMessage opts toLocaleTimeString d now s = (s, [])).
  { intros H1 H2 H3. unfold handleWebSocketMessage.
    destruct (jsstring_eqb (type d) (js "chat_response")) eqn:E1;
      [apply jsstring_eqb_eq in E1; contradiction|].
    destruct (jsstring_eqb (type d) (js "typing")) eqn:E2;
      [apply jsstring_eqb_eq in E2; contradiction|].
    destruct (jsstring_eqb (type d) (js "error")) eqn:E3;
      [apply jsstring_eqb_eq in E3; contradiction|].
    reflexivity. }
  split; [|split; [|split]].
  - intros Ht. unfold handleWebSocketMessage. rewrite Ht.
    change (jsstring_eqb (js "chat_response") (js "chat_response")) with true.
    cbn. split; [|now repeat split].
    eexists. split; [reflexivity|]. split; reflexivity.
  - intros Ht. unfold handleWebSocketMessage. rewrite Ht.
    change (jsstring_eqb (js "typing") (js "chat_response")) with false.
    change (jsstring_eqb (js "typing") (js "typing")) with true.
    cbn. now repeat split.
  - intros Ht. unfold handleWebSocketMessage. rewrite Ht.
    change (jsstring_eqb (js "error") (js "chat_response")) with false.
    change (jsstring_eqb (js "error") (js "typing")) with false.
    change (jsstring_eqb (js "error") (js "error")) with true.
    cbn. now repeat split.
  - intros H1 H2 H3. now rewrite (Hother H1 H2 H3).
Qed.

(** Every transition of the hook keeps the count equal to the length. *)
Lemma step_count_matches (s : State) (ev : Event) :
  count_matches s -> count_matches (fst (step s ev)).
Proof.
  unfold count_matches. intros H.
  destruct ev as [h hist c| |[d|] now| | |c|content ctx now|r now|m|mid rt|];
    cbn [UseChat.step].
  - unfold initializeChat, connectWebSocket.
    destruct h; [|exact H]. cbn [negb].
    destruct (0 <? Z.of_nat (List.length hist)); destruct c; cbn; try exact H.
    all: unfold formatHistory; now rewrite length_mapi.
  - exact H.
  - unfold onmessage, handleWebSocketMessage.
    destruct (jsstring_eqb (type d) (js "chat_response")).
    + cbn. rewrite length_app. cbn. lia.
    + destruct (jsstring_eqb (type d) (js "typing")); [exact H|].
      destruct (jsstring_eqb (type d) (js "error")); exact H.
  - exact H.
  - unfold onclose, attemptReconnect.
    cbn [reconnectAttempts set_wsRef set_isConnected].
    destruct (reconnectAttempts s <? maxReconnectAttempts); exact H.
  - exact H.
  - unfold ontimeout, connectWebSocket. destruct c; exact H.
  - unfold sendMessage.
    destruct (negb (truthy_string (trim content))); [exact H|].
    cbn [wsRef set_isTyping set_messageCount set_messages].
    destruct (wsRef s) as [[]|]; cbn; rewrite length_app; cbn; lia.
  - cbn. rewrite length_app. cbn. lia.
  - exact H.
  - cbn. now rewrite length_map.
  - unfold cleanup. destruct (wsRef s) as [[]|]; exact H.
Qed.

(** C9. [messageCount = messages.length] holds in the initial state and
    after every sequence of operations of the hook: loading the history,
    sending over the socket or through the REST fallback (whether the
    request then resolves or rejects), receiving socket messages, adding
    reactions, and the connection events. *)
Theorem count_matches_always (evs : list Event) :
  count_matches (fst (run initial evs)).
Proof.
  assert (G : forall s, count_matches s -> count_matches (fst (run s evs))).
  { induction evs as [|ev evs' IH]; intros s Hs; [exact Hs|].
    cbn [UseChat.run].
    pose proof (@step_count_matches s ev Hs) as H1.
    destruct (UseChat.step opts toLocaleTimeString s ev) as [s1 e1].
    specialize (IH s1 H1).
    destruct (UseChat.run opts toLocaleTimeString s1 evs') as [s2 e2].
    exact IH. }
  apply G. reflexivity.
Qed.

(** C10. [sendMessage] with a content that is empty or made of whitespace
    only returns at once: the state (messages, count, typing indicator and
    all the rest) is unchanged and nothing is sent, over the socket or to
    the REST API. *)
Theorem sendMessage_blank_is_noop
    (content : jsstring) (context : option json) (now : Z) (s : State) :
  Forall (fun c => is_whitespace c = true) content ->
  sendMessage opts toLocaleTimeString content context now s = (s, []).
Proof.
  intros H. unfold sendMessage. now rewrite (trim_whitespace H).
Qed.

End UseChatFacts.

Lemma reconnect_stops_witness :
  (UseChat.maxReconnectAttempts <= UseChat.reconnectAttempts Examples.exhausted)%Z
  /\ UseChat.timeouts (snd (UseChat.onclose Examples.hook_options Examples.exhausted)) = []
  /\ snd (UseChat.onclose Examples.hook_options Examples.exhausted)
     = [UseChat.OnConnectionChange false; UseChat.OnError UseChat.connectionLost].
Proof.
  assert (H : (UseChat.maxReconnectAttempts
               <= UseChat.reconnectAttempts Examples.exhausted)%Z)
    by (apply Z.leb_le; reflexivity).
  split; [exact H|].
  pose proof (@reconnect_stops_after_five Examples.hook_options Examples.utc_clock
                Examples.exhausted H) as (H1 & _ & _ & _ & H2 & _ & _).
  split; [exact H1 | exact H2].
Defined.

Lemma reconnect_delay_witness :
  (0 <= UseChat.reconnectAttempts UseChat.initial < UseChat.maxReconnectAttempts)%Z
  /\ UseChat.timeouts (snd (UseChat.onclose Examples.hook_options UseChat.initial))
     = [2000%Z].
Proof.
  assert (H : (0 <= UseChat.reconnectAttempts UseChat.initial
               < UseChat.maxReconnectAttempts)%Z)
    by (split; [apply Z.leb_le | apply Z.ltb_lt]; reflexivity).
  split; [exact H|].
  pose proof (@reconnect_delay_backoff Examples.hook_options UseChat.initial H)
    as (_ & _ & _ & _ & _ & H1).
  apply H1. reflexivity.
Defined.

(** C3 fails as stated: the first retry is scheduled 2000 ms after the
    close, not 1000 ms. *)
Lemma first_retry_waits_two_seconds :
  UseChat.timeouts (snd (UseChat.onclose Examples.hook_options UseChat.initial))
  = [2000%Z]
  /\ UseChat.timeouts (snd (UseChat.onclose Examples.hook_options UseChat.initial))
     <> [1000%Z].
Proof. split; [reflexivity | discriminate]. Qed.

Lemma websocket_dispatch_witness :
  let s := Examples.exhausted in
  let receive tag :=
    UseChat.step Examples.hook_options Examples.utc_clock s
      (UseChat.WsOnMessage (Some (Examples.ws_message tag)) 1750000000000%Z) in
  (UseChat.messageCount (fst (receive "chat_response"%string))
   = (UseChat.messageCount s + 1)%Z)
  /\ UseChat.isTyping (fst (receive "typing"%string)) = true
  /\ snd (receive "error"%string) = [UseChat.OnError (JS.js "model overloaded")]
  /\ fst (receive "pong"%string) = s.
Proof.
  intros s receive.
  pose proof (@websocket_message_dispatch Examples.hook_options Examples.utc_clock
                (Examples.ws_message "chat_response") 1750000000000%Z s)
    as (H1 & _).
  pose proof (@websocket_message_dispatch Examples.hook_options Examples.utc_clock
                (Examples.ws_message "typing") 1750000000000%Z s)
    as (_ & H2 & _).
  pose proof (@websocket_message_dispatch Examples.hook_options Examples.utc_clock
                (Examples.ws_message "error") 1750000000000%Z s)
    as (_ & _ & H3 & _).
  pose proof (@websocket_message_dispatch Examples.hook_options Examples.utc_clock
                (Examples.ws_message "pong") 1750000000000%Z s)
    as (_ & _ & _ & H4).
  split; [exact (proj1 (proj2 (proj2 (H1 eq_refl))))|].
  split; [exact (proj1 (proj2 (H2 eq_refl)))|].
  split; [exact (proj1 (H3 eq_refl))|].
  apply H4; discriminate.
Defined.

Lemma sendMessage_blank_witness :
  Forall (fun c => JS.is_whitespace c = true) Examples.blank
  /\ UseChat.sendMessage Examples.hook_options Examples.utc_clock
       Examples.blank None 1750000000000%Z UseChat.initial
     = (UseChat.initial, []).
Proof.
  assert (H : Forall (fun c => JS.is_whitespace c = true) Examples.blank)
    by (repeat constructor).
  split; [exact H|].
  exact (@sendMessage_blank_is_noop Examples.hook_options Examples.utc_clock
           Examples.blank None 1750000000000%Z UseChat.initial H).
Defined.

Example sendMessage_over_rest :
  let '(s, effs) :=
    UseChat.run Examples.hook_options Examples.utc_clock UseChat.initial
      [ UseChat.SendMessage (JS.js "hello") None 1750000000000%Z;
        UseChat.PostChatResolved Examples.reply 1750000000900%Z ] in
  map UseChat.sender (UseChat.messages s) = [UseChat.user; UseChat.ai]
  /\ UseChat.messageCount s = 2%Z
  /\ UseChat.isTyping s = false
  /\ effs = [UseChat.PostChat (JS.js "hello") (JS.js "s1") (JS.JObj [])].
Proof. vm_compute. repeat split. Qed.

(** ** The message-count trigger *)

Section MigrationFacts.
Import JS Migration.
Local Open Scope Z_scope.

Lemma keyed_unique (l : list chat_session) (a b : chat_session) :
  NoDup (map s_id l) -> In a l -> In b l -> s_id a = s_id b -> a = b.
Proof.
  induction l as [|x l IH]; simpl; intros Hnd Ha Hb Hid; [contradiction|].
  inversion Hnd as [|? ? Hx Hl]; subst.
  destruct Ha as [->|Ha], Hb as [->|Hb]; trivial.
  - exfalso. apply Hx. rewrite Hid. now apply in_map.
  - exfalso. apply Hx. rewrite <- Hid. now apply in_map.
  - now apply IH.
Qed.

Lemma filter_ext_length {A} (f g : A -> bool) (l : list A) :
  (forall x, In x l -> f x = g x) ->
  List.length (filter f l) = List.length (filter g l).
Proof.
  intros H. now rewrite (filter_ext_in f g l H).
Qed.

(** Whoever may insert a message into a session may read all of them. *)
Lemma select_count_sees_all role db m :
  message_policy role db m = true ->
  select_count role db (m_session_id m) = rows_of db (m_session_id m).
Proof.
  intros Hp. unfold select_count, rows_of. f_equal.
  apply filter_ext_length. intros x _.
  destruct (m_session_id x =? m_session_id m)%N eqn:E;
    [|now rewrite andb_false_r].
  rewrite andb_true_r. apply N.eqb_eq in E.
  destruct role as [uid|]; [|reflexivity].
  simpl in *. now rewrite E.
Qed.

Lemma rows_of_other db m sid :
  m_session_id m <> sid ->
  rows_of {| chat_sessions := chat_sessions db;
             chat_messages := chat_messages db ++ [m] |} sid
  = rows_of db sid.
Proof.
  intros Hne. unfold rows_of. cbn [chat_messages].
  rewrite filter_app. cbn [filter].
  destruct (m_session_id m =? sid)%N eqn:E;
    [apply N.eqb_eq in E; contradiction|].
  now rewrite app_nil_r.
Qed.

(** C7 (as amended). The trigger runs after an insert only. After every
    successful insert into [chat_messages] the referenced session exists
    and its [message_count] equals the number of [chat_messages] rows that
    reference it, and the counters of all sessions are right if they were
    right before.  A delete on [chat_messages] runs no trigger and leaves
    every [message_count] as it was; signed-in users cannot delete
    messages at all. *)
Theorem message_count_after_insert role now db m db' :
  sessions_keyed db ->
  insert_message role now db m = Some db' ->
  (exists s, In s (chat_sessions db') /\ s_id s = m_session_id m)
  /\ (forall s, In s (chat_sessions db') -> s_id s = m_session_id m ->
        message_count s = rows_of db' (s_id s))
  /\ (counts_consistent db -> counts_consistent db')
  /\ sessions_keyed db'
  /\ (forall role' cond,
        chat_sessions (delete_messages role' db' cond) = chat_sessions db')
  /\ (forall uid cond, delete_messages (authenticated uid) db' cond = db').
Proof.
  intros Hkey Hins. unfold insert_message in Hins.
  destruct (sender_check m && primary_key_free db m && references_session db m
            && message_policy role db m) eqn:Hc; [|discriminate].
  apply andb_prop in Hc as [Hc Hpol]. apply andb_prop in Hc as [_ Href].
  inversion Hins as [Hdb]; clear Hins Hdb.
  set (db1 := {| chat_sessions := chat_sessions db;
                 chat_messages := chat_messages db ++ [m] |}) in *.
  assert (Hpol1 : message_policy role db1 m = true) by exact Hpol.
  pose proof (@select_count_sees_all role db1 m Hpol1) as Hcount.
  assert (Hrows : forall sid, rows_of (update_session_message_count role now db1 m) sid
                              = rows_of db1 sid) by reflexivity.
  (* the session the policy found is the one the key names *)
  assert (Hown : forall s0, In s0 (chat_sessions db) ->
                 s_id s0 = m_session_id m -> session_policy role s0 = true).
  { intros s0 Hin Hid. destruct role as [uid|]; [|reflexivity].
    simpl in Hpol. apply existsb_exists in Hpol as (s1 & Hin1 & H1).
    apply andb_prop in H1 as [Hid1 Hu1].
    apply N.eqb_eq in Hid1, Hu1.
    assert (s0 = s1) by (apply (@keyed_unique _ _ _ Hkey Hin Hin1); congruence).
    subst s1. simpl. now rewrite Hu1, N.eqb_refl. }
  assert (Hupd : forall s, In s (chat_sessions (update_session_message_count role now db1 m)) ->
            exists s0, In s0 (chat_sessions db) /\ s_id s = s_id s0 /\
              ((s_id s0 = m_session_id m /\
                message_count s = select_count role db1 (m_session_id m))
               \/ (s_id s0 <> m_session_id m /\ s = s0))).
  { intros s Hin. cbn [update_session_message_count chat_sessions] in Hin.
    apply in_map_iff in Hin as (s0 & Hs & Hin0). exists s0. split; [exact Hin0|].
    destruct (s_id s0 =? m_session_id m)%N eqn:E.
    - apply N.eqb_eq in E. rewrite (Hown s0 Hin0 E) in Hs. subst s.
      split; [reflexivity|]. left. now split.
    - rewrite andb_false_r in Hs. subst s. split; [reflexivity|].
      right. split; [now apply N.eqb_neq|reflexivity]. }
  repeat split.
  - unfold references_session in Href.
    apply existsb_exists in Href as (s0 & Hin0 & Hid0). apply N.eqb_eq in Hid0.
    eexists. split.
    + cbn [update_session_message_count chat_sessions].
      apply in_map. exact Hin0.
    + rewrite (Hown s0 Hin0 Hid0), Hid0, N.eqb_refl. reflexivity.
  - intros s Hin Hid. destruct (Hupd s Hin) as (s0 & _ & Hid0 & [[_ Hc]|[Hne _]]).
    + rewrite Hc, Hcount, Hrows, Hid. reflexivity.
    + congruence.
  - intros Hcons s Hin. destruct (Hupd s Hin) as (s0 & Hin0 & Hid0 & [[Hid Hc]|[Hne ->]]).
    + rewrite Hc, Hcount, Hrows, Hid0, Hid. reflexivity.
    + rewrite Hrows. unfold db1. rewrite rows_of_other by congruence.
      now apply Hcons.
  - unfold sessions_keyed in *.
    cbn [update_session_message_count chat_sessions].
    rewrite map_map. erewrite map_ext; [exact Hkey|].
    intros s. now destruct (session_policy role s && (s_id s =? m_session_id m)%N).
  - intros role' cond. now destruct role'.
Qed.

Lemma filter_filter_keep {A} (f g : A -> bool) (l : list A) :
  (forall x, In x l -> f x = true -> g x = true) ->
  filter f (filter g l) = filter f l.
Proof.
  induction l as [|x l IH]; intros H; [reflexivity|]. cbn [filter].
  assert (IH' : filter f (filter g l) = filter f l)
    by (apply IH; intros y Hy; apply H; now right).
  destruct (f x) eqn:Ef.
  - rewrite (H x (or_introl eq_refl) Ef). cbn [filter]. now rewrite Ef, IH'.
  - destruct (g x); cbn [filter]; now rewrite ?Ef, IH'.
Qed.

(** Deleting a session takes its messages along and disturbs no other
    counter. *)
Lemma delete_session_consistent role db sid :
  sessions_keyed db -> counts_consistent db ->
  counts_consistent (delete_session role db sid).
Proof.
  intros Hkey Hcons s Hin. unfold delete_session in *.
  cbn [chat_sessions] in Hin. apply filter_In in Hin as [Hin Hkeep].
  rewrite (Hcons s Hin). unfold rows_of. cbn [chat_messages].
  f_equal. f_equal. symmetry. apply filter_filter_keep.
  intros m _ Hm. apply N.eqb_eq in Hm.
  apply negb_true_iff. apply not_true_is_false. intros Hgone.
  apply existsb_exists in Hgone as (s' & Hin' & Hd).
  apply andb_prop in Hd as [Hd Hid]. apply N.eqb_eq in Hid.
  assert (s' = s) by (apply (@keyed_unique _ _ _ Hkey Hin' Hin); congruence).
  subst s'. rewrite Hd in Hkeep. discriminate.
Qed.

End MigrationFacts.

Lemma message_count_witness :
  Migration.sessions_keyed Examples.empty_session
  /\ Migration.insert_message (Migration.authenticated 7%N) 2000
       Examples.empty_session Examples.first_message = Some Examples.one_message
  /\ Migration.counts_consistent Examples.one_message.
Proof.
  assert (Hk : Migration.sessions_keyed Examples.empty_session)
    by (repeat constructor; simpl; tauto).
  assert (Hi : Migration.insert_message (Migration.authenticated 7%N) 2000
                 Examples.empty_session Examples.first_message
               = Some Examples.one_message) by reflexivity.
  split; [exact Hk|]. split; [exact Hi|].
  pose proof (@message_count_after_insert (Migration.authenticated 7%N) 2000%Z
                Examples.empty_session Examples.first_message
                Examples.one_message Hk Hi) as (_ & _ & H & _).
  apply H. intros s [<-|[]]. reflexivity.
Defined.

(** C7 fails as stated: after the service role deletes the only message of
    a session, the session still says it has one. *)
Lemma delete_leaves_stale_count :
  let db := Migration.delete_messages Migration.service_role Examples.one_message
              (fun m => (Migration.m_id m =? 10)%N) in
  Migration.counts_consistent Examples.one_message
  /\ map Migration.message_count (Migration.chat_sessions db) = [1%Z]
  /\ Migration.chat_messages db = []
  /\ ~ Migration.counts_consistent db.
Proof.
  cbv zeta. split; [|split; [reflexivity|split; [reflexivity|]]].
  - intros s [<-|[]]. reflexivity.
  - intros H.
    specialize (H _ (or_introl eq_refl)). vm_compute in H. discriminate.
Qed.

(* ------------------------------------------------------------------ *)
(** * Further properties of the modelled code *)

(** ** Trimming *)

Section TrimFacts.
Import JS Invariants.

Lemma trimStart_split (s : jsstring) :
  exists p, s = p ++ trimStart s /\ blank p.
Proof.
  induction s as [|c s (p & Hs & Hp)]; [exists []; split; [reflexivity|constructor]|].
  simpl. destruct (is_whitespace c) eqn:E.
  - exists (c :: p). split; [simpl; now f_equal | now constructor].
  - exists []. split; [reflexivity|constructor].
Qed.

Lemma trimStart_head (s : jsstring) c r :
  trimStart s = c :: r -> is_whitespace c = false.
Proof.
  induction s as [|x s IH]; simpl; [discriminate|].
  destruct (is_whitespace x) eqn:E; [exact IH|].
  intros H. inversion H; subst. exact E.
Qed.

Lemma trimStart_nil_blank (s : jsstring) : trimStart s = [] -> blank s.
Proof.
  intros H. destruct (trimStart_split s) as (p & Hs & Hp).
  rewrite H, app_nil_r in Hs. now subst.
Qed.

Lemma blank_rev (s : jsstring) : blank (rev s) -> blank s.
Proof.
  unfold blank. rewrite !Forall_forall. intros H c Hc. apply H. now apply in_rev in Hc.
Qed.

Lemma blank_app (p q : jsstring) : blank p -> blank q -> blank (p ++ q).
Proof. unfold blank. intros. now apply Forall_app. Qed.

Lemma trim_nil_iff (s : jsstring) : trim s = [] <-> blank s.
Proof.
  split; [|apply trim_whitespace].
  unfold trim, trimEnd. intros H.
  assert (H1 : trimStart (rev (trimStart s)) = []).
  { rewrite <- (rev_involutive (trimStart _)). now rewrite H. }
  apply trimStart_nil_blank, blank_rev in H1.
  destruct (trimStart_split s) as (p & Hs & Hp). rewrite Hs.
  now apply blank_app.
Qed.

Lemma trimStart_idem (s : jsstring) : trimStart (trimStart s) = trimStart s.
Proof.
  destruct (trimStart s) as [|c r] eqn:E; [reflexivity|].
  simpl. now rewrite (@trimStart_head _ _ _ E).
Qed.

Lemma trimStart_keeps_last (s : jsstring) c :
  is_whitespace c = false -> trimStart (s ++ [c]) = trimStart s ++ [c].
Proof.
  intros Hc. induction s as [|x s IH]; simpl; [now rewrite Hc|].
  destruct (is_whitespace x); [exact IH|reflexivity].
Qed.

(** The result of [trim] neither starts nor ends with whitespace. *)
Lemma trim_ends (s : jsstring) :
  (forall c r, trim s = c :: r -> is_whitespace c = false)
  /\ (forall c r, trim s = r ++ [c] -> is_whitespace c = false).
Proof.
  unfold trim, trimEnd. split.
  - intros c r H.
    destruct (trimStart s) as [|x t] eqn:E; [discriminate H|].
    pose proof (@trimStart_head _ _ _ E) as Hx.
    (* the first unit of [trimStart s] survives the trimming of the end *)
    change (x :: t) with ([x] ++ t) in H. rewrite rev_app_distr in H.
    simpl in H. rewrite (@trimStart_keeps_last _ _ Hx), rev_app_distr in H.
    simpl in H. inversion H; subst. exact Hx.
  - intros c r H.
    assert (H1 : trimStart (rev (trimStart s)) = c :: rev r).
    { rewrite <- (rev_involutive (trimStart _)), H, rev_app_distr. reflexivity. }
    exact (@trimStart_head _ _ _ H1).
Qed.

Lemma trim_idem (s : jsstring) : trim (trim s) = trim s.
Proof.
  destruct (trim s) as [|c r] eqn:E; [reflexivity|].
  pose proof (proj1 (trim_ends s) c r E) as Hc.
  unfold trim at 1, trimEnd. cbn [trimStart]. rewrite Hc.
  destruct (rev (c :: r)) as [|x t] eqn:Er.
  - apply (f_equal (@rev N)) in Er. rewrite rev_involutive in Er. discriminate.
  - assert (Hx : is_whitespace x = false).
    { apply (proj2 (trim_ends s) x (rev t)).
      rewrite E. apply (f_equal (@rev N)) in Er.
      rewrite rev_involutive in Er. rewrite Er. reflexivity. }
    cbn [trimStart]. rewrite Hx, <- Er. apply rev_involutive.
Qed.

End TrimFacts.

(** ** More on the chat hook *)

Section UseChatMore.
Import JS UseChat Invariants.
Local Open Scope Z_scope.

Variable opts : Options.
Variable toLocaleTimeString : Z -> jsstring.

Local Abbreviation step := (UseChat.step opts toLocaleTimeString).
Local Abbreviation run := (UseChat.run opts toLocaleTimeString).

Ltac callbacks' :=
  unfold call_onError, call_onConnectionChange;
  destruct (onError opts), (onConnectionChange opts).

(** X1. [sendMessage] with a content that has a character other than
    whitespace appends exactly one message, sent by the user, whose content
    is the content as given (not trimmed); it adds one to the count, turns the
    typing indicator on and makes exactly one request: over the socket when
    the socket is open, to the REST API otherwise. *)
Theorem sendMessage_nonblank
    (content : jsstring) (context : option json) (now : Z) (s : State) :
  ~ blank content ->
  let s' := fst (sendMessage opts toLocaleTimeString content context now s) in
  let effs := snd (sendMessage opts toLocaleTimeString content context now s) in
  let context' := match context with Some c => c | None => JObj [] end in
  (exists u, messages s' = messages s ++ [u]
             /\ sender u = user /\ id u = Z_toString now
             /\ Types.content (base u) = content
             /\ Types.session_id (base u) = sessionId opts
             /\ reactions u = None)
  /\ messageCount s' = messageCount s + 1
  /\ isTyping s' = true
  /\ effs = match wsRef s with
            | Some OPEN => [WsSend content context']
            | _ => [PostChat content (sessionId opts) context']
            end.
Proof.
  intros Hnb. cbv zeta. unfold sendMessage.
  destruct (trim content) as [|c r] eqn:E.
  - exfalso. apply Hnb. now apply trim_nil_iff.
  - cbn [truthy_string negb wsRef set_isTyping set_messageCount set_messages].
    destruct (wsRef s) as [[]|]; cbn; (split; [eexists; repeat split|repeat split]).
Qed.

(** Outside [onopen], every timeout scheduled is paid for by one attempt. *)
Lemma timeouts_step_cost s ev :
  ev <> WsOnOpen ->
  Z.of_nat (List.length (timeouts (snd (step s ev))))
  = reconnectAttempts (fst (step s ev)) - reconnectAttempts s.
Proof.
  intros Hev.
  destruct ev as [h hist c| |[d|] now| | |c|content ctx now|r now|m|mid rt|];
    try congruence; cbn [UseChat.step].
  - unfold initializeChat, connectWebSocket.
    destruct h, c, (0 <? Z.of_nat (List.length hist)); callbacks'; cbn; lia.
  - unfold onmessage, handleWebSocketMessage.
    destruct (jsstring_eqb (type d) (js "chat_response")); [cbn; lia|].
    destruct (jsstring_eqb (type d) (js "typing")); [cbn; lia|].
    destruct (jsstring_eqb (type d) (js "error")); callbacks'; cbn; lia.
  - cbn; lia.
  - unfold onclose, attemptReconnect.
    cbn [reconnectAttempts set_wsRef set_isConnected].
    destruct (reconnectAttempts s <? maxReconnectAttempts); callbacks'; cbn; lia.
  - unfold onerror. callbacks'; cbn; lia.
  - unfold ontimeout, connectWebSocket. destruct c; callbacks'; cbn; lia.
  - unfold sendMessage.
    destruct (negb (truthy_string (trim content))); [cbn; lia|].
    cbn [wsRef set_isTyping set_messageCount set_messages].
    destruct (wsRef s) as [[]|]; cbn; lia.
  - cbn; lia.
  - unfold sendMessage_rejected. callbacks'; cbn; lia.
  - cbn; lia.
  - unfold cleanup.
    destruct (wsRef s) as [[]|]; cbn [reconnectTimeoutRef set_wsRef];
      destruct (reconnectTimeoutRef s); cbn; lia.
Qed.

Lemma timeouts_run_cost evs : forall s,
  ~ In WsOnOpen evs ->
  Z.of_nat (List.length (timeouts (snd (run s evs))))
  = reconnectAttempts (fst (run s evs)) - reconnectAttempts s.
Proof.
  induction evs as [|ev evs IH]; intros s Hno; [cbn; lia|].
  cbn [UseChat.run].
  assert (Hev : ev <> WsOnOpen) by (intros ->; apply Hno; now left).
  pose proof (@timeouts_step_cost s ev Hev) as H1.
  destruct (UseChat.step opts toLocaleTimeString s ev) as [s1 e1].
  specialize (IH s1 (fun Hin => Hno (or_intror Hin))).
  destruct (UseChat.run opts toLocaleTimeString s1 evs) as [s2 e2].
  cbn [fst snd] in *. unfold timeouts in *.
  rewrite flat_map_app, length_app, Nat2Z.inj_add. lia.
Qed.

(** X2. Between two opens of a socket the hook schedules at most five
    reconnects, whatever else happens in between (messages, sends, errors,
    reactions, cleanup): a trace without [onopen] that starts with [a]
    attempts used schedules at most [5 - a] timeouts. *)
Theorem reconnect_budget (s : State) (evs : list Event) :
  0 <= reconnectAttempts s <= maxReconnectAttempts ->
  ~ In WsOnOpen evs ->
  Z.of_nat (List.length (timeouts (snd (run s evs))))
  <= maxReconnectAttempts - reconnectAttempts s.
Proof.
  intros Hb Hno. rewrite (@timeouts_run_cost evs s Hno).
  pose proof (@attempts_bounded opts toLocaleTimeString evs s Hb). lia.
Qed.

(** X3. A socket that opens restores the whole budget: it marks the hook
    connected and resets the counter, so that the next closes in a row are
    followed by retries after 2, 4, 8, 16 and 30 seconds again. *)
Theorem open_restores_budget (s : State) (n : nat) :
  isConnected (fst (onopen opts s)) = true
  /\ reconnectAttempts (fst (onopen opts s)) = 0
  /\ timeouts (snd (run (fst (onopen opts s)) (repeat WsOnClose n)))
     = firstn n [2000; 4000; 8000; 16000; 30000].
Proof.
  split; [reflexivity|]. split; [reflexivity|].
  do 5 (destruct n as [|n]; [cbn; callbacks'; reflexivity|]).
  change (repeat WsOnClose (S (S (S (S (S n))))))
    with (repeat WsOnClose 5 ++ repeat WsOnClose n).
  rewrite run_app, timeouts_app.
  rewrite (@exhausted_run opts toLocaleTimeString (repeat WsOnClose n)
             (fst (run (fst (onopen opts s)) (repeat WsOnClose 5)))).
  - rewrite app_nil_r. cbn [firstn]. rewrite firstn_nil.
    cbn; callbacks'; reflexivity.
  - cbn. unfold maxReconnectAttempts. lia.
  - intros Hin. apply repeat_spec in Hin. discriminate.
Qed.

(** X4. [cleanup] does not disarm the reconnection: it closes the socket and
    clears the pending timeout but leaves the handlers and the counter in
    place, so the close event that follows still schedules a reconnect as
    long as attempts remain. *)
Theorem cleanup_then_close_reconnects (s : State) :
  reconnectAttempts s < maxReconnectAttempts ->
  let s1 := fst (cleanup s) in
  messages s1 = messages s
  /\ reconnectAttempts s1 = reconnectAttempts s
  /\ (wsRef s <> None -> In WsClose (snd (cleanup s)))
  /\ timeouts (snd (onclose opts s1)) = [reconnectDelay (reconnectAttempts s + 1)].
Proof.
  intros H. cbv zeta.
  assert (Hs1 : messages (fst (cleanup s)) = messages s
                /\ reconnectAttempts (fst (cleanup s)) = reconnectAttempts s).
  { unfold cleanup. destruct (wsRef s) as [[]|]; cbn [reconnectTimeoutRef set_wsRef];
      destruct (reconnectTimeoutRef s); split; reflexivity. }
  destruct Hs1 as [Hm Ha]. split; [exact Hm|]. split; [exact Ha|]. split.
  - intros Hw. unfold cleanup.
    destruct (wsRef s) as [[]|]; [| | | |congruence];
      cbn [reconnectTimeoutRef set_wsRef];
      destruct (reconnectTimeoutRef s); cbn; auto.
  - unfold onclose, attemptReconnect.
    cbn [reconnectAttempts set_wsRef set_isConnected]. rewrite Ha.
    apply Z.ltb_lt in H. rewrite H. cbn [snd].
    rewrite timeouts_app, timeouts_onConnectionChange. reflexivity.
Qed.

End UseChatMore.

Section UseChatMessages.
Import JS UseChat Invariants.
Local Open Scope Z_scope.

Variable opts : Options.
Variable toLocaleTimeString : Z -> jsstring.

Local Abbreviation step := (UseChat.step opts toLocaleTimeString).
Local Abbreviation run := (UseChat.run opts toLocaleTimeString).

Lemma same_identity_refl l : Forall2 same_identity l l.
Proof. induction l; constructor; auto. now repeat split. Qed.

Lemma react_same_identity mid rt m : same_identity m (react m mid rt).
Proof.
  unfold react, same_identity.
  destruct (reactions m); [|now repeat split].
  destruct (jsstring_eqb (id m) mid); [|now repeat split].
  destruct (negb _); now repeat split.
Qed.

Lemma react_all_same_identity mid rt l :
  Forall2 same_identity l (map (fun msg => react msg mid rt) l).
Proof.
  induction l as [|m l IH]; simpl; constructor; [apply react_same_identity|exact IH].
Qed.

(** X5. Apart from loading a non-empty history, no operation of the hook
    drops, reorders or rewrites a message: after any other event the list is
    the old one, message for message with the same id, sender and content
    (only reactions may differ), followed by at most one new message. *)
Theorem messages_append_only (s : State) (ev : Event) :
  (forall h hist c, ev = InitializeChat h hist c -> h = false \/ hist = []) ->
  exists kept added,
    messages (fst (step s ev)) = kept ++ added
    /\ Forall2 same_identity (messages s) kept
    /\ (List.length added <= 1)%nat.
Proof.
  intros Hinit.
  assert (Hsame : forall s', messages s' = messages s ->
            exists kept added, messages s' = kept ++ added
              /\ Forall2 same_identity (messages s) kept
              /\ (List.length added <= 1)%nat).
  { intros s' E. exists (messages s), []. rewrite E, app_nil_r.
    split; [reflexivity|]. split; [apply same_identity_refl|simpl; lia]. }
  assert (Hadd : forall s' m, messages s' = messages s ++ [m] ->
            exists kept added, messages s' = kept ++ added
              /\ Forall2 same_identity (messages s) kept
              /\ (List.length added <= 1)%nat).
  { intros s' m E. exists (messages s), [m].
    split; [exact E|]. split; [apply same_identity_refl|simpl; lia]. }
  destruct ev as [h hist c| |[d|] now| | |c|content ctx now|r now|m|mid rt|];
    cbn [UseChat.step].
  - apply Hsame. unfold initializeChat, connectWebSocket.
    destruct (Hinit h hist c eq_refl) as [-> | ->]; [reflexivity|].
    destruct h, c; reflexivity.
  - now apply Hsame.
  - unfold onmessage, handleWebSocketMessage.
    destruct (jsstring_eqb (type d) (js "chat_response")); [eapply Hadd; reflexivity|].
    destruct (jsstring_eqb (type d) (js "typing")); [now apply Hsame|].
    destruct (jsstring_eqb (type d) (js "error")); now apply Hsame.
  - now apply Hsame.
  - apply Hsame. unfold onclose, attemptReconnect.
    cbn [reconnectAttempts set_wsRef set_isConnected].
    now destruct (reconnectAttempts s <? maxReconnectAttempts).
  - now apply Hsame.
  - apply Hsame. unfold ontimeout, connectWebSocket. now destruct c.
  - unfold sendMessage.
    destruct (negb (truthy_string (trim content))); [now apply Hsame|].
    cbn [wsRef set_isTyping set_messageCount set_messages].
    destruct (wsRef s) as [[]|]; eapply Hadd; reflexivity.
  - eapply Hadd; reflexivity.
  - now apply Hsame.
  - exists (map (fun msg => react msg mid rt) (messages s)), [].
    rewrite app_nil_r. split; [reflexivity|]. split; [|simpl; lia].
    apply react_all_same_identity.
  - apply Hsame. unfold cleanup.
    destruct (wsRef s) as [[]|]; reflexivity.
Qed.

Lemma reactionType_eqb_eq a b : reactionType_eqb a b = true <-> a = b.
Proof. destruct a, b; simpl; split; congruence. Qed.

Lemma react_tally mid rt m : reactions_tally m -> reactions_tally (react m mid rt).
Proof.
  unfold reactions_tally, react.
  destruct (reactions m) as [r|] eqn:Er; [|now rewrite Er].
  destruct (jsstring_eqb (id m) mid); [|now rewrite Er].
  intros H. destruct (userReaction m) as [u|].
  - destruct (reactionType_eqb u rt) eqn:E; cbn.
    + intros t. pose proof (H t) as Ht. pose proof (H u) as Hu.
      destruct u, t, r; cbn in *; lia.
    + intros t. pose proof (H t) as Ht. pose proof (H u) as Hu. pose proof (H rt) as Hr.
      destruct u, rt, t, r; cbn in *; try discriminate; lia.
  - cbn. intros t. pose proof (H t) as Ht. pose proof (H rt) as Hr.
    destruct rt, t, r; cbn in *; lia.
Qed.

Lemma mapi_Forall {A B} (P : B -> Prop) (f : A -> nat -> B) (l : list A) :
  (forall a i, P (f a i)) -> forall i, Forall P (mapi f i l).
Proof. intros H. induction l; intros i; simpl; constructor; auto. Qed.

Lemma step_tally s ev :
  Forall reactions_tally (messages s) ->
  Forall reactions_tally (messages (fst (step s ev))).
Proof.
  intros H.
  assert (Hnew : forall m, reactions_tally m ->
                 Forall reactions_tally (messages s ++ [m])).
  { intros m Hm. apply Forall_app. split; [exact H|now constructor]. }
  destruct ev as [h hist c| |[d|] now| | |c|content ctx now|r now|m|mid rt|];
    cbn [UseChat.step].
  - unfold initializeChat, connectWebSocket.
    destruct h; [|exact H]. cbn [negb].
    destruct (0 <? Z.of_nat (List.length hist)); destruct c; cbn; try exact H.
    all: unfold formatHistory; apply mapi_Forall; intros a i t; now destruct t.
  - exact H.
  - unfold onmessage, handleWebSocketMessage.
    destruct (jsstring_eqb (type d) (js "chat_response")).
    + cbn. apply Hnew. intros t. now destruct t.
    + destruct (jsstring_eqb (type d) (js "typing")); [exact H|].
      destruct (jsstring_eqb (type d) (js "error")); exact H.
  - exact H.
  - unfold onclose, attemptReconnect.
    cbn [reconnectAttempts set_wsRef set_isConnected].
    destruct (reconnectAttempts s <? maxReconnectAttempts); exact H.
  - exact H.
  - unfold ontimeout, connectWebSocket. destruct c; exact H.
  - unfold sendMessage.
    destruct (negb (truthy_string (trim content))); [exact H|].
    cbn [wsRef set_isTyping set_messageCount set_messages].
    destruct (wsRef s) as [[]|]; cbn; apply Hnew; reflexivity.
  - cbn. apply Hnew. intros t. now destruct t.
  - exact H.
  - cbn. apply Forall_map. eapply Forall_impl; [|exact H].
    intros m. apply react_tally.
  - unfold cleanup. destruct (wsRef s) as [[]|]; exact H.
Qed.

(** X6. Whatever the sequence of operations, the reaction counters of every
    message in the hook record the user's own reaction and nothing else: the
    counter of the current reaction is 1, the others are 0, so no counter is
    ever negative or above 1, and a message without counters (a user
    message) has no reaction.  (Payloads are taken as the [ChatResponse]
    interface declares them.) *)
Theorem reaction_counters_tally (evs : list Event) :
  Forall (fun m => reactions_tally m
                   /\ forall r t, reactions m = Some r -> 0 <= getReaction r t <= 1)
         (messages (fst (run initial evs))).
Proof.
  assert (G : forall s, Forall reactions_tally (messages s) ->
                        Forall reactions_tally (messages (fst (run s evs)))).
  { induction evs as [|ev evs' IH]; intros s Hs; [exact Hs|].
    cbn [UseChat.run].
    pose proof (@step_tally s ev Hs) as H1.
    destruct (UseChat.step opts toLocaleTimeString s ev) as [s1 e1].
    specialize (IH s1 H1).
    destruct (UseChat.run opts toLocaleTimeString s1 evs') as [s2 e2].
    exact IH. }
  eapply Forall_impl; [|apply G; constructor].
  intros m Hm. split; [exact Hm|].
  intros r t Hr. unfold reactions_tally in Hm. rewrite Hr in Hm. rewrite (Hm t).
  destruct (userReaction m) as [u|]; [destruct (reactionType_eqb u t)|]; lia.
Qed.

Lemma react_react mid rt m :
  userReaction m = None \/ userReaction m = Some rt ->
  react (react m mid rt) mid rt = m.
Proof.
  intros Hu. unfold react at 2.
  destruct (reactions m) as [r|] eqn:Er; [|unfold react; now rewrite Er].
  destruct (jsstring_eqb (id m) mid) eqn:Eid; [|unfold react; now rewrite Er, Eid].
  destruct Hu as [Hu|Hu]; rewrite Hu.
  - cbn. unfold react. cbn. rewrite Eid.
    replace (reactionType_eqb rt rt) with true by (now destruct rt). cbn.
    destruct m as [b i sd re ur]; cbn in *. subst. f_equal. f_equal.
    destruct r, rt; cbn; f_equal; lia.
  - replace (reactionType_eqb rt rt) with true by (now destruct rt). cbn.
    unfold react. cbn. rewrite Eid.
    destruct m as [b i sd re ur]; cbn in *. subst. f_equal. f_equal.
    destruct r, rt; cbn; f_equal; lia.
Qed.

Lemma react_other mid rt m :
  jsstring_eqb (id m) mid = false -> react m mid rt = m.
Proof.
  intros E. unfold react. rewrite E. now destruct (reactions m).
Qed.

(** X7. A reaction is a toggle: when no message with the given id carries a
    different reaction of the user, adding the same reaction twice brings
    the hook back to the state it started from, messages, counters and
    all. *)
Theorem addReaction_twice (mid : jsstring) (rt : ReactionType) (s : State) :
  (forall m, In m (messages s) -> id m = mid ->
             userReaction m = None \/ userReaction m = Some rt) ->
  fst (addReaction mid rt (fst (addReaction mid rt s))) = s.
Proof.
  intros H. unfold addReaction. cbn [fst]. unfold set_messages. cbn.
  destruct s as [ms ty co cnt ws rto ra]; cbn in *. f_equal.
  rewrite map_map. rewrite <- (map_id ms) at 2. apply map_ext_in.
  intros m Hm. destruct (jsstring_eqb (id m) mid) eqn:E.
  - apply react_react. apply H; [exact Hm|]. now apply jsstring_eqb_eq.
  - now rewrite !(@react_other mid rt m E).
Qed.

(** X8. Loading a non-empty history replaces the list by the history, item
    for item in the same order: message [i] has the id ['history-i'], its
    content is the item's [ai_response] when that is a non-empty string and
    the item's [content] otherwise, and its sender is ['ai'] whoever wrote
    it; the count becomes the length of the history. *)
Theorem history_load (history : list HistoryItem) (created : bool) (s : State) :
  history <> [] ->
  let s' := fst (initializeChat opts toLocaleTimeString true history created s) in
  messageCount s' = Z.of_nat (List.length history)
  /\ List.length (messages s') = List.length history
  /\ forall i item, nth_error history i = Some item ->
       exists m, nth_error (messages s') i = Some m
         /\ id m = js "history-" ++ Z_toString (Z.of_nat i)
         /\ sender m = ai
         /\ Types.content (base m)
            = match item_ai_response item with
              | Some (c :: a) => c :: a
              | _ => item_content item
              end.
Proof.
  intros Hne. cbv zeta. unfold initializeChat. cbn [negb].
  assert (Hlen : (0 <? Z.of_nat (List.length history)) = true).
  { apply Z.ltb_lt. destruct history; [congruence|simpl; lia]. }
  rewrite Hlen. unfold connectWebSocket.
  assert (Hnth : forall l k i item, nth_error l i = Some item ->
     exists m, nth_error (mapi (fun item index =>
            {| base :=
                 {| Types.content :=
                      match item_ai_response item with
                      | Some a => if truthy_string a then a else item_content item
                      | None => item_content item
                      end;
                    Types.psychological_insight := None;
                    Types.emotional_state := None;
                    Types.topic_classification := None;
                    Types.suggestions := None;
                    Types.session_id := sessionId opts;
                    Types.timestamp := toLocaleTimeString (item_timestamp item);
                    Types.confidence_score := 8 # 10 |};
               id := js "history-" ++ Z_toString (Z.of_nat index);
               sender := ai;
               reactions := Some zeroReactions;
               userReaction := None |}) k l) i = Some m
       /\ id m = js "history-" ++ Z_toString (Z.of_nat (k + i))
       /\ sender m = ai
       /\ Types.content (base m)
          = match item_ai_response item with
            | Some (c :: a) => c :: a
            | _ => item_content item
            end).
  { induction l as [|x l IH]; intros k i item Hi; [destruct i; discriminate|].
    destruct i as [|i]; cbn in Hi.
    - inversion Hi; subst. eexists. split; [reflexivity|]. cbn.
      rewrite Nat.add_0_r. repeat split.
      destruct (item_ai_response item) as [[|c a]|]; reflexivity.
    - destruct (IH (S k) i item Hi) as (m & Hm & Hid & Hs & Hc).
      exists m. split; [exact Hm|]. rewrite <- Nat.add_succ_comm. auto. }
  destruct created; cbn; unfold formatHistory; rewrite length_mapi;
    (split; [reflexivity|]); (split; [reflexivity|]);
    intros i item Hi; exact (Hnth history 0%nat i item Hi).
Qed.

(** X9. When the health check fails, because the request is rejected or the
    answer is not ok, [initializeChat] gives up: the state is unchanged, no
    socket is created and, if the callback was supplied, [onError] is called
    with 'Backend service is not available'. *)
Theorem initialize_unhealthy
    (outcome : Api.FetchOutcome) (history : list HistoryItem) (created : bool)
    (s : State) :
  (outcome = Api.FetchRejected
   \/ exists r, outcome = Api.Fetched r /\ Api.ok r = false) ->
  let result :=
    initializeChat opts toLocaleTimeString (Api.checkHealth outcome)
                   history created s in
  fst result = s
  /\ ~ In CreateWebSocket (snd result)
  /\ (onError opts = true ->
      In (OnError (js "Backend service is not available")) (snd result)).
Proof.
  intros H. cbv zeta.
  assert (Hh : Api.checkHealth outcome = false).
  { destruct H as [->|(r & -> & Hr)]; [reflexivity|exact Hr]. }
  rewrite Hh. unfold initializeChat. cbn [negb fst snd].
  split; [reflexivity|]. unfold call_onError. split.
  - destruct (onError opts); cbn; intuition discriminate.
  - intros ->. cbn. auto.
Qed.

End UseChatMessages.

(** ** More on the edge function and the API service *)

Section EdgeMore.
Import JS EdgeChat.
Local Open Scope Z_scope.

Lemma pick_In {A} (draw : nat) (xs : list A) (d : A) :
  xs <> [] -> In (pick draw xs d) xs.
Proof.
  intros H. unfold pick. apply nth_In. apply Nat.mod_upper_bound.
  destruct xs; [congruence|simpl; lia].
Qed.

(** The reply the edge function generates is always one of its five
    canned responses, for every draw and whatever the user wrote; its
    [session_id] is the server's clock reading, not the session of the
    request. *)
Theorem therapy_response_is_canned (env : Env) (userMessage : json) :
  In (Types.content (generateTherapyResponse env userMessage)) responses
  /\ Types.content (generateTherapyResponse env userMessage) <> []
  /\ Types.session_id (generateTherapyResponse env userMessage)
     = Z_toString (now env).
Proof.
  assert (H : In (Types.content (generateTherapyResponse env userMessage)) responses)
    by (apply pick_In; discriminate).
  split; [exact H|]. split; [|reflexivity].
  intros E. rewrite E in H. vm_compute in H. intuition discriminate.
Qed.

Lemma handler_cases env req messages :
  (jsstring_eqb (method req) (js "OPTIONS") = true
   /\ handler env req messages
      = ({| status := 200; payload := BodyText (js "ok") |}, messages, []))
  \/ (jsstring_eqb (method req) (js "OPTIONS") = false
      /\ exists m, validate req = Throw m
         /\ handler env req messages
            = ({| status := 400; payload := BodyError m (iso_now env) |}, messages, []))
  \/ (jsstring_eqb (method req) (js "OPTIONS") = false
      /\ exists c sid, validate req = Normal (c, sid)
         /\ status (fst (fst (handler env req messages))) = 200
         /\ payload (fst (fst (handler env req messages)))
            = BodyChat (generateTherapyResponse env c)
         /\ exists added,
              snd (fst (handler env req messages)) = messages ++ added
              /\ incl added
                   [ {| row_session_id := sid; row_user_id := userId_of env req;
                        row_content := c; row_sender := js "user";
                        row_message_type := js "text" |};
                     {| row_session_id := sid; row_user_id := userId_of env req;
                        row_content :=
                          JStr (Types.content (generateTherapyResponse env c));
                        row_sender := js "ai"; row_message_type := js "text" |} ]
              /\ (List.length added <= 2)%nat).
Proof.
  unfold handler.
  destruct (jsstring_eqb (method req) (js "OPTIONS")); [left; now split|right].
  destruct (validate req) as [[c sid]|m].
  - right. split; [reflexivity|]. exists c, sid. split; [reflexivity|].
    unfold insert.
    set (u := {| row_session_id := sid; row_user_id := userId_of env req;
                 row_content := c; row_sender := js "user";
                 row_message_type := js "text" |}).
    set (a := {| row_session_id := sid; row_user_id := userId_of env req;
                 row_content := JStr (Types.content (generateTherapyResponse env c));
                 row_sender := js "ai"; row_message_type := js "text" |}).
    destruct (accepts env messages u) eqn:Hu.
    + destruct (accepts env (messages ++ [u]) a) eqn:Ha; cbn [fst snd status payload];
        (split; [reflexivity|]); (split; [reflexivity|]).
      * exists [u; a]. rewrite <- app_assoc. split; [reflexivity|].
        split; [apply incl_refl|simpl; lia].
      * exists [u]. split; [reflexivity|].
        split; [intros x [<-|[]]; now left|simpl; lia].
    + destruct (accepts env messages a) eqn:Ha; cbn [fst snd status payload];
        (split; [reflexivity|]); (split; [reflexivity|]).
      * exists [a]. split; [reflexivity|].
        split; [intros x [<-|[]]; right; now left|simpl; lia].
      * exists []. rewrite app_nil_r. split; [reflexivity|].
        split; [intros x []|simpl; lia].
  - left. split; [reflexivity|]. now exists m.
Qed.

(** X10. The edge function answers with status 200 or 400 and nothing else.
    An answer 400 carries an error body with the server's time, leaves the
    [messages] table untouched and logs nothing; so does the answer to a
    preflight request.  In no case does the handler remove or change a
    stored row: the table afterwards is the table before followed by at most
    two new rows, each of type ['text'], of the request's session and user,
    sent by ['user'] or ['ai']. *)
Theorem handler_outcomes (env : Env) (req : Request) (messages : list Row) :
  let resp := fst (fst (handler env req messages)) in
  let messages' := snd (fst (handler env req messages)) in
  let log := snd (handler env req messages) in
  (status resp = 200 \/ status resp = 400)
  /\ (status resp = 400 ->
        messages' = messages /\ log = []
        /\ exists m, payload resp = BodyError m (iso_now env))
  /\ (method req = js "OPTIONS" ->
        resp = {| status := 200; payload := BodyText (js "ok") |}
        /\ messages' = messages /\ log = [])
  /\ exists added,
       messages' = messages ++ added
       /\ (List.length added <= 2)%nat
       /\ Forall (fun r => row_message_type r = js "text"
                           /\ row_user_id r = userId_of env req
                           /\ (row_sender r = js "user" \/ row_sender r = js "ai"))
                 added.
Proof.
  cbv zeta.
  destruct (handler_cases env req messages)
    as [[Ho H]|[[Ho (m & Hv & H)]|[Ho (c & sid & Hv & Hs & Hp & added & Ha & Hi & Hl)]]].
  - rewrite H. cbn [fst snd status payload]. split; [now left|].
    split; [discriminate|]. split; [now repeat split|].
    exists []. rewrite app_nil_r. repeat split; [simpl; lia|constructor].
  - rewrite H. cbn [fst snd status payload]. split; [now right|].
    split; [intros _; repeat split; now exists m|].
    split; [intros Hm; rewrite Hm in Ho; discriminate|].
    exists []. rewrite app_nil_r. repeat split; [simpl; lia|constructor].
  - split; [now left|]. split; [rewrite Hs; discriminate|].
    split; [intros Hm; rewrite Hm in Ho; discriminate|].
    exists added. split; [exact Ha|]. split; [exact Hl|].
    apply Forall_forall. intros r Hr. apply Hi in Hr.
    destruct Hr as [<-|[<-|[]]]; cbn; auto.
Qed.

(** X11. What the edge function accepts: a request that is neither POST nor
    a preflight is refused with 'Method not allowed'; a POST whose body is
    not JSON is refused with the parser's message; a POST whose body is a
    JSON object is answered 200 exactly when both [content] and
    [session_id] are present and truthy (so an empty string, [0], [false] or
    [null] is as good as missing), and refused with 'Missing required
    fields: content and session_id' otherwise. *)
Theorem handler_validation (env : Env) (req : Request) (messages : list Row) :
  let resp := fst (fst (handler env req messages)) in
  (method req <> js "OPTIONS" -> method req <> js "POST" ->
     resp = {| status := 400;
               payload := BodyError (js "Method not allowed") (iso_now env) |})
  /\ (forall m, method req = js "POST" -> body req = BodyRejected m ->
        resp = {| status := 400; payload := BodyError m (iso_now env) |})
  /\ (forall fields, method req = js "POST" -> body req = BodyParsed (JObj fields) ->
        (status resp = 200
         <-> truthy (lookup (js "content") fields) = true
             /\ truthy (lookup (js "session_id") fields) = true)
        /\ (status resp <> 200 ->
            resp = {| status := 400;
                      payload := BodyError
                        (js "Missing required fields: content and session_id")
                        (iso_now env) |})).
Proof.
  cbv zeta. split; [|split].
  - intros Ho Hp. unfold handler, validate.
    destruct (jsstring_eqb (method req) (js "OPTIONS")) eqn:E1;
      [apply jsstring_eqb_eq in E1; contradiction|].
    destruct (jsstring_eqb (method req) (js "POST")) eqn:E2;
      [apply jsstring_eqb_eq in E2; contradiction|].
    reflexivity.
  - intros m Hm Hb. unfold handler, validate. rewrite Hm, Hb. reflexivity.
  - intros fields Hm Hb. unfold handler, validate. rewrite Hm, Hb.
    change (jsstring_eqb (js "POST") (js "OPTIONS")) with false.
    change (jsstring_eqb (js "POST") (js "POST")) with true.
    cbn [negb getProp].
    destruct (lookup (js "content") fields) as [c|] eqn:Ec.
    + destruct (truthy (Some c)) eqn:Tc; cbn [negb].
      * destruct (lookup (js "session_id") fields) as [sid|] eqn:Es.
        -- destruct (truthy (Some sid)) eqn:Ts; cbn [negb].
           ++ unfold insert.
              destruct (accepts env messages _);
                destruct (accepts env _ _); cbn;
                (split; [split; auto|intros H; now contradiction H]).
           ++ cbn. split; [split; [discriminate|intros [_ H]; discriminate H]|reflexivity].
        -- cbn. split; [split; [discriminate|intros [_ H]; discriminate H]|reflexivity].
      * cbn. split; [split; [discriminate|intros [H _]; discriminate H]|reflexivity].
    + cbn. split; [split; [discriminate|intros [H _]; discriminate H]|reflexivity].
Qed.

End EdgeMore.

Section ApiMore.
Import JS Api.

Lemma replace_absent (s pat rep : jsstring) :
  includes s pat = false -> replace s pat rep = s.
Proof.
  induction s as [|c s IH]; simpl; intros H.
  - apply orb_false_iff in H as [H _]. now rewrite H.
  - apply orb_false_iff in H as [H1 H2]. rewrite H1. f_equal. now apply IH.
Qed.

Lemma startsWith_prefix (pat rest : jsstring) : startsWith (pat ++ rest) pat = true.
Proof.
  induction pat as [|c pat IH]; simpl; [now destruct rest|].
  now rewrite N.eqb_refl, IH.
Qed.

Lemma replace_prefix (pat rest rep : jsstring) :
  replace (pat ++ rest) pat rep = rep ++ rest.
Proof.
  assert (H : forall s, replace s pat rep
                        = if startsWith s pat then rep ++ skipn (List.length pat) s
                          else match s with
                               | [] => []
                               | c :: s' => c :: replace s' pat rep
                               end) by (now destruct s).
  rewrite H, startsWith_prefix. f_equal. clear H.
  induction pat as [|c pat IH]; simpl; [reflexivity|exact IH].
Qed.

Lemma strip_leading_app (a b : jsstring) :
  strip_leading a <> [] -> strip_leading (a ++ b) = strip_leading a ++ b.
Proof.
  induction a as [|c a IH]; simpl; [congruence|].
  destruct (is_http_whitespace c); [exact IH|reflexivity].
Qed.

Lemma strip_leading_all (a b : jsstring) :
  strip_leading a = [] -> strip_leading (a ++ b) = strip_leading b.
Proof.
  induction a as [|c a IH]; simpl; [reflexivity|].
  destruct (is_http_whitespace c); [exact IH|discriminate].
Qed.

Lemma strip_leading_In (v : jsstring) (c : N) : In c (strip_leading v) -> In c v.
Proof.
  induction v as [|x v IH]; simpl; [tauto|].
  destruct (is_http_whitespace x); [intros H; right; now apply IH|simpl; tauto].
Qed.

Lemma strip_trailing_In (v : jsstring) (c : N) : In c (strip_trailing v) -> In c v.
Proof.
  unfold strip_trailing. intros H. apply in_rev in H.
  apply strip_leading_In in H. now apply in_rev.
Qed.

Lemma strip_trailing_nil (v : jsstring) :
  strip_trailing v = [] <-> strip_leading (rev v) = [].
Proof.
  unfold strip_trailing. split; intros H; [|now rewrite H].
  rewrite <- (rev_involutive (strip_leading (rev v))). now rewrite H.
Qed.

Lemma strip_trailing_app (p t : jsstring) :
  strip_trailing t <> [] -> strip_trailing (p ++ t) = p ++ strip_trailing t.
Proof.
  intros H. unfold strip_trailing. rewrite rev_app_distr, strip_leading_app.
  - now rewrite rev_app_distr, rev_involutive.
  - intros E. apply H. now apply strip_trailing_nil.
Qed.

Lemma strip_trailing_gone (p t : jsstring) :
  strip_trailing t = [] -> strip_trailing (p ++ t) = strip_trailing p.
Proof.
  intros H. unfold strip_trailing. rewrite rev_app_distr, strip_leading_all; [reflexivity|].
  now apply strip_trailing_nil.
Qed.

(** The value of the Authorization header as the edge function reads it. *)
Lemma bearer_normalized (t : jsstring) :
  normalize (js "Bearer " ++ t)
  = match strip_trailing t with
    | [] => js "Bearer"
    | c :: r => js "Bearer " ++ c :: r
    end.
Proof.
  unfold normalize.
  change (strip_leading (js "Bearer " ++ t)) with (js "Bearer " ++ t).
  destruct (strip_trailing t) as [|c r] eqn:E.
  - now rewrite strip_trailing_gone.
  - rewrite strip_trailing_app by (rewrite E; discriminate). now rewrite E.
Qed.

Lemma plain_unit_spec (c : N) :
  plain_unit c = true -> (255 <? c)%N = false /\ forbidden_in_value c = false.
Proof.
  unfold plain_unit. intros H. apply andb_prop in H as [H1 H2].
  apply N.leb_le in H1. apply negb_true_iff in H2. split; [|exact H2].
  apply N.ltb_ge. exact H1.
Qed.

Lemma existsb_none {A} (f : A -> bool) (l : list A) :
  (forall x, In x l -> f x = false) -> existsb f l = false.
Proof.
  intros H. destruct (existsb f l) eqn:E; [|reflexivity].
  apply existsb_exists in E as (x & Hx & Hf). now rewrite (H x Hx) in Hf.
Qed.

Lemma bearer_header_value (t : jsstring) :
  Forall (fun c => plain_unit c = true) t ->
  header_value (js "Bearer " ++ t) = Some (normalize (js "Bearer " ++ t)).
Proof.
  intros Ht. rewrite Forall_forall in Ht. unfold header_value.
  assert (Hp : forall c, In c (js "Bearer " ++ t) -> plain_unit c = true).
  { intros c Hc. apply in_app_or in Hc as [Hc|Hc]; [|now apply Ht].
    cbn in Hc. repeat (destruct Hc as [<-|Hc]; [reflexivity|]). contradiction. }
  rewrite existsb_none by (intros c Hc; now apply plain_unit_spec, Hp).
  cbv zeta. rewrite existsb_none; [reflexivity|].
  intros c Hc. apply plain_unit_spec, Hp.
  unfold normalize in Hc. apply strip_trailing_In, strip_leading_In in Hc. exact Hc.
Qed.

Lemma post_chat_plain (t : jsstring) (message : json) :
  t <> [] -> Forall (fun c => plain_unit c = true) t ->
  post_chat (Some t) message
  = Some {| EdgeChat.method := js "POST";
            EdgeChat.authorization := Some (normalize (js "Bearer " ++ t));
            EdgeChat.body := EdgeChat.BodyParsed message |}.
Proof.
  intros Hne Ht. unfold post_chat, getAuthHeaders.
  destruct t as [|c t']; [congruence|]. cbn [truthy_string app request_headers].
  change (header_value (js "application/json")) with (Some (js "application/json")).
  rewrite (bearer_header_value Ht). reflexivity.
Qed.

Lemma post_chat_no_token (token : option jsstring) (message : json) :
  token = None \/ token = Some [] ->
  post_chat token message
  = Some {| EdgeChat.method := js "POST";
            EdgeChat.authorization := None;
            EdgeChat.body := EdgeChat.BodyParsed message |}.
Proof. intros [->| ->]; reflexivity. Qed.

Lemma post_chat_refused (t : jsstring) (message : json) :
  (exists c, In c t /\ (255 < c)%N)
  \/ (exists c, In c (strip_trailing t) /\ forbidden_in_value c = true) ->
  post_chat (Some t) message = None.
Proof.
  intros H.
  assert (Hne : exists c0 t', t = c0 :: t').
  { destruct t as [|c0 t']; [|now exists c0, t'].
    destruct H as [(c & [] & _)|(c & [] & _)]. }
  assert (Hv : header_value (js "Bearer " ++ t) = None).
  { unfold header_value.
    destruct (existsb (fun c => (255 <? c)%N) (js "Bearer " ++ t)) eqn:E; [reflexivity|].
    destruct H as [(c & Hc & Hbig)|(c & Hc & Hbad)].
    - exfalso. apply N.ltb_lt in Hbig.
      assert (Ht : existsb (fun c => (255 <? c)%N) (js "Bearer " ++ t) = true)
        by (apply existsb_exists; exists c; split; [apply in_or_app; now right|exact Hbig]).
      congruence.
    - cbv zeta. rewrite bearer_normalized.
      destruct (strip_trailing t) as [|x r]; [contradiction|].
      replace (existsb forbidden_in_value (js "Bearer " ++ x :: r)) with true;
        [reflexivity|].
      symmetry. apply existsb_exists. exists c. split; [apply in_or_app; now right|exact Hbad]. }
  destruct Hne as (c0 & t' & ->). unfold post_chat, getAuthHeaders.
  cbn [truthy_string app request_headers].
  change (header_value (js "application/json")) with (Some (js "application/json")).
  now rewrite Hv.
Qed.

(** X12. The token between the service and the edge function.  A token of
    plain code units (none above 255, no NUL, line feed or carriage return)
    is sent as ['Bearer ' + token] with its trailing tabs and spaces stripped
    by [fetch]; the edge function removes the prefix and looks up exactly what
    is left, so a token that does not end in a tab or space is looked up as
    it is, and the rows are stored under the user found or under
    ['anonymous'] when the lookup fails.  A token of tabs and spaces only
    arrives as the bare word ['Bearer'], which is what is then looked up.
    Without a token, or with an empty one, no lookup is made and the user is
    ['anonymous'].  A token with a code unit above 255, or with a NUL, line
    feed or carriage return before its last printing character, makes
    [fetch] throw: no request is sent. *)
Theorem bearer_round_trip (env : EdgeChat.Env) (message : json) :
  (forall token, token <> [] -> Forall (fun c => plain_unit c = true) token ->
     exists req,
       post_chat (Some token) message = Some req
       /\ EdgeChat.method req = js "POST"
       /\ EdgeChat.body req = EdgeChat.BodyParsed message
       /\ EdgeChat.userId_of env req
          = match EdgeChat.getUser env
                    (match strip_trailing token with
                     | [] => js "Bearer"
                     | c :: r => c :: r
                     end) with
            | Some uid => uid
            | None => js "anonymous"
            end
       /\ (forall c r, token = r ++ [c] -> is_http_whitespace c = false ->
             strip_trailing token = token))
  /\ (forall token, token = None \/ token = Some [] ->
        exists req,
          post_chat token message = Some req
          /\ EdgeChat.authorization req = None
          /\ EdgeChat.userId_of env req = js "anonymous")
  /\ (forall token,
        (exists c, In c token /\ (255 < c)%N)
        \/ (exists c, In c (strip_trailing token) /\ forbidden_in_value c = true) ->
        post_chat (Some token) message = None).
Proof.
  split; [|split].
  - intros token Hne Hplain. eexists. split; [now apply post_chat_plain|].
    split; [reflexivity|]. split; [reflexivity|]. split.
    + unfold EdgeChat.userId_of. cbn [EdgeChat.authorization].
      rewrite bearer_normalized.
      destruct (strip_trailing token) as [|c r]; [reflexivity|].
      change (truthy_string (js "Bearer " ++ c :: r)) with true.
      cbv zeta. now rewrite (replace_prefix (js "Bearer ") (c :: r) []).
    + intros c r -> Hc. unfold strip_trailing.
      rewrite rev_app_distr. cbn [rev app strip_leading]. rewrite Hc.
      change (c :: rev r) with ([c] ++ rev r).
      now rewrite rev_app_distr, rev_involutive.
  - intros token H. eexists. split; [now apply post_chat_no_token|].
    split; reflexivity.
  - intros token H. now apply post_chat_refused.
Qed.

Lemma post_chat_request (token : option jsstring) (message : json) req :
  post_chat token message = Some req ->
  EdgeChat.method req = js "POST" /\ EdgeChat.body req = EdgeChat.BodyParsed message.
Proof.
  unfold post_chat.
  destruct (request_headers (getAuthHeaders token)); [|discriminate].
  intros H. inversion H. now split.
Qed.

Lemma plain_token_sent (token : option jsstring) (message : json) :
  plain_token token -> exists req, post_chat token message = Some req.
Proof.
  destruct token as [[|c t]|]; intros H.
  - eexists. apply post_chat_no_token. now right.
  - eexists. apply post_chat_plain; [discriminate|exact H].
  - eexists. apply post_chat_no_token. now left.
Qed.

(** X13. End to end over REST.  When the service posts a message whose
    [content] and [session_id] are non-empty strings to the edge function
    and the access token, if there is one, is made of plain code units,
    [sendMessage] resolves, whether or not the rows could be stored, with
    the reply as a JSON object whose [content] is one of the five canned
    responses and whose [session_id] is the server's clock reading, not the
    session of the request.  When the token has a code unit above 255, or a
    NUL, line feed or carriage return before its last printing character,
    [fetch] throws: [sendMessage] rejects and the table is untouched. *)
Theorem post_chat_resolves
    (env : EdgeChat.Env) (token : option jsstring) (c sid : jsstring)
    (context : json) (messages : list EdgeChat.Row) :
  c <> [] -> sid <> [] ->
  let message := JObj [ (js "content", JStr c); (js "session_id", JStr sid);
                        (js "context", context) ] in
  let outcome := fst (fetch_edge env token message messages) in
  (plain_token token ->
     exists fields reply,
       sendMessage outcome = Normal (JObj fields)
       /\ lookup (js "content") fields = Some (JStr reply)
       /\ In reply EdgeChat.responses
       /\ lookup (js "session_id") fields
          = Some (JStr (Z_toString (EdgeChat.now env))))
  /\ (forall t, token = Some t ->
        (exists u, In u t /\ (255 < u)%N)
        \/ (exists u, In u (strip_trailing t) /\ forbidden_in_value u = true) ->
        (forall data, sendMessage outcome <> Normal data)
        /\ sendMessage outcome = Throw NetworkError
        /\ snd (fetch_edge env token message messages) = messages).
Proof.
  intros Hc Hs. cbv zeta. split.
  - intros Hplain.
    destruct (plain_token_sent _ (JObj [ (js "content", JStr c);
        (js "session_id", JStr sid); (js "context", context) ]) Hplain)
      as (req & Hreq).
    destruct (post_chat_request _ _ Hreq) as (Hm & Hb).
    unfold fetch_edge. rewrite Hreq. cbn [fst].
    destruct c as [|c0 c']; [congruence|]. destruct sid as [|s0 s']; [congruence|].
    destruct (handler_cases env req messages)
      as [[Ho _]|[[_ (m & Hv & _)]|[_ (c1 & sid1 & Hv & Hst & Hp & _)]]].
    + rewrite Hm in Ho. discriminate Ho.
    + unfold EdgeChat.validate in Hv. rewrite Hm, Hb in Hv. discriminate Hv.
    + assert (Hc1 : c1 = JStr (c0 :: c')).
      { unfold EdgeChat.validate in Hv. rewrite Hm, Hb in Hv. cbv in Hv. congruence. }
      subst c1.
      set (r := EdgeChat.generateTherapyResponse env (JStr (c0 :: c'))) in *.
      assert (Hj : exists fields,
                 Types.chatResponse_json r = JObj fields
                 /\ lookup (js "content") fields = Some (JStr (Types.content r))
                 /\ lookup (js "session_id") fields = Some (JStr (Types.session_id r))).
      { eexists. split; [reflexivity|]. split; reflexivity. }
      destruct Hj as (fields & Hf & Hfc & Hfs).
      exists fields, (Types.content r). split; [|split; [exact Hfc|split]].
      * unfold sendMessage, of_edge, EdgeChat.body_json. cbn [ok json_body].
        rewrite Hst, Hp, Hf. reflexivity.
      * apply pick_In. discriminate.
      * exact Hfs.
  - intros t -> H. unfold fetch_edge. rewrite (@post_chat_refused t _ H).
    cbn [fst snd sendMessage]. split; [discriminate|]. split; reflexivity.
Qed.

(** X14. [getSessionHistory] and [getAvailableTopics] never fail, and they
    read exactly one member of the answer.  For an ok answer whose body is a
    JSON object with a truthy member [history] (or [topics]) the result is
    that member exactly as received.  In every other case (the request is
    rejected, the answer is not ok, its body is not JSON, is [null] or is no
    object, the member is missing or falsy) the result is the empty
    list. *)
Theorem listing_endpoints_fall_back (r : Response) :
  (forall fields h,
     ok r = true -> json_body r = Some (JObj fields) ->
     lookup (js "history") fields = Some h -> truthy (Some h) = true ->
     getSessionHistory (Fetched r) = h)
  /\ (forall fields h,
        ok r = true -> json_body r = Some (JObj fields) ->
        lookup (js "topics") fields = Some h -> truthy (Some h) = true ->
        getAvailableTopics (Fetched r) = h)
  /\ getSessionHistory FetchRejected = JArr []
  /\ getAvailableTopics FetchRejected = JArr []
  /\ (ok r = false
      \/ json_body r = None
      \/ (forall fields, json_body r <> Some (JObj fields))
      \/ (exists fields, json_body r = Some (JObj fields)
                         /\ truthy (lookup (js "history") fields) = false) ->
      getSessionHistory (Fetched r) = JArr [])
  /\ (ok r = false
      \/ json_body r = None
      \/ (forall fields, json_body r <> Some (JObj fields))
      \/ (exists fields, json_body r = Some (JObj fields)
                         /\ truthy (lookup (js "topics") fields) = false) ->
      getAvailableTopics (Fetched r) = JArr []).
Proof.
  split; [|split; [|split; [reflexivity|split; [reflexivity|split]]]].
  - intros fields h Hok Hb Hl Ht. unfold getSessionHistory.
    rewrite Hok, Hb. cbn [negb getProp]. now rewrite Hl, Ht.
  - intros fields h Hok Hb Hl Ht. unfold getAvailableTopics.
    rewrite Hok, Hb. cbn [negb getProp]. now rewrite Hl, Ht.
  - unfold getSessionHistory. intros H.
    destruct (ok r); [|reflexivity]. cbn [negb].
    destruct H as [H|[H|[H|(fields & Hb & Ht)]]]; [discriminate|now rewrite H| |].
    + destruct (json_body r) as [[| | | | |fields]|]; try reflexivity.
      now contradiction (H fields).
    + rewrite Hb. cbn [getProp].
      destruct (lookup (js "history") fields) as [h|]; [|reflexivity]. now rewrite Ht.
  - unfold getAvailableTopics. intros H.
    destruct (ok r); [|reflexivity]. cbn [negb].
    destruct H as [H|[H|[H|(fields & Hb & Ht)]]]; [discriminate|now rewrite H| |].
    + destruct (json_body r) as [[| | | | |fields]|]; try reflexivity.
      now contradiction (H fields).
    + rewrite Hb. cbn [getProp].
      destruct (lookup (js "topics") fields) as [h|]; [|reflexivity]. now rewrite Ht.
Qed.

(** X15. The socket address is derived from the API address by replacing
    its first ['http'] with ['ws']: an address [http...] becomes [ws...]
    (so [https://host] becomes [wss://host]) followed by
    ['/api/v1/ws/' + sessionId]; an address in which ['http'] does not
    occur is used as it is; without configuration the address is
    ['ws://localhost:8000/api/v1/ws/' + sessionId]. *)
Theorem websocket_address (sessionId : jsstring) :
  (forall rest,
     webSocketAddress (Some (js "http" ++ rest)) sessionId
     = js "ws" ++ rest ++ js "/api/v1/ws/" ++ sessionId)
  /\ (forall u, u <> [] -> includes u (js "http") = false ->
        webSocketAddress (Some u) sessionId = u ++ js "/api/v1/ws/" ++ sessionId)
  /\ webSocketAddress None sessionId
     = js "ws://localhost:8000/api/v1/ws/" ++ sessionId
  /\ webSocketAddress (Some []) sessionId = webSocketAddress None sessionId.
Proof.
  split; [|split; [|split; reflexivity]].
  - intros rest. unfold webSocketAddress, wsUrl.
    change (baseUrl (Some (js "http" ++ rest))) with (js "http" ++ rest).
    now rewrite replace_prefix, <- app_assoc.
  - intros u Hu Hn. unfold webSocketAddress, wsUrl, baseUrl.
    destruct u as [|c u']; [congruence|]. cbn [truthy_string].
    now rewrite (replace_absent _ _ _ Hn).
Qed.

End ApiMore.

(** ** More on the therapist responses *)

Section TherapistMore.
Import JS Therapist.

Variable toLowerCase : jsstring -> jsstring.

Local Abbreviation respond := (generateTherapistResponse toLowerCase).

Lemma some_false_iff (input : jsstring) (keywords : list jsstring) :
  some (fun keyword => includes input keyword) keywords = false
  <-> forall keyword, In keyword keywords -> includes input keyword = false.
Proof.
  unfold some. split.
  - intros H k Hk. destruct (includes input k) eqn:E; [|reflexivity].
    rewrite <- H. symmetry. apply existsb_exists. now exists k.
  - intros H. destruct (existsb _ keywords) eqn:E; [|reflexivity].
    apply existsb_exists in E as (k & Hk & Hi). now rewrite (H k Hk) in Hi.
Qed.

Lemma some_true_iff (input : jsstring) (keywords : list jsstring) :
  some (fun keyword => includes input keyword) keywords = true
  <-> exists keyword, In keyword keywords /\ includes input keyword = true.
Proof. unfold some. apply existsb_exists. Qed.

(** X16. The reply is always one of the sixteen texts of the module (the
    crisis, anxiety and depression responses, the three coping responses and
    the ten default ones), never an empty string, for every input, history
    and draw. *)
Theorem therapist_reply_is_known
    (draw : nat) (userInput : jsstring) (conversationHistory : list Message) :
  In (respond draw userInput conversationHistory)
     ([crisisResponse; anxietyResponse; depressionResponse]
      ++ copingResponses ++ therapistResponses)
  /\ respond draw userInput conversationHistory <> [].
Proof.
  assert (H : In (respond draw userInput conversationHistory)
     ([crisisResponse; anxietyResponse; depressionResponse]
      ++ copingResponses ++ therapistResponses)).
  { unfold generateTherapistResponse.
    destruct (some _ crisisKeywords); [now left|].
    destruct (some _ anxietyKeywords); [right; now left|].
    destruct (some _ depressionKeywords); [right; right; now left|].
    do 3 right. apply (in_or_app copingResponses therapistResponses).
    destruct (some _ copingKeywords);
      [left; apply (@pick_In _ draw copingResponses [])
      |right; apply (@pick_In _ draw therapistResponses [])]; discriminate. }
  split; [exact H|]. intros E. rewrite E in H. vm_compute in H.
  intuition discriminate.
Qed.

(** X17. Below the crisis check the keyword lists are tried in a fixed
    order: with no crisis keyword in the lowercased input, an anxiety
    keyword yields the anxiety response whatever else the input mentions;
    with neither, a depression keyword yields the depression response; with
    none of the three, a coping keyword yields one of the three coping
    responses, and an input with no keyword at all one of the ten default
    responses. *)
Theorem keyword_precedence
    (draw : nat) (userInput : jsstring) (conversationHistory : list Message) :
  let input := toLowerCase userInput in
  let hit keywords := some (fun keyword => includes input keyword) keywords in
  hit crisisKeywords = false ->
  (hit anxietyKeywords = true ->
     respond draw userInput conversationHistory = anxietyResponse)
  /\ (hit anxietyKeywords = false -> hit depressionKeywords = true ->
        respond draw userInput conversationHistory = depressionResponse)
  /\ (hit anxietyKeywords = false -> hit depressionKeywords = false ->
        hit copingKeywords = true ->
        In (respond draw userInput conversationHistory) copingResponses)
  /\ (hit anxietyKeywords = false -> hit depressionKeywords = false ->
        hit copingKeywords = false ->
        In (respond draw userInput conversationHistory) therapistResponses).
Proof.
  cbv zeta. intros Hc. unfold generateTherapistResponse. rewrite Hc.
  repeat split.
  - now intros ->.
  - now intros -> ->.
  - intros -> -> ->. apply (@pick_In _ draw copingResponses []). discriminate.
  - intros -> -> ->. apply (@pick_In _ draw therapistResponses []). discriminate.
Qed.

(** X18. Two entries of the depression list can never fire: 'hopeless' and
    'worthless' are crisis keywords too and the crisis check comes first.
    Whenever the reply is the depression response, the lowercased input
    contains 'depressed', 'sad', 'empty' or 'lonely', and none of the crisis
    or anxiety keywords. *)
Theorem depression_response_keywords
    (draw : nat) (userInput : jsstring) (conversationHistory : list Message) :
  respond draw userInput conversationHistory = depressionResponse ->
  let input := toLowerCase userInput in
  (exists keyword,
     In keyword (map js ["depressed"; "sad"; "empty"; "lonely"]%string)
     /\ includes input keyword = true)
  /\ (forall keyword, In keyword crisisKeywords -> includes input keyword = false)
  /\ (forall keyword, In keyword anxietyKeywords -> includes input keyword = false).
Proof.
  cbv zeta. unfold generateTherapistResponse.
  destruct (some _ crisisKeywords) eqn:Hc; [discriminate|].
  destruct (some _ anxietyKeywords) eqn:Ha; [discriminate|].
  destruct (some _ depressionKeywords) eqn:Hd.
  - intros _. pose proof (proj1 (some_false_iff _ _) Hc) as Hc'.
    split; [|split; [exact Hc'|exact (proj1 (some_false_iff _ _) Ha)]].
    apply some_true_iff in Hd as (k & Hk & Hi). exists k. split; [|exact Hi].
    unfold depressionKeywords in Hk. cbn [map In] in Hk. cbn [map In].
    assert (Hdead : forall w, In w crisisKeywords -> w = k -> False).
    { intros w Hw ->. rewrite (Hc' k Hw) in Hi. discriminate. }
    destruct Hk as [<-|[<-|[Hk|[<-|[<-|[Hk|[]]]]]]]; auto.
    + exfalso. apply (Hdead (js "hopeless")); [|exact Hk].
      unfold crisisKeywords. cbn [map In]. tauto.
    + exfalso. apply (Hdead (js "worthless")); [|exact Hk].
      unfold crisisKeywords. cbn [map In]. tauto.
  - intros E. exfalso.
    assert (Hin : In depressionResponse (copingResponses ++ therapistResponses)).
    { rewrite <- E. apply (in_or_app copingResponses therapistResponses).
      destruct (some _ copingKeywords);
      [left; apply (@pick_In _ draw copingResponses [])
      |right; apply (@pick_In _ draw therapistResponses [])]; discriminate. }
    vm_compute in Hin. intuition discriminate.
Qed.

End TherapistMore.

(** ** More on the database *)

Section MigrationMore.
Import JS Migration Invariants.
Local Open Scope Z_scope.

Lemma insert_message_inv role now db m db' :
  insert_message role now db m = Some db' ->
  sender_check m = true /\ primary_key_free db m = true
  /\ references_session db m = true /\ message_policy role db m = true
  /\ db' = update_session_message_count role now
             {| chat_sessions := chat_sessions db;
                chat_messages := chat_messages db ++ [m] |} m.
Proof.
  unfold insert_message.
  destruct (sender_check m) eqn:H1; [|discriminate].
  destruct (primary_key_free db m) eqn:H2; [|discriminate].
  destruct (references_session db m) eqn:H3; [|discriminate].
  destruct (message_policy role db m) eqn:H4; [|discriminate].
  cbn [andb]. intros H. inversion H. now repeat split.
Qed.

Lemma policy_owner uid db m s :
  sessions_keyed db ->
  message_policy (authenticated uid) db m = true ->
  In s (chat_sessions db) -> s_id s = m_session_id m -> s_user_id s = uid.
Proof.
  intros Hkey Hpol Hin Hid. simpl in Hpol.
  apply existsb_exists in Hpol as (s1 & Hin1 & H1).
  apply andb_prop in H1 as [Hid1 Hu1]. apply N.eqb_eq in Hid1, Hu1.
  assert (s = s1) by (apply (@keyed_unique _ _ _ Hkey Hin Hin1); congruence).
  now subst.
Qed.

(** X19. A successful insert into [chat_messages] adds the row at the end
    and touches nothing but the session it references: every other session
    row is left exactly as it was, and the referenced one keeps its id,
    owner, title and creation time and gets [updated_at = now()]. *)
Theorem insert_touches_one_session role now db m db' :
  sessions_keyed db ->
  insert_message role now db m = Some db' ->
  chat_messages db' = chat_messages db ++ [m]
  /\ List.length (chat_sessions db') = List.length (chat_sessions db)
  /\ forall i s, nth_error (chat_sessions db) i = Some s ->
       exists s', nth_error (chat_sessions db') i = Some s'
         /\ s_id s' = s_id s /\ s_user_id s' = s_user_id s
         /\ s_title s' = s_title s /\ s_created_at s' = s_created_at s
         /\ (s_id s <> m_session_id m -> s' = s)
         /\ (s_id s = m_session_id m -> s_updated_at s' = now).
Proof.
  intros Hkey Hins.
  destruct (insert_message_inv _ _ _ _ Hins) as (_ & _ & _ & Hpol & ->).
  cbn [update_session_message_count chat_messages chat_sessions].
  split; [reflexivity|]. split; [apply length_map|].
  intros i s Hi. rewrite nth_error_map, Hi. cbn [option_map].
  eexists. split; [reflexivity|].
  destruct (s_id s =? m_session_id m)%N eqn:E.
  - apply N.eqb_eq in E.
    assert (Hp : session_policy role s = true).
    { destruct role as [uid|]; [|reflexivity]. simpl.
      rewrite (@policy_owner uid db m s Hkey Hpol (nth_error_In _ _ Hi) E).
      apply N.eqb_refl. }
    rewrite Hp. cbn. repeat split; congruence.
  - rewrite andb_false_r. apply N.eqb_neq in E. repeat split; congruence.
Qed.

(** X20. A signed-in user can write only into sessions of their own: an
    insert into [chat_messages] that succeeds for user [uid] carries a sender
    ['user'] or ['therapist'] and an unused id, and the session it
    references exists and belongs to [uid]; an insert that references a
    session of somebody else is refused. *)
Theorem insert_respects_ownership uid now db m :
  sessions_keyed db ->
  (forall db', insert_message (authenticated uid) now db m = Some db' ->
     (m_sender m = js "user" \/ m_sender m = js "therapist")
     /\ (forall m', In m' (chat_messages db) -> m_id m' <> m_id m)
     /\ exists s, In s (chat_sessions db) /\ s_id s = m_session_id m
                  /\ s_user_id s = uid)
  /\ ((exists s, In s (chat_sessions db) /\ s_id s = m_session_id m
                 /\ s_user_id s <> uid) ->
      insert_message (authenticated uid) now db m = None).
Proof.
  intros Hkey. split.
  - intros db' Hins.
    destruct (insert_message_inv _ _ _ _ Hins) as (Hs & Hpk & Href & Hpol & _).
    split; [|split].
    + unfold sender_check in Hs. apply orb_prop in Hs as [H|H];
        apply jsstring_eqb_eq in H; auto.
    + intros m' Hm' E. unfold primary_key_free in Hpk.
      apply negb_true_iff in Hpk.
      assert (Ht : existsb (fun m0 => (m_id m0 =? m_id m)%N) (chat_messages db) = true)
        by (apply existsb_exists; exists m'; split; [exact Hm'|now apply N.eqb_eq]).
      congruence.
    + apply existsb_exists in Href as (s & Hin & Hid). apply N.eqb_eq in Hid.
      exists s. split; [exact Hin|]. split; [exact Hid|].
      exact (@policy_owner uid db m s Hkey Hpol Hin Hid).
  - intros (s & Hin & Hid & Hne).
    destruct (insert_message (authenticated uid) now db m) as [db'|] eqn:E;
      [|reflexivity].
    destruct (insert_message_inv _ _ _ _ E) as (_ & _ & _ & Hpol & _).
    exfalso. apply Hne. exact (@policy_owner uid db m s Hkey Hpol Hin Hid).
Qed.

Lemma insert_keeps_references role now db m db' :
  insert_message role now db m = Some db' ->
  messages_reference_sessions db -> messages_reference_sessions db'.
Proof.
  intros Hins Href.
  destruct (insert_message_inv _ _ _ _ Hins) as (_ & _ & Hfk & _ & ->).
  assert (Hids : forall sid,
            (exists s, In s (chat_sessions db) /\ s_id s = sid) ->
            exists s, In s (chat_sessions (update_session_message_count role now
                        {| chat_sessions := chat_sessions db;
                           chat_messages := chat_messages db ++ [m] |} m))
                      /\ s_id s = sid).
  { intros sid (s & Hin & Hid). eexists. split.
    - cbn [update_session_message_count chat_sessions]. apply in_map. exact Hin.
    - cbn [chat_sessions chat_messages].
      destruct (session_policy role s && (s_id s =? m_session_id m)%N); exact Hid. }
  intros x Hx. cbn [update_session_message_count chat_messages] in Hx.
  apply in_app_or in Hx as [Hx|[<-|[]]]; apply Hids.
  - now apply Href.
  - apply existsb_exists in Hfk as (s & Hin & Hid). apply N.eqb_eq in Hid. now exists s.
Qed.

(** X21. Deleting a session as a signed-in user reaches that user's own
    session only: sessions of other users stay, and so does every message
    that belongs to a session of another user; if the session named is the
    user's own, it is gone afterwards together with all its messages. *)
Theorem delete_session_scope uid db sid :
  sessions_keyed db ->
  let db' := delete_session (authenticated uid) db sid in
  (forall s, In s (chat_sessions db) -> s_user_id s <> uid ->
             In s (chat_sessions db'))
  /\ (forall m s, In m (chat_messages db) -> In s (chat_sessions db) ->
                  s_id s = m_session_id m -> s_user_id s <> uid ->
                  In m (chat_messages db'))
  /\ (forall s, In s (chat_sessions db) -> s_id s = sid -> s_user_id s = uid ->
        (forall s', In s' (chat_sessions db') -> s_id s' <> sid)
        /\ (forall m, In m (chat_messages db') -> m_session_id m <> sid)).
Proof.
  intros Hkey. cbv zeta. unfold delete_session.
  cbn [chat_sessions chat_messages session_policy].
  split; [|split].
  - intros s Hin Hne. apply filter_In. split; [exact Hin|].
    apply negb_true_iff. apply andb_false_iff. left. apply N.eqb_neq. congruence.
  - intros m s Hm Hin Hid Hne. apply filter_In. split; [exact Hm|].
    apply negb_true_iff. apply not_true_is_false. intros Hg.
    apply existsb_exists in Hg as (s1 & Hin1 & H1).
    apply andb_prop in H1 as [H1 Hid1]. apply andb_prop in H1 as [Hu1 _].
    apply N.eqb_eq in Hid1, Hu1.
    assert (s1 = s) by (apply (@keyed_unique _ _ _ Hkey Hin1 Hin); congruence).
    subst s1. congruence.
  - intros s Hin Hid Hu. split.
    + intros s' Hs' Hid'. apply filter_In in Hs' as [Hin' Hk].
      assert (s' = s) by (apply (@keyed_unique _ _ _ Hkey Hin' Hin); congruence).
      subst s'. rewrite Hu, Hid, !N.eqb_refl in Hk. discriminate.
    + intros m Hm Hms. apply filter_In in Hm as [_ Hk].
      apply negb_true_iff in Hk.
      assert (Ht : existsb (fun s0 => ((uid =? s_user_id s0)%N && (s_id s0 =? sid)%N)
                                      && (s_id s0 =? m_session_id m)%N)
                           (chat_sessions db) = true).
      { apply existsb_exists. exists s. split; [exact Hin|].
        now rewrite Hu, Hid, Hms, !N.eqb_refl. }
      congruence.
Qed.

Lemma delete_session_keeps_references role db sid :
  messages_reference_sessions db ->
  messages_reference_sessions (delete_session role db sid).
Proof.
  intros Href m Hm. unfold delete_session in *. cbn [chat_messages chat_sessions] in *.
  apply filter_In in Hm as [Hm Hk]. apply negb_true_iff in Hk.
  destruct (Href m Hm) as (s & Hin & Hid).
  exists s. split; [|exact Hid]. apply filter_In. split; [exact Hin|].
  apply negb_true_iff. apply not_true_is_false. intros Hd.
  assert (Ht : existsb (fun s0 => (session_policy role s0 && (s_id s0 =? sid)%N)
                                  && (s_id s0 =? m_session_id m)%N)
                       (chat_sessions db) = true).
  { apply existsb_exists. exists s. split; [exact Hin|].
    rewrite Hd, Hid. now rewrite N.eqb_refl. }
  congruence.
Qed.

Lemma delete_session_keeps_keys role db sid :
  sessions_keyed db -> sessions_keyed (delete_session role db sid).
Proof.
  unfold sessions_keyed, delete_session. cbn [chat_sessions]. intros Hkey.
  induction (chat_sessions db) as [|s l IH]; [constructor|].
  cbn [map] in Hkey. inversion Hkey as [|? ? Hx Hl]; subst. cbn [filter].
  destruct (negb _); [|now apply IH].
  cbn [map]. constructor; [|now apply IH].
  intros Hin. apply Hx. apply in_map_iff in Hin as (s' & Hid & Hs').
  apply filter_In in Hs' as [Hs' _]. rewrite <- Hid. now apply in_map.
Qed.

(** X22. Deleting a session, with the cascade on its messages, keeps the
    database coherent: every remaining counter still equals the number of
    messages of its session, every remaining message still references a
    session that exists, and the ids of the sessions remain distinct. *)
Theorem delete_session_coherent role db sid :
  coherent db -> coherent (delete_session role db sid).
Proof.
  intros (Hkey & Hcons & Href). split; [|split].
  - now apply delete_session_keeps_keys.
  - now apply delete_session_consistent.
  - now apply delete_session_keeps_references.
Qed.

End MigrationMore.

Section WorkloadFacts.
Import JS Migration Invariants Workload.
Local Open Scope Z_scope.

Lemma insert_keeps_keys role now db m db' :
  insert_message role now db m = Some db' ->
  map s_id (chat_sessions db') = map s_id (chat_sessions db).
Proof.
  intros Hins. destruct (insert_message_inv _ _ _ _ Hins) as (_ & _ & _ & _ & ->).
  cbn [update_session_message_count chat_sessions]. rewrite map_map.
  apply map_ext. intros s.
  now destruct (session_policy role s && (s_id s =? m_session_id m)%N).
Qed.

Lemma insert_keeps_counts role now db m db' :
  sessions_keyed db -> counts_consistent db ->
  insert_message role now db m = Some db' -> counts_consistent db'.
Proof.
  intros Hkey Hcons Hins.
  destruct (insert_message_inv _ _ _ _ Hins) as (_ & _ & _ & Hpol & ->).
  set (db1 := {| chat_sessions := chat_sessions db;
                 chat_messages := chat_messages db ++ [m] |}).
  assert (Hpol1 : message_policy role db1 m = true) by exact Hpol.
  pose proof (@select_count_sees_all role db1 m Hpol1) as Hcount.
  intros s Hin. cbn [update_session_message_count chat_sessions] in Hin.
  apply in_map_iff in Hin as (s0 & Hs & Hin0).
  change (rows_of (update_session_message_count role now db1 m) (s_id s))
    with (rows_of db1 (s_id s)).
  destruct (s_id s0 =? m_session_id m)%N eqn:E.
  - apply N.eqb_eq in E.
    assert (Hp : session_policy role s0 = true).
    { destruct role as [uid|]; [|reflexivity]. simpl.
      rewrite (@policy_owner uid db m s0 Hkey Hpol Hin0 E). apply N.eqb_refl. }
    rewrite Hp in Hs. subst s. cbn [message_count s_id andb]. now rewrite Hcount, E.
  - rewrite andb_false_r in Hs. subst s0. apply N.eqb_neq in E.
    unfold db1. rewrite rows_of_other by congruence. now apply Hcons.
Qed.

Lemma execute_coherent db st :
  no_privileged_delete st -> coherent db -> coherent (execute db st).
Proof.
  intros Hst (Hkey & Hcons & Href).
  destruct st as [role now m|role cond|role sid]; cbn [execute].
  - destruct (insert_message role now db m) as [db'|] eqn:E; [|now repeat split].
    split; [|split].
    + unfold sessions_keyed. now rewrite (@insert_keeps_keys _ _ _ _ _ E).
    + exact (@insert_keeps_counts _ _ _ _ _ Hkey Hcons E).
    + exact (@insert_keeps_references _ _ _ _ _ E Href).
  - destruct role; [now repeat split|contradiction].
  - split; [|split].
    + now apply delete_session_keeps_keys.
    + now apply delete_session_consistent.
    + now apply delete_session_keeps_references.
Qed.

(** X23. As long as nobody deletes messages with the service role, the
    database stays coherent under any sequence of statements (inserts of
    messages by anyone, deletions of sessions by anyone, attempts of signed-in
    users to delete messages; failed statements included): [message_count]
    equals the number of messages of its session for every session, every
    message references a session that exists, and session ids stay
    distinct. *)
Theorem workload_keeps_coherence (db : DB) (sts : list Statement) :
  Forall no_privileged_delete sts ->
  coherent db -> coherent (execute_all db sts).
Proof.
  unfold execute_all. intros Hsts. revert db.
  induction Hsts as [|st sts Hst _ IH]; intros db Hdb; [exact Hdb|].
  cbn [fold_left]. apply IH. now apply execute_coherent.
Qed.

End WorkloadFacts.

(** ** The dashboard *)

Section DashboardFacts.
Import JS Migration Invariants Dashboard.
Local Open Scope Z_scope.

Lemma insert_by_updated_perm s l : Permutation (s :: l) (insert_by_updated s l).
Proof.
  induction l as [|x l IH]; simpl; [reflexivity|].
  destruct (s_updated_at x <? s_updated_at s); [reflexivity|].
  rewrite perm_swap. now constructor.
Qed.

Lemma sort_by_updated_perm l : Permutation l (fold_right insert_by_updated [] l).
Proof.
  induction l as [|s l IH]; simpl; [constructor|].
  etransitivity; [|apply insert_by_updated_perm]. now constructor.
Qed.

Lemma insert_by_updated_sorted s l :
  StronglySorted newest_first l -> StronglySorted newest_first (insert_by_updated s l).
Proof.
  induction 1 as [|x l Hs IH Hx]; simpl; [repeat constructor|].
  destruct (s_updated_at x <? s_updated_at s) eqn:E.
  - apply Z.ltb_lt in E. constructor; [now constructor|].
    constructor; [unfold newest_first; lia|].
    eapply Forall_impl; [|exact Hx]. unfold newest_first. intros; lia.
  - apply Z.ltb_ge in E. constructor; [exact IH|].
    eapply Permutation_Forall; [apply insert_by_updated_perm|].
    now constructor.
Qed.

Lemma fetch_sorted (uid : uuid) (db : DB) :
  StronglySorted newest_first (fetchSessions uid db).
Proof.
  unfold fetchSessions.
  induction (filter (own uid) (chat_sessions db)); simpl;
    [constructor|now apply insert_by_updated_sorted].
Qed.

Lemma fetch_members (uid : uuid) (db : DB) (s : chat_session) :
  In s (fetchSessions uid db) <-> In s (chat_sessions db) /\ s_user_id s = uid.
Proof.
  unfold fetchSessions. split.
  - intros Hs. apply (Permutation_in _ (Permutation_sym (sort_by_updated_perm _))) in Hs.
    apply filter_In in Hs as [Hin H]. unfold own in H.
    apply andb_prop in H as [_ H]. apply N.eqb_eq in H. now split.
  - intros [Hin <-]. apply (Permutation_in _ (sort_by_updated_perm _)).
    apply filter_In. split; [exact Hin|]. unfold own. simpl. now rewrite N.eqb_refl.
Qed.

(** X24. The dashboard lists exactly the sessions of the signed-in user,
    each once, most recently updated first. *)
Theorem fetchSessions_newest_first (uid : uuid) (db : DB) :
  StronglySorted newest_first (fetchSessions uid db)
  /\ Permutation (filter (own uid) (chat_sessions db)) (fetchSessions uid db)
  /\ (forall s, In s (fetchSessions uid db)
                <-> In s (chat_sessions db) /\ s_user_id s = uid).
Proof.
  split; [apply fetch_sorted|]. split; [apply sort_by_updated_perm|].
  intros s. apply fetch_members.
Qed.

Lemma total_from (l : list chat_session) : forall z,
  fold_left (fun sum session => sum + message_count session) l z
  = z + fold_right (fun s acc => message_count s + acc) 0 l.
Proof.
  induction l as [|s l IH]; intros z; simpl; [lia|]. rewrite IH. lia.
Qed.

Lemma totalMessages_sum (l : list chat_session) :
  totalMessages l = fold_right (fun s acc => message_count s + acc) 0 l.
Proof. unfold totalMessages. rewrite total_from. lia. Qed.

Lemma totalMessages_perm (l l' : list chat_session) :
  Permutation l l' -> totalMessages l = totalMessages l'.
Proof.
  rewrite !totalMessages_sum.
  induction 1; simpl; lia.
Qed.

Lemma filter_none {A} (p : A -> bool) (l : list A) :
  (forall x, In x l -> p x = false) -> filter p l = [].
Proof.
  induction l as [|x l IH]; intros H; [reflexivity|]. cbn [filter].
  rewrite (H x (or_introl eq_refl)). apply IH. intros y Hy. apply H. now right.
Qed.

Lemma filter_or_length {A} (p q : A -> bool) (l : list A) :
  (forall x, In x l -> p x = true -> q x = false) ->
  List.length (filter (fun x => p x || q x) l)
  = (List.length (filter p l) + List.length (filter q l))%nat.
Proof.
  induction l as [|x l IH]; intros H; [reflexivity|]. cbn [filter].
  assert (IH' := IH (fun y Hy => H y (or_intror Hy))).
  destruct (p x) eqn:Ep.
  - rewrite (H x (or_introl eq_refl) Ep). cbn. now rewrite IH'.
  - destruct (q x); cbn; rewrite IH'; lia.
Qed.

(** The messages of a set of sessions with distinct ids, counted session by
    session or all at once. *)
Lemma rows_by_session (S : list chat_session) (ms : list chat_message) :
  NoDup (map s_id S) ->
  fold_right (fun s acc =>
      Z.of_nat (List.length (filter (fun m => (m_session_id m =? s_id s)%N) ms)) + acc)
    0 S
  = Z.of_nat (List.length
      (filter (fun m => existsb (fun s => (s_id s =? m_session_id m)%N) S) ms)).
Proof.
  induction S as [|s S IH]; intros Hnd.
  - cbn. now rewrite filter_none.
  - inversion Hnd as [|? ? Hx Hl]; subst. cbn [fold_right existsb].
    rewrite (IH Hl), filter_or_length, Nat2Z.inj_add.
    + f_equal. f_equal. apply filter_ext_length. intros m _. apply N.eqb_sym.
    + intros m _ Hm. apply N.eqb_eq in Hm.
      apply not_true_is_false. intros He.
      apply existsb_exists in He as (s' & Hs' & Hid). apply N.eqb_eq in Hid.
      apply Hx. rewrite Hm, <- Hid. now apply in_map.
Qed.

Lemma distinct_ids_filter (keep : chat_session -> bool)
    (sessions : list chat_session) :
  NoDup (map s_id sessions) -> NoDup (map s_id (filter keep sessions)).
Proof.
  intros Hkeys. induction sessions as [|s rest IH]; [constructor|].
  cbn [map] in Hkeys. inversion Hkeys as [|? ? Hfresh Hrest]; subst. cbn [filter].
  destruct (keep s); [|now apply IH].
  cbn [map]. constructor; [|now apply IH].
  intros Hin. apply Hfresh. apply in_map_iff in Hin as (s' & Hid & Hin).
  apply filter_In in Hin as [Hin _]. rewrite <- Hid. now apply in_map.
Qed.

Lemma existsb_filter {A} (p q : A -> bool) (l : list A) :
  existsb p (filter q l) = existsb (fun x => q x && p x) l.
Proof.
  induction l as [|x l IH]; [reflexivity|]. cbn [filter existsb].
  destruct (q x); cbn; now rewrite IH.
Qed.

(** X25. On a database whose counters are right, the dashboard's 'Messages
    Exchanged' (the sum of [message_count] over the sessions fetched) is the
    number of messages the signed-in user can read, that is, of the
    messages in that user's sessions; 'Total Sessions' is the number of that
    user's sessions. *)
Theorem dashboard_totals (uid : uuid) (db : DB) :
  sessions_keyed db -> counts_consistent db ->
  totalMessages (fetchSessions uid db)
  = Z.of_nat (List.length
      (filter (message_policy (authenticated uid) db) (chat_messages db)))
  /\ totalSessions (fetchSessions uid db)
     = Z.of_nat (List.length
         (filter (fun s => (s_user_id s =? uid)%N) (chat_sessions db))).
Proof.
  intros Hkey Hcons. split.
  - unfold fetchSessions.
    rewrite <- (totalMessages_perm (sort_by_updated_perm _)), totalMessages_sum.
    set (S := filter (own uid) (chat_sessions db)).
    assert (Hsum :
      fold_right (fun s acc => message_count s + acc) 0 S
      = fold_right (fun s acc =>
          Z.of_nat (List.length
            (filter (fun m => (m_session_id m =? s_id s)%N) (chat_messages db))) + acc)
          0 S).
    { assert (HS : forall s, In s S -> In s (chat_sessions db))
        by (intros s Hs; apply filter_In in Hs; tauto).
      induction S as [|s S IH]; [reflexivity|]. cbn [fold_right].
      rewrite IH by (intros x Hx; apply HS; now right).
      f_equal. apply (Hcons s). apply HS. now left. }
    rewrite Hsum, rows_by_session by (apply distinct_ids_filter; exact Hkey).
    f_equal. apply filter_ext_length. intros m _. unfold S.
    rewrite existsb_filter. cbn [message_policy].
    apply eq_true_iff_eq. rewrite !existsb_exists.
    split; intros (s & Hin & H); exists s; (split; [exact Hin|]).
    + unfold own in H. simpl in H.
      apply andb_prop in H as [H Hid]. apply andb_prop in H as [_ Hu].
      now rewrite Hid, Hu.
    + apply andb_prop in H as [Hid Hu]. unfold own. simpl.
      rewrite Hid, Hu. apply N.eqb_eq in Hu. rewrite Hu. now rewrite N.eqb_refl.
  - unfold totalSessions, fetchSessions.
    rewrite <- (Permutation_length (sort_by_updated_perm _)).
    f_equal. apply filter_ext_length. intros s _. unfold own. simpl.
    rewrite (N.eqb_sym uid). now destruct (s_user_id s =? uid)%N.
Qed.

(** X26. Writing a message brings its session to the top of the dashboard:
    after a user's insert succeeds at a time later than every [updated_at]
    in the table, the list fetched for that user starts with the session the
    message went to. *)
Theorem written_session_comes_first (uid : uuid) (now : Z) (db db' : DB)
    (m : chat_message) :
  sessions_keyed db ->
  (forall s, In s (chat_sessions db) -> s_updated_at s < now) ->
  insert_message (authenticated uid) now db m = Some db' ->
  exists s rest,
    fetchSessions uid db' = s :: rest
    /\ s_id s = m_session_id m /\ s_updated_at s = now
    /\ message_count s = rows_of db' (m_session_id m).
Proof.
  intros Hkey Hold Hins.
  destruct (insert_message_inv _ _ _ _ Hins) as (_ & _ & Href & Hpol & Hdb).
  (* the session written to, before and after *)
  apply existsb_exists in Href as (s0 & Hin0 & Hid0). apply N.eqb_eq in Hid0.
  pose proof (@policy_owner uid db m s0 Hkey Hpol Hin0 Hid0) as Hown0.
  assert (Hsess : forall s, In s (chat_sessions db') ->
            s_user_id s = uid ->
            (s_id s = m_session_id m /\ s_updated_at s = now
             /\ message_count s = rows_of db' (m_session_id m))
            \/ s_updated_at s < now).
  { intros s Hs Hu. rewrite Hdb in Hs.
    cbn [update_session_message_count chat_sessions] in Hs.
    apply in_map_iff in Hs as (s1 & Hs1 & Hin1).
    destruct (s_id s1 =? m_session_id m)%N eqn:E.
    - apply N.eqb_eq in E. left.
      assert (Hp : session_policy (authenticated uid) s1 = true).
      { simpl. rewrite (@policy_owner uid db m s1 Hkey Hpol Hin1 E). apply N.eqb_refl. }
      rewrite Hp in Hs1. subst s. cbn. split; [exact E|]. split; [reflexivity|].
      rewrite Hdb.
      change (rows_of (update_session_message_count (authenticated uid) now
                {| chat_sessions := chat_sessions db;
                   chat_messages := chat_messages db ++ [m] |} m) (m_session_id m))
        with (rows_of {| chat_sessions := chat_sessions db;
                         chat_messages := chat_messages db ++ [m] |} (m_session_id m)).
      now apply select_count_sees_all.
    - rewrite andb_false_r in Hs1. subst s1. right. now apply Hold. }
  assert (Hstar : exists s, In s (fetchSessions uid db') /\ s_updated_at s = now).
  { pose proof (fetch_members uid db') as Hiff.
    set (f := fun s =>
      if session_policy (authenticated uid) s && (s_id s =? m_session_id m)%N then
        {| s_id := s_id s; s_user_id := s_user_id s;
           s_title := s_title s; s_created_at := s_created_at s;
           s_updated_at := now;
           message_count := select_count (authenticated uid)
             {| chat_sessions := chat_sessions db;
                chat_messages := chat_messages db ++ [m] |} (m_session_id m) |}
      else s).
    assert (Hf : f s0 = {| s_id := s_id s0; s_user_id := s_user_id s0;
           s_title := s_title s0; s_created_at := s_created_at s0;
           s_updated_at := now;
           message_count := select_count (authenticated uid)
             {| chat_sessions := chat_sessions db;
                chat_messages := chat_messages db ++ [m] |} (m_session_id m) |}).
    { unfold f. simpl. now rewrite Hown0, Hid0, !N.eqb_refl. }
    exists (f s0). split; [|now rewrite Hf].
    apply Hiff. split; [|now rewrite Hf].
    rewrite Hdb. exact (in_map f _ _ Hin0). }
  destruct Hstar as (star & Hstar & Hnow).
  pose proof (fetch_sorted uid db') as Hsorted.
  pose proof (fetch_members uid db') as Hiff.
  destruct (fetchSessions uid db') as [|h rest] eqn:Ef; [contradiction|].
  exists h, rest. split; [reflexivity|].
  assert (Hh : In h (chat_sessions db') /\ s_user_id h = uid)
    by (apply Hiff; now left).
  destruct (Hsess h (proj1 Hh) (proj2 Hh)) as [(H1 & H2 & H3)|Hlt]; [now repeat split|].
  exfalso. inversion Hsorted as [|? ? _ Hall]; subst.
  destruct Hstar as [<-|Hr]; [lia|].
  rewrite Forall_forall in Hall. specialize (Hall star Hr).
  unfold newest_first in Hall. lia.
Qed.

End DashboardFacts.

(** ** The components that call the hooks *)

Section ComposerFacts.
Import JS Invariants Composer.
Local Open Scope Z_scope.

Lemma trim_nonblank (s : jsstring) : ~ blank s -> exists c r, trim s = c :: r.
Proof.
  intros H. destruct (trim s) as [|c r] eqn:E; [|now exists c, r].
  exfalso. apply H. now apply trim_nil_iff.
Qed.

(** X27. [MessageInput] sends nothing while it is disabled or when the
    text is blank, and the text stays in the box; otherwise it sends the text
    trimmed, which is not empty and neither starts nor ends with
    whitespace, and clears the box.  A key other than Enter, or Enter with
    Shift, sends nothing. *)
Theorem handleSubmit_sends_trimmed (disabled : bool) (message : jsstring) :
  (disabled = true \/ blank message ->
     handleSubmit disabled message = (None, message))
  /\ (disabled = false -> ~ blank message ->
        handleSubmit disabled message = (Some (trim message), [])
        /\ trim message <> []
        /\ trim (trim message) = trim message
        /\ (forall c r, trim message = c :: r -> is_whitespace c = false)
        /\ (forall c r, trim message = r ++ [c] -> is_whitespace c = false))
  /\ (forall key shiftKey,
        key <> js "Enter" \/ shiftKey = true ->
        handleKeyDown key shiftKey disabled message = (None, message))
  /\ handleKeyDown (js "Enter") false disabled message
     = handleSubmit disabled message.
Proof.
  split; [|split; [|split]].
  - intros [->|Hb]; unfold handleSubmit.
    + now rewrite andb_false_r.
    + now rewrite (proj2 (trim_nil_iff message) Hb).
  - intros -> Hnb. destruct (trim_nonblank Hnb) as (c & r & E).
    unfold handleSubmit. rewrite E. cbn [truthy_string andb negb].
    split; [reflexivity|]. split; [discriminate|].
    rewrite <- E. split; [apply trim_idem|]. apply trim_ends.
  - intros key shiftKey [Hk| ->]; unfold handleKeyDown.
    + destruct (jsstring_eqb key (js "Enter")) eqn:E; [|reflexivity].
      apply jsstring_eqb_eq in E. contradiction.
    + now rewrite andb_false_r.
  - reflexivity.
Qed.

Variable opts : UseChat.Options.
Variable toLocaleTimeString : Z -> jsstring.

Lemma hook_appends (content : jsstring) (context : option json) (now : Z)
    (s : UseChat.State) :
  ~ blank content ->
  exists u,
    UseChat.messages (fst (UseChat.sendMessage opts toLocaleTimeString
                             content context now s))
    = UseChat.messages s ++ [u]
    /\ Types.content (UseChat.base u) = content
    /\ UseChat.sender u = UseChat.user.
Proof.
  intros Hnb. destruct (trim_nonblank Hnb) as (c & r & E).
  unfold UseChat.sendMessage. rewrite E.
  cbn [truthy_string negb UseChat.wsRef UseChat.set_isTyping
       UseChat.set_messageCount UseChat.set_messages].
  destruct (UseChat.wsRef s) as [[]|]; cbn; eexists; repeat split.
Qed.

(** X28. [ChatInterface.handleSend] takes the text of the suggestion
    clicked, or the input box when there is none (or it is empty).  For a
    blank text it does nothing and does not call the hook.  Otherwise it
    clears the input box and calls the hook's [sendMessage] with the text
    untrimmed and a context of the personality, typing speed and session
    duration; that call always passes the hook's own blank check and appends
    the user's message. *)
Theorem handleSend_calls_hook
    (messageText : option jsstring) (ui : ChatUi) (now : Z) (s : UseChat.State) :
  let text := match messageText with
              | Some (c :: t) => c :: t
              | _ => inputMessage ui
              end in
  (blank text -> handleSend messageText ui = (ui, None))
  /\ (~ blank text ->
      exists context,
        snd (handleSend messageText ui) = Some (text, context)
        /\ inputMessage (fst (handleSend messageText ui)) = []
        /\ getProp context (js "personality") = Normal (Some (JStr (aiPersonality ui)))
        /\ getProp context (js "typing_speed")
           = Normal (Some (JNum (inject_Z (typingSpeed ui))))
        /\ getProp context (js "session_duration")
           = Normal (Some (JNum (inject_Z (sessionDuration ui))))
        /\ exists u,
             UseChat.messages (fst (UseChat.sendMessage opts toLocaleTimeString
                                      text (Some context) now s))
             = UseChat.messages s ++ [u]
             /\ Types.content (UseChat.base u) = text
             /\ UseChat.sender u = UseChat.user).
Proof.
  cbv zeta.
  assert (Htext : match messageText with
                  | Some t => if truthy_string t then t else inputMessage ui
                  | None => inputMessage ui
                  end
                  = match messageText with
                    | Some (c :: t) => c :: t
                    | _ => inputMessage ui
                    end) by (now destruct messageText as [[|c t]|]).
  unfold handleSend. rewrite Htext.
  set (text := match messageText with
               | Some (c :: t) => c :: t
               | _ => inputMessage ui
               end).
  split.
  - intros Hb. now rewrite (proj2 (trim_nil_iff text) Hb).
  - intros Hnb. destruct (trim_nonblank Hnb) as (c & r & E). rewrite E.
    cbn [truthy_string negb fst snd inputMessage].
    eexists. split; [reflexivity|]. split; [reflexivity|].
    split; [reflexivity|]. split; [reflexivity|]. split; [reflexivity|].
    now apply hook_appends.
Qed.

Lemma two_digits :
  forallb (fun r => jsstring_eqb (padStart (Z_toString r) 2 (js "0"))
                      [Z.to_N (48 + r / 10); Z.to_N (48 + r mod 10)])
          (map Z.of_nat (seq 0 60)) = true.
Proof. vm_compute. reflexivity. Qed.

(** X29. The session clock shows minutes and seconds as [m:ss]: for a
    duration of [seconds >= 0] the text is the decimal number of whole
    minutes (not wrapped at 60, there is no hours field), a colon, and the
    remaining seconds in exactly two digits, zero-padded. *)
Theorem formatSessionDuration_shape (seconds : Z) :
  0 <= seconds ->
  let r := seconds mod 60 in
  formatSessionDuration seconds
  = Z_toString (seconds / 60) ++ js ":"
    ++ [Z.to_N (48 + r / 10); Z.to_N (48 + r mod 10)]
  /\ 0 <= r / 10 <= 5 /\ 0 <= r mod 10 <= 9
  /\ seconds = 60 * (seconds / 60) + r.
Proof.
  intros H r. unfold formatSessionDuration.
  rewrite Z.rem_mod_nonneg by lia. fold r.
  assert (Hr : 0 <= r < 60) by (apply Z.mod_pos_bound; lia).
  assert (Hin : In r (map Z.of_nat (seq 0 60))).
  { apply in_map_iff. exists (Z.to_nat r). split; [lia|].
    apply in_seq. lia. }
  pose proof (proj1 (forallb_forall _ _) two_digits r Hin) as Hp.
  apply jsstring_eqb_eq in Hp. rewrite Hp.
  split; [reflexivity|]. split; [|split].
  - pose proof (Z.div_mod r 10). pose proof (Z.mod_pos_bound r 10). lia.
  - pose proof (Z.mod_pos_bound r 10). lia.
  - unfold r. apply Z.div_mod. lia.
Qed.

End ComposerFacts.

(** ** The hook kept in the browser *)

Section LocalChatFacts.
Import JS Therapist Invariants.

Variable toLowerCase : jsstring -> jsstring.

(** X30. In the browser-only chat, a message typed while the therapist is
    not typing goes through [MessageInput] trimmed; [sendMessage] appends it
    and turns the typing indicator on, which disables the input until the
    reply; and when the lowercased message contains a crisis keyword the
    reply appended next is the crisis response, whatever the draw: the
    conversation then ends with the user's trimmed text followed by the
    crisis response, and the input is enabled again. *)
Theorem local_chat_crisis_reply
    (text : jsstring) (draw : nat) (now later : Z) (s : LocalChat.State) :
  LocalChat.isTyping s = false ->
  (exists keyword, In keyword crisisKeywords
                   /\ includes (toLowerCase (trim text)) keyword = true) ->
  ~ blank text ->
  let sent := fst (Composer.handleSubmit (LocalChat.isTyping s) text) in
  let s1 := fst (LocalChat.sendMessage (trim text) now s) in
  let pending := snd (LocalChat.sendMessage (trim text) now s) in
  let s2 := LocalChat.reply toLowerCase draw pending later s1 in
  sent = Some (trim text)
  /\ LocalChat.isTyping s1 = true
  /\ (forall other, fst (Composer.handleSubmit (LocalChat.isTyping s1) other) = None)
  /\ map content (LocalChat.messages s2)
     = map content (LocalChat.messages s) ++ [trim text; crisisResponse]
  /\ map sender (LocalChat.messages s2)
     = map sender (LocalChat.messages s) ++ [user; therapist]
  /\ LocalChat.isTyping s2 = false.
Proof.
  intros Hty (keyword & Hk & Hi) Hnb. cbv zeta.
  destruct (trim_nonblank Hnb) as (c & r & E).
  split; [|split; [reflexivity|split]].
  - unfold Composer.handleSubmit. rewrite Hty, E. reflexivity.
  - intros other. unfold Composer.handleSubmit. cbn [LocalChat.sendMessage fst
      LocalChat.isTyping negb]. now rewrite andb_false_r.
  - assert (Hc : generateTherapistResponse toLowerCase draw (trim text)
                   (LocalChat.messages s) = crisisResponse).
    { unfold generateTherapistResponse, some.
      replace (existsb (fun keyword0 => includes (toLowerCase (trim text)) keyword0)
                       crisisKeywords) with true; [reflexivity|].
      symmetry. apply existsb_exists. now exists keyword. }
    unfold LocalChat.reply, LocalChat.sendMessage.
    cbn [fst snd LocalChat.messages LocalChat.isTyping
         LocalChat.pending_content LocalChat.pending_history].
    rewrite Hc, !map_app, <- !app_assoc. now repeat split.
Qed.

End LocalChatFacts.

(** ** The properties above at concrete inputs *)

Lemma sendMessage_nonblank_witness :
  ~ Invariants.blank (JS.js "hello")
  /\ snd (UseChat.sendMessage Examples.hook_options Examples.utc_clock
            (JS.js "hello") None 1750000000000%Z UseChat.initial)
     = [UseChat.PostChat (JS.js "hello") (JS.js "s1") (JS.JObj [])].
Proof.
  assert (H : ~ Invariants.blank (JS.js "hello"))
    by (intros H; inversion H; discriminate).
  split; [exact H|].
  exact (proj2 (proj2 (proj2
    (@sendMessage_nonblank Examples.hook_options Examples.utc_clock
       (JS.js "hello") None 1750000000000%Z UseChat.initial H)))).
Defined.

Lemma reconnect_budget_witness :
  (0 <= UseChat.reconnectAttempts UseChat.initial <= UseChat.maxReconnectAttempts)%Z
  /\ ~ In UseChat.WsOnOpen (repeat UseChat.WsOnClose 9)
  /\ (Z.of_nat (List.length (UseChat.timeouts (snd
        (UseChat.run Examples.hook_options Examples.utc_clock UseChat.initial
           (repeat UseChat.WsOnClose 9))))) <= 5)%Z.
Proof.
  assert (H1 : (0 <= UseChat.reconnectAttempts UseChat.initial
                <= UseChat.maxReconnectAttempts)%Z)
    by (split; apply Z.leb_le; reflexivity).
  assert (H2 : ~ In UseChat.WsOnOpen (repeat UseChat.WsOnClose 9))
    by (intros H; apply repeat_spec in H; discriminate).
  split; [exact H1|]. split; [exact H2|].
  exact (@reconnect_budget Examples.hook_options Examples.utc_clock
           UseChat.initial (repeat UseChat.WsOnClose 9) H1 H2).
Defined.

Lemma cleanup_then_close_witness :
  (UseChat.reconnectAttempts UseChat.initial < UseChat.maxReconnectAttempts)%Z
  /\ UseChat.timeouts (snd (UseChat.onclose Examples.hook_options
                              (fst (UseChat.cleanup UseChat.initial))))
     = [2000%Z].
Proof.
  assert (H : (UseChat.reconnectAttempts UseChat.initial
               < UseChat.maxReconnectAttempts)%Z) by (apply Z.ltb_lt; reflexivity).
  split; [exact H|].
  exact (proj2 (proj2 (proj2
    (@cleanup_then_close_reconnects Examples.hook_options UseChat.initial H)))).
Defined.

Lemma messages_append_only_witness :
  (forall h hist c,
     UseChat.AddReaction (JS.Z_toString 1750000000000) UseChat.Insightful
     = UseChat.InitializeChat h hist c -> h = false \/ hist = [])
  /\ exists kept added,
       UseChat.messages (fst (UseChat.step Examples.hook_options Examples.utc_clock
          Examples.reacted
          (UseChat.AddReaction (JS.Z_toString 1750000000000) UseChat.Insightful)))
       = kept ++ added
       /\ Forall2 Invariants.same_identity (UseChat.messages Examples.reacted) kept
       /\ (List.length added <= 1)%nat.
Proof.
  assert (H : forall h hist c,
     UseChat.AddReaction (JS.Z_toString 1750000000000) UseChat.Insightful
     = UseChat.InitializeChat h hist c -> h = false \/ hist = [])
    by (intros; discriminate).
  split; [exact H|].
  exact (@messages_append_only Examples.hook_options Examples.utc_clock
           Examples.reacted _ H).
Defined.

Lemma addReaction_twice_witness :
  (forall m, In m (UseChat.messages Examples.reacted) ->
     UseChat.id m = JS.Z_toString 1750000000000 ->
     UseChat.userReaction m = None \/ UseChat.userReaction m = Some UseChat.Helpful)
  /\ fst (UseChat.addReaction (JS.Z_toString 1750000000000) UseChat.Helpful
            (fst (UseChat.addReaction (JS.Z_toString 1750000000000) UseChat.Helpful
                    Examples.reacted)))
     = Examples.reacted.
Proof.
  assert (H : forall m, In m (UseChat.messages Examples.reacted) ->
     UseChat.id m = JS.Z_toString 1750000000000 ->
     UseChat.userReaction m = None \/ UseChat.userReaction m = Some UseChat.Helpful)
    by (intros m [<-|[]] _; right; reflexivity).
  split; [exact H|].
  exact (@addReaction_twice (JS.Z_toString 1750000000000) UseChat.Helpful
           Examples.reacted H).
Defined.

Lemma history_load_witness :
  Examples.two_items <> []
  /\ UseChat.messageCount
       (fst (UseChat.initializeChat Examples.hook_options Examples.utc_clock
               true Examples.two_items true Examples.reacted)) = 2%Z.
Proof.
  assert (H : Examples.two_items <> []) by discriminate.
  split; [exact H|].
  exact (proj1 (@history_load Examples.hook_options Examples.utc_clock
                  Examples.two_items true Examples.reacted H)).
Defined.

Lemma initialize_unhealthy_witness :
  (Api.FetchRejected = Api.FetchRejected
   \/ exists r, Api.FetchRejected = Api.Fetched r /\ Api.ok r = false)
  /\ fst (UseChat.initializeChat Examples.hook_options Examples.utc_clock
            (Api.checkHealth Api.FetchRejected) Examples.two_items true
            Examples.reacted)
     = Examples.reacted.
Proof.
  assert (H : Api.FetchRejected = Api.FetchRejected
              \/ exists r, Api.FetchRejected = Api.Fetched r /\ Api.ok r = false)
    by (left; reflexivity).
  split; [exact H|].
  exact (proj1 (@initialize_unhealthy Examples.hook_options Examples.utc_clock
                  Api.FetchRejected Examples.two_items true Examples.reacted H)).
Defined.

Lemma keyword_precedence_witness :
  JS.some (fun keyword =>
       JS.includes (Therapist.ascii_toLowerCase (JS.js "I am ANXIOUS and sad, help"))
                   keyword)
    Therapist.crisisKeywords = false
  /\ Therapist.generateTherapistResponse Therapist.ascii_toLowerCase 4
       (JS.js "I am ANXIOUS and sad, help") []
     = Therapist.anxietyResponse.
Proof.
  assert (H : JS.some (fun keyword =>
       JS.includes (Therapist.ascii_toLowerCase (JS.js "I am ANXIOUS and sad, help"))
                   keyword)
    Therapist.crisisKeywords = false) by (vm_compute; reflexivity).
  split; [exact H|].
  apply (@keyword_precedence Therapist.ascii_toLowerCase 4
           (JS.js "I am ANXIOUS and sad, help") [] H).
  vm_compute. reflexivity.
Defined.

Lemma depression_response_witness :
  Therapist.generateTherapistResponse Therapist.ascii_toLowerCase 4
    (JS.js "So lonely lately") [] = Therapist.depressionResponse
  /\ exists keyword,
       In keyword (map JS.js ["depressed"; "sad"; "empty"; "lonely"]%string)
       /\ JS.includes (Therapist.ascii_toLowerCase (JS.js "So lonely lately")) keyword
          = true.
Proof.
  assert (H : Therapist.generateTherapistResponse Therapist.ascii_toLowerCase 4
    (JS.js "So lonely lately") [] = Therapist.depressionResponse)
    by (vm_compute; reflexivity).
  split; [exact H|].
  exact (proj1 (@depression_response_keywords Therapist.ascii_toLowerCase 4
                  (JS.js "So lonely lately") [] H)).
Defined.

Lemma two_users_coherent : Invariants.coherent Examples.two_users.
Proof.
  split; [|split].
  - repeat constructor; simpl; intuition discriminate.
  - intros s [<-|[<-|[]]]; reflexivity.
  - intros m [<-|[]]. eexists. split; [left; reflexivity|reflexivity].
Qed.

Lemma insert_touches_witness :
  Migration.sessions_keyed Examples.two_users
  /\ Migration.insert_message (Migration.authenticated 7%N) 3000
       Examples.two_users Examples.second_message = Some Examples.after_second
  /\ map Migration.s_updated_at (Migration.chat_sessions Examples.after_second)
     = [3000%Z; 1500%Z]
  /\ Migration.chat_messages Examples.after_second
     = Migration.chat_messages Examples.two_users ++ [Examples.second_message].
Proof.
  pose proof (proj1 two_users_coherent) as Hk.
  assert (Hi : Migration.insert_message (Migration.authenticated 7%N) 3000
       Examples.two_users Examples.second_message = Some Examples.after_second)
    by reflexivity.
  split; [exact Hk|]. split; [exact Hi|]. split; [reflexivity|].
  exact (proj1 (@insert_touches_one_session (Migration.authenticated 7%N) 3000%Z
                  Examples.two_users Examples.second_message
                  Examples.after_second Hk Hi)).
Defined.

Lemma insert_ownership_witness :
  Migration.sessions_keyed Examples.two_users
  /\ Migration.insert_message (Migration.authenticated 8%N) 3000
       Examples.two_users Examples.second_message = None.
Proof.
  pose proof (proj1 two_users_coherent) as Hk.
  split; [exact Hk|].
  apply (proj2 (@insert_respects_ownership 8%N 3000%Z Examples.two_users
                  Examples.second_message Hk)).
  eexists. split; [left; reflexivity|]. split; [reflexivity|discriminate].
Defined.

Lemma delete_session_scope_witness :
  Migration.sessions_keyed Examples.two_users
  /\ (forall m, In m (Migration.chat_messages Examples.two_users) ->
        In m (Migration.chat_messages
                (Migration.delete_session (Migration.authenticated 8%N)
                   Examples.two_users 1%N))).
Proof.
  pose proof (proj1 two_users_coherent) as Hk.
  split; [exact Hk|].
  intros m Hm.
  pose proof (@delete_session_scope 8%N Examples.two_users 1%N Hk) as (_ & H & _).
  refine (H m _ Hm (or_introl eq_refl) _ _).
  - destruct Hm as [<-|[]]. reflexivity.
  - discriminate.
Defined.

Lemma delete_session_coherent_witness :
  Invariants.coherent Examples.two_users
  /\ Invariants.coherent
       (Migration.delete_session (Migration.authenticated 7%N) Examples.two_users 1%N).
Proof.
  split; [exact two_users_coherent|].
  exact (@delete_session_coherent (Migration.authenticated 7%N) Examples.two_users
           1%N two_users_coherent).
Defined.

Lemma workload_witness :
  Forall Workload.no_privileged_delete Examples.statements
  /\ Invariants.coherent Examples.two_users
  /\ Invariants.coherent (Workload.execute_all Examples.two_users Examples.statements).
Proof.
  assert (H : Forall Workload.no_privileged_delete Examples.statements)
    by (repeat constructor).
  split; [exact H|]. split; [exact two_users_coherent|].
  exact (@workload_keeps_coherence Examples.two_users Examples.statements
           H two_users_coherent).
Defined.

Lemma dashboard_totals_witness :
  Migration.sessions_keyed Examples.after_second
  /\ Migration.counts_consistent Examples.after_second
  /\ Dashboard.totalMessages (Dashboard.fetchSessions 7%N Examples.after_second)
     = Z.of_nat (List.length
         (filter (Migration.message_policy (Migration.authenticated 7%N)
                    Examples.after_second)
                 (Migration.chat_messages Examples.after_second))).
Proof.
  assert (Hk : Migration.sessions_keyed Examples.after_second)
    by (repeat constructor; simpl; intuition discriminate).
  assert (Hc : Migration.counts_consistent Examples.after_second)
    by (intros s [<-|[<-|[]]]; reflexivity).
  split; [exact Hk|]. split; [exact Hc|].
  exact (proj1 (@dashboard_totals 7%N Examples.after_second Hk Hc)).
Defined.

Lemma written_session_witness :
  Migration.sessions_keyed Examples.two_users
  /\ (forall s, In s (Migration.chat_sessions Examples.two_users) ->
        (Migration.s_updated_at s < 3000)%Z)
  /\ Migration.insert_message (Migration.authenticated 7%N) 3000
       Examples.two_users Examples.second_message = Some Examples.after_second
  /\ exists s rest,
       Dashboard.fetchSessions 7%N Examples.after_second = s :: rest
       /\ Migration.s_id s = 1%N /\ Migration.s_updated_at s = 3000%Z
       /\ Migration.message_count s = 2%Z.
Proof.
  pose proof (proj1 two_users_coherent) as Hk.
  assert (Ho : forall s, In s (Migration.chat_sessions Examples.two_users) ->
        (Migration.s_updated_at s < 3000)%Z)
    by (intros s [<-|[<-|[]]]; apply Z.ltb_lt; reflexivity).
  assert (Hi : Migration.insert_message (Migration.authenticated 7%N) 3000
       Examples.two_users Examples.second_message = Some Examples.after_second)
    by reflexivity.
  split; [exact Hk|]. split; [exact Ho|]. split; [exact Hi|].
  destruct (@written_session_comes_first 7%N 3000%Z Examples.two_users
              Examples.after_second Examples.second_message Hk Ho Hi)
    as (s & rest & Hf & Hid & Hu & Hc).
  exists s, rest. split; [exact Hf|]. split; [exact Hid|]. split; [exact Hu|].
  rewrite Hc. reflexivity.
Defined.

Lemma formatSessionDuration_witness :
  (0 <= 125)%Z /\ Composer.formatSessionDuration 125 = JS.js "2:05".
Proof.
  assert (H : (0 <= 125)%Z) by (apply Z.leb_le; reflexivity).
  split; [exact H|].
  exact (proj1 (@formatSessionDuration_shape 125%Z H)).
Defined.

Lemma local_chat_crisis_witness :
  LocalChat.isTyping Examples.local_start = false
  /\ ~ Invariants.blank Examples.padded_crisis
  /\ map Therapist.content
       (LocalChat.messages
          (LocalChat.reply Therapist.ascii_toLowerCase 3
             (snd (LocalChat.sendMessage (JS.trim Examples.padded_crisis)
                     1750000000000 Examples.local_start))
             1750000002000
             (fst (LocalChat.sendMessage (JS.trim Examples.padded_crisis)
                     1750000000000 Examples.local_start))))
     = [JS.js "I feel so Hopeless"; Therapist.crisisResponse].
Proof.
  assert (H1 : LocalChat.isTyping Examples.local_start = false) by reflexivity.
  assert (H2 : exists keyword, In keyword Therapist.crisisKeywords
     /\ JS.includes (Therapist.ascii_toLowerCase (JS.trim Examples.padded_crisis))
          keyword = true).
  { exists (JS.js "hopeless"). split; [vm_compute; tauto|vm_compute; reflexivity]. }
  assert (H3 : ~ Invariants.blank Examples.padded_crisis).
  { intros H. inversion H as [|? ? _ H']. inversion H' as [|? ? _ H''].
    inversion H'' as [|? ? Hc _]. discriminate Hc. }
  split; [exact H1|]. split; [exact H3|].
  exact (proj1 (proj2 (proj2 (proj2
    (@local_chat_crisis_reply Therapist.ascii_toLowerCase Examples.padded_crisis
       3 1750000000000%Z 1750000002000%Z Examples.local_start H1 H2 H3))))).
Defined.

Lemma bearer_round_trip_witness :
  JS.js "tok " <> []
  /\ Forall (fun c => Api.plain_unit c = true) (JS.js "tok ")
  /\ (exists req,
        Api.post_chat (Some (JS.js "tok ")) Examples.hello_message = Some req
        /\ EdgeChat.authorization req = Some (JS.js "Bearer tok")
        /\ EdgeChat.userId_of Examples.one_user req = JS.js "u7")
  /\ Api.post_chat (Some [97; 10; 98]%N) Examples.hello_message = None.
Proof.
  assert (H1 : JS.js "tok " <> []) by discriminate.
  assert (H2 : Forall (fun c => Api.plain_unit c = true) (JS.js "tok "))
    by (repeat constructor).
  split; [exact H1|]. split; [exact H2|].
  pose proof (@bearer_round_trip Examples.one_user Examples.hello_message)
    as (Hsent & _ & Hrefused).
  split.
  - destruct (Hsent (JS.js "tok ") H1 H2) as (req & Hreq & _ & _ & Hu & _).
    exists req. split; [exact Hreq|]. split.
    + vm_compute in Hreq. inversion Hreq. reflexivity.
    + rewrite Hu. reflexivity.
  - apply Hrefused. right. exists 10%N. split; [vm_compute; tauto|reflexivity].
Defined.

Lemma post_chat_resolves_witness :
  JS.js "hello" <> [] /\ JS.js "s1" <> []
  /\ Api.plain_token (Some (JS.js "tok "))
  /\ exists fields reply,
       Api.sendMessage (fst (Api.fetch_edge (Examples.edge_env Examples.no_table)
                               (Some (JS.js "tok ")) Examples.hello_message []))
       = JS.Normal (JS.JObj fields)
       /\ JS.lookup (JS.js "content") fields = Some (JS.JStr reply)
       /\ In reply EdgeChat.responses
       /\ JS.lookup (JS.js "session_id") fields
          = Some (JS.JStr (JS.Z_toString
                             (EdgeChat.now (Examples.edge_env Examples.no_table)))).
Proof.
  assert (H1 : JS.js "hello" <> []) by discriminate.
  assert (H2 : JS.js "s1" <> []) by discriminate.
  assert (H3 : Api.plain_token (Some (JS.js "tok "))) by (repeat constructor).
  split; [exact H1|]. split; [exact H2|]. split; [exact H3|].
  exact (proj1 (@post_chat_resolves (Examples.edge_env Examples.no_table)
                  (Some (JS.js "tok ")) (JS.js "hello") (JS.js "s1") (JS.JObj []) []
                  H1 H2) H3).
Defined.

Lemma listing_endpoints_witness :
  Api.ok Examples.history_response = true
  /\ Api.getSessionHistory (Api.Fetched Examples.history_response)
     = JS.JArr [JS.JStr (JS.js "a"); JS.JStr (JS.js "b")]
  /\ Api.getAvailableTopics (Api.Fetched Examples.history_response) = JS.JArr [].
Proof.
  pose proof (@listing_endpoints_fall_back Examples.history_response)
    as (Hh & _ & _ & _ & _ & Ht).
  split; [reflexivity|]. split.
  - exact (Hh _ _ eq_refl eq_refl eq_refl eq_refl).
  - apply Ht. do 3 right. eexists. split; [reflexivity|reflexivity].
Defined.
